(** * A shallow embedding of the control-plane resource server

    The Go package [server] implements a reflective CRUD engine over
    protobuf messages and a SQL store.  This development embeds the
    registry ([server/registry.go]) and the resource operations
    ([server/resources.go]) as functions over an explicit model of
    protobuf reflection, of the [database/sql] connection and of gRPC
    status errors, and states the properties of the engine against it.

    Conventions of the model:
    - a method of [*resourceServer] is a state transformer over the
      server (registry and database) that yields a value, an error or a
      panic;
    - the clock and the uuid generator are inputs: the instants read by
      [timestamppb.Now()] and the string of [uuid.New()] are arguments
      of the methods that call them;
    - the store is reachable: a statement fails for a missing relation,
      a violated uniqueness constraint or a negative [LIMIT], and
      [BeginTx] and [Commit] succeed; timestamps are stored as their
      text, without loss of precision;
    - one request runs at a time. *)

From Stdlib Require Import ZArith Ascii String List Lia.
From Stdlib Require Import DecimalString DecimalZ.
From stdpp Require Import base option list gmap strings pretty.

Local Open Scope string_scope.
Local Open Scope list_scope.

(** ** Outcomes of Go calls

    A Go function of this package either returns a value, returns a
    non-nil [error], or panics (nil interface dereference inside
    protoreflect). *)

Inductive Code :=
  | NotFound | AlreadyExists | Aborted | Unimplemented | Unknown.

Record FieldViolation := {
  fv_field : string;
  fv_description : string
}.

(** [status.Error]/[status.Newf(...).WithDetails] against errors made
    by [fmt.Errorf] or returned by [database/sql] and protobuf. *)
Inductive error :=
  | StatusError (c : Code) (msg : string) (details : list FieldViolation)
  | PlainError (msg : string).

(** [status.Code(err)]: errors that carry no gRPC status are [Unknown]. *)
Definition status_Code (e : error) : Code :=
  match e with
  | StatusError c _ _ => c
  | PlainError _ => Unknown
  end.

Inductive result (A : Type) :=
  | Ok (a : A)
  | Err (e : error)
  | Panic.
Arguments Ok {A} a.
Arguments Err {A} e.
Arguments Panic {A}.

#[global] Instance result_ret : MRet result := fun A a => Ok a.
#[global] Instance result_bind : MBind result := fun A B f m =>
  match m with
  | Ok a => f a
  | Err e => Err e
  | Panic => Panic
  end.

(** ** Protobuf descriptors and dynamic messages *)

Inductive FieldBehavior :=
  | FIELD_BEHAVIOR_UNSPECIFIED | OPTIONAL | REQUIRED
  | OUTPUT_ONLY | INPUT_ONLY | IMMUTABLE.

(** The field kinds that occur in resource messages: scalar strings,
    [google.protobuf.Timestamp] messages and string maps. *)
Inductive Kind := StringKind | MessageKind | MapKind.

Record FieldDescriptor := {
  fd_name : string;
  fd_kind : Kind;
  (** the repeated [google.api.field_behavior] option; [proto.HasExtension]
      holds exactly when the list is not empty *)
  fd_behavior : list FieldBehavior
}.

(** The [google.api.resource] message option. *)
Record ResourceAnnotation := {
  res_type : string;
  res_pattern : string;
  res_plural : string;
  res_singular : string
}.

Record MessageDescriptor := {
  md_name : string;
  md_full_name : string;
  md_fields : list FieldDescriptor;
  md_resource : option ResourceAnnotation
}.

#[global] Instance Code_eq_dec : EqDecision Code.
Proof. solve_decision. Defined.
#[global] Instance FieldBehavior_eq_dec : EqDecision FieldBehavior.
Proof. solve_decision. Defined.
#[global] Instance Kind_eq_dec : EqDecision Kind.
Proof. solve_decision. Defined.
#[global] Instance FieldDescriptor_eq_dec : EqDecision FieldDescriptor.
Proof. solve_decision. Defined.
#[global] Instance ResourceAnnotation_eq_dec : EqDecision ResourceAnnotation.
Proof. solve_decision. Defined.
#[global] Instance MessageDescriptor_eq_dec : EqDecision MessageDescriptor.
Proof. solve_decision. Defined.

(** Instants are nanoseconds since the Unix epoch. *)
Definition Time := Z.

Inductive Value :=
  | VString (s : string)
  (** a [Timestamp] message; [None] is the invalid (nil) message that
      [Get] returns for an unpopulated message field *)
  | VMessage (t : option Time)
  | VMap (kv : list (string * string)).

Record Message := {
  msg_desc : MessageDescriptor;
  msg_fields : gmap string Value
}.

(** [Descriptor().Fields().ByName(name)]; [None] is Go's nil descriptor. *)
Definition ByName (d : MessageDescriptor) (name : string) : option FieldDescriptor :=
  find (fun fd => String.eqb (fd_name fd) name) (md_fields d).

Definition zero_value (k : Kind) : Value :=
  match k with
  | StringKind => VString ""
  | MessageKind => VMessage None
  | MapKind => VMap []
  end.

Definition kind_of (v : Value) : Kind :=
  match v with
  | VString _ => StringKind
  | VMessage _ => MessageKind
  | VMap _ => MapKind
  end.

(** protoreflect checks the descriptor it is handed against the message
    type and panics on a nil or foreign descriptor. *)
Definition checkField (m : Message) (fd : option FieldDescriptor) : result FieldDescriptor :=
  match fd with
  | None => Panic
  | Some fd => if bool_decide (fd ∈ md_fields (msg_desc m)) then Ok fd else Panic
  end.

Definition Get (m : Message) (fd : option FieldDescriptor) : result Value :=
  fd ← checkField m fd;
  Ok (default (zero_value (fd_kind fd)) (msg_fields m !! fd_name fd)).

Definition Set_ (m : Message) (fd : option FieldDescriptor) (v : Value) : result Message :=
  fd ← checkField m fd;
  if bool_decide (kind_of v = fd_kind fd)
  then Ok {| msg_desc := msg_desc m; msg_fields := <[fd_name fd := v]> (msg_fields m) |}
  else Panic.

Definition Clear (m : Message) (fd : option FieldDescriptor) : result Message :=
  fd ← checkField m fd;
  Ok {| msg_desc := msg_desc m; msg_fields := delete (fd_name fd) (msg_fields m) |}.

(** [time.Time.Format(time.RFC3339Nano)] and [time.Parse(time.RFC3339Nano, _)]
    belong to Go's standard library.  The text of an instant is modelled
    by its decimal rendering: what the engine relies on is that a
    formatted instant parses back to itself and that other text may be
    rejected. *)
Definition Format_RFC3339Nano (t : Time) : string :=
  NilZero.string_of_int (Z.to_int t).

Definition Parse_RFC3339Nano (s : string) : result Time :=
  match NilZero.int_of_string s with
  | Some d => Ok (Z.of_int d)
  | None => Err (PlainError "parsing time: cannot parse as RFC3339Nano")
  end.

(** [Value.String()]: the string itself for string values,
    the formatted value otherwise. *)
Definition Value_String (v : Value) : string :=
  match v with
  | VString s => s
  | VMessage None => "<nil>"
  | VMessage (Some t) => Format_RFC3339Nano t
  | VMap kv => "map[" +:+ String.concat " " (map (fun p => fst p +:+ ":" +:+ snd p) kv) +:+ "]"
  end.

(** [v.Message()] panics on a value that is not a message.
    [IsValid] tells the nil message apart, and
    [Interface().( *timestamppb.Timestamp).AsTime()] reads the nil
    [Timestamp] as the epoch, since its getters return zero. *)
Definition Value_Message (v : Value) : result (option Time) :=
  match v with
  | VMessage t => Ok t
  | _ => Panic
  end.

Definition Message_IsValid (msg : option Time) : bool :=
  match msg with
  | Some _ => true
  | None => false
  end.

Definition Timestamp_AsTime (msg : option Time) : Time :=
  default 0%Z msg.

(** ** [anypb.Any] and the global type registry *)

Record Any := {
  type_url : string;
  (** the serialized message: its populated fields *)
  any_value : gmap string Value
}.

Fixpoint contains_slash (s : string) : bool :=
  match s with
  | EmptyString => false
  | String c rest => if Ascii.eqb c "/" then true else contains_slash rest
  end.

(** [protoregistry]: the message name of a type URL is what follows the
    last slash. *)
Fixpoint url_message_name (url : string) : string :=
  match url with
  | EmptyString => EmptyString
  | String c rest =>
      if contains_slash url then url_message_name rest else url
  end.

(** [anypb.New(m)] *)
Definition anypb_New (m : Message) : Any :=
  {| type_url := "type.googleapis.com/" +:+ md_full_name (msg_desc m);
     any_value := msg_fields m |}.

(** ** The SQL store

    One table per resource, with the columns of the [CREATE TABLE]
    statement of the registry.  The [data] column holds the protojson
    text of an [Any]; text that is not such an encoding is kept as
    opaque [Text]. *)

Inductive Data :=
  | JsonAny (a : Any)
  | Text (s : string).

Record Row := {
  row_uid : string;
  row_name : string;
  row_parent : string;
  row_data : Data;
  row_create_time : option string;
  row_update_time : option string;
  row_delete_time : option string
}.

Inductive Column :=
  | col_uid | col_name | col_parent
  | col_create_time | col_update_time | col_delete_time | col_data.

Inductive Cell :=
  | CNull
  | CString (s : string)
  | CData (d : Data).

Definition nullable (o : option string) : Cell :=
  match o with
  | Some s => CString s
  | None => CNull
  end.

Definition select_column (row : Row) (c : Column) : Cell :=
  match c with
  | col_uid => CString (row_uid row)
  | col_name => CString (row_name row)
  | col_parent => CString (row_parent row)
  | col_create_time => nullable (row_create_time row)
  | col_update_time => nullable (row_update_time row)
  | col_delete_time => nullable (row_delete_time row)
  | col_data => CData (row_data row)
  end.

Definition project (cols : list Column) (row : Row) : list Cell :=
  map (select_column row) cols.

Abbreviation Tables := (gmap string (list Row)).

(** A [*sql.DB]: the committed tables and the views of the transactions
    that were begun and neither committed nor rolled back (most recent
    first). *)
Record Database := {
  tables : Tables;
  open_txs : list Tables
}.

Definition relation_missing (table : string) : error :=
  PlainError ("pq: relation " +:+ table +:+ " does not exist").

(** [PrepareContext]: preparing a statement fails on an unknown table. *)
Definition sql_prepare (table : string) (t : Tables) : result unit :=
  match t !! table with
  | Some _ => Ok tt
  | None => Err (relation_missing table)
  end.

(** [SELECT cols FROM table WHERE name = $1] *)
Definition sql_select_by_name (table : string) (cols : list Column) (name : string)
    (t : Tables) : result (list (list Cell)) :=
  match t !! table with
  | Some rows =>
      Ok (map (project cols) (filter (fun row => row_name row = name) rows))
  | None => Err (relation_missing table)
  end.

(** [SELECT cols FROM table WHERE parent = $1 LIMIT n] *)
Definition sql_select_by_parent (table : string) (cols : list Column) (parent : string)
    (limit : Z) (t : Tables) : result (list (list Cell)) :=
  match t !! table with
  | Some rows =>
      if (limit <? 0)%Z then Err (PlainError "pq: LIMIT must not be negative")
      else Ok (take (Z.to_nat limit)
                 (map (project cols) (filter (fun row => row_parent row = parent) rows)))
  | None => Err (relation_missing table)
  end.

(** [INSERT INTO table (uid, name, parent, create_time, update_time, data)]
    under [PRIMARY KEY (uid)] and [UNIQUE (name)]. *)
Definition sql_insert (table : string) (row : Row) (t : Tables) : result Tables :=
  match t !! table with
  | Some rows =>
      if forallb (fun old => negb (String.eqb (row_uid old) (row_uid row))
                             && negb (String.eqb (row_name old) (row_name row))) rows
      then Ok (<[table := rows ++ [row]]> t)
      else Err (PlainError "pq: duplicate key value violates unique constraint")
  | None => Err (relation_missing table)
  end.

Definition set_columns (update_time : string) (delete_time : option string) (data : Data)
    (name : string) (row : Row) : Row :=
  if String.eqb (row_name row) name then
    {| row_uid := row_uid row; row_name := row_name row; row_parent := row_parent row;
       row_data := data;
       row_create_time := row_create_time row;
       row_update_time := Some update_time;
       row_delete_time := delete_time |}
  else row.

(** [UPDATE table SET update_time = $1, delete_time = ..., data = $2 WHERE name = $3] *)
Definition sql_update (table : string) (update_time : string) (delete_time : option string)
    (data : Data) (name : string) (t : Tables) : result Tables :=
  match t !! table with
  | Some rows =>
      Ok (<[table := map (set_columns update_time delete_time data name) rows]> t)
  | None => Err (relation_missing table)
  end.

(** [DELETE FROM table WHERE name = $1] *)
Definition sql_delete (table : string) (name : string) (t : Tables) : result Tables :=
  match t !! table with
  | Some rows =>
      Ok (<[table := filter (fun row => row_name row <> name) rows]> t)
  | None => Err (relation_missing table)
  end.

(** [CREATE TABLE IF NOT EXISTS table (...)] *)
Definition sql_create_table (table : string) (t : Tables) : Tables :=
  match t !! table with
  | Some _ => t
  | None => <[table := []]> t
  end.

(** ** The server and its monad

    [resourceServer] is the receiver of every method.  A method is a
    state transformer over it that stops at the first error or panic;
    what was done to the connection before that point stays done. *)

Record resourceServer := {
  resources : gmap string MessageDescriptor;
  database : Database
}.

Definition M (A : Type) : Type := resourceServer -> result A * resourceServer.

#[global] Instance M_ret : MRet M := fun A a r => (Ok a, r).
#[global] Instance M_bind : MBind M := fun A B f m r =>
  match m r with
  | (Ok a, r') => f a r'
  | (Err e, r') => (Err e, r')
  | (Panic, r') => (Panic, r')
  end.

Definition lift {A} (x : result A) : M A := fun r => (x, r).

(** The receiver [r] of a method. *)
Definition self : M resourceServer := fun r => (Ok r, r).

Definition with_database (r : resourceServer) (db : Database) : resourceServer :=
  {| resources := resources r; database := db |}.

(** [r.database.BeginTx(ctx, &sql.TxOptions{})] *)
Definition BeginTx : M unit := fun r =>
  (Ok tt, with_database r
     {| tables := tables (database r);
        open_txs := tables (database r) :: open_txs (database r) |}).

Definition begun (r : resourceServer) : resourceServer := snd (BeginTx r).

(** The view of the transaction begun last. *)
Definition tx_tables (db : Database) : Tables :=
  hd (tables db) (open_txs db).

(** A statement run on [r.database] outside any transaction. *)
Definition db_query {A} (q : Tables -> result A) : M A := fun r =>
  (q (tables (database r)), r).

(** Statements run on [tx]. *)
Definition tx_query {A} (q : Tables -> result A) : M A := fun r =>
  (q (tx_tables (database r)), r).

Definition tx_exec (q : Tables -> result Tables) : M unit := fun r =>
  match q (tx_tables (database r)) with
  | Ok t => (Ok tt, with_database r
               {| tables := tables (database r);
                  open_txs := t :: tl (open_txs (database r)) |})
  | Err e => (Err e, r)
  | Panic => (Panic, r)
  end.

(** [tx.Commit()] *)
Definition Commit : M unit := fun r =>
  (Ok tt, with_database r
     {| tables := tx_tables (database r);
        open_txs := tl (open_txs (database r)) |}).

(** [db.ExecContext] outside a transaction takes effect at once. *)
Definition db_exec (q : Tables -> Tables) : M unit := fun r =>
  (Ok tt, with_database r
     {| tables := q (tables (database r));
        open_txs := open_txs (database r) |}).

Section Server.

(** [protoregistry.GlobalTypes], the process-wide table of the linked
    message types. *)
Variable GlobalTypes : list MessageDescriptor.

Definition FindMessageByName (name : string) : option MessageDescriptor :=
  find (fun d => String.eqb (md_full_name d) name) GlobalTypes.

Definition FindMessageByURL (url : string) : option MessageDescriptor :=
  FindMessageByName (url_message_name url).

(** [any.UnmarshalNew()].  An [Any] holds its value decoded: the
    failure of the call on value bytes that do not decode has no
    counterpart here, the one on a type that is not linked has. *)
Definition UnmarshalNew (a : Any) : result Message :=
  match FindMessageByURL (type_url a) with
  | Some d => Ok {| msg_desc := d; msg_fields := any_value a |}
  | None => Err (PlainError ("proto: not found: " +:+ type_url a))
  end.

(** [protojson.Marshal] and [protojson.Unmarshal] of an [Any] resolve
    its type URL and fail when the type is not linked in. *)
Definition protojson_Marshal (a : Any) : result Data :=
  match FindMessageByURL (type_url a) with
  | Some _ => Ok (JsonAny a)
  | None => Err (PlainError ("proto: unable to resolve " +:+ type_url a))
  end.

Definition protojson_Unmarshal (data : Data) : result Any :=
  match data with
  | JsonAny a =>
      match FindMessageByURL (type_url a) with
      | Some _ => Ok a
      | None => Err (PlainError ("proto: unable to resolve " +:+ type_url a))
      end
  | Text _ => Err (PlainError "proto: syntax error")
  end.

(** *** Request messages of [serverpb]

    A request reaches the server decoded; its [Resource] is not nil. *)

Record ListResourcesRequest := {
  list_Parent : string;
  list_ResourceType : string;
  list_PageSize : Z;
  list_PageToken : string;
  list_Filter : string
}.

Record ListResourcesResponse := {
  Resources : list Any;
  NextPageToken : string
}.

Record CreateResourceRequest := {
  create_Parent : string;
  create_Resource : Any;
  create_ResourceId : string
}.

Record GetResourceRequest := {
  get_Name : string;
  get_ResourceType : string
}.

Record UpdateResourceRequest := {
  update_Resource : Any;
  (** [nil] when the request carries no mask *)
  update_UpdateMask : option (list string)
}.

Record DeleteResourceRequest := {
  delete_Name : string;
  delete_ResourceType : string
}.

Record UndeleteResourceRequest := {
  undelete_Name : string;
  undelete_ResourceType : string
}.

Record PurgeResourceRequest := {
  purge_Name : string;
  purge_ResourceType : string
}.

(** *** registry.go *)

(** [getResourceTableName]: reading [Singular] off the nil annotation of
    a message without [google.api.resource] panics. *)
Definition getResourceTableName (resource : MessageDescriptor) : result string :=
  match md_resource resource with
  | Some ann => Ok (res_singular ann +:+ "_resource")
  | None => Panic
  end.

Definition ListResourceDescriptors (r : resourceServer) : list MessageDescriptor :=
  map snd (map_to_list (resources r)).

Definition unknownResourceError (r : resourceServer) (resourceType : string) : error :=
  StatusError Unimplemented ("Unknwon resource type provided: " +:+ resourceType)
    [ {| fv_field := "@type";
         fv_description :=
           "Known resource types: " +:+
           String.concat ", " (map md_full_name (ListResourceDescriptors r)) |} ].

(** [r.resources[key] = resource] *)
Definition store_descriptor (key : string) (resource : MessageDescriptor) : M unit := fun r =>
  (Ok tt, {| resources := <[key := resource]> (resources r); database := database r |}).

Definition CreateResourceDescriptor (message : Message) : M unit :=
  let resource := msg_desc message in
  match md_resource resource with
  | None =>
      lift (Err (PlainError
        ("google.api.resource annotation is required for storage registration: "
         +:+ md_name resource +:+ " does not have google.api.resource annoitation")))
  | Some _ =>
      table ← lift (getResourceTableName resource);
      _ ← db_exec (sql_create_table table);
      store_descriptor (md_full_name resource) resource
  end.

Definition GetResourceDescriptor (r : resourceServer) (resourceType : string)
    : result MessageDescriptor :=
  match resources r !! resourceType with
  | None => Err (unknownResourceError r resourceType)
  | Some descriptors => Ok descriptors
  end.

Definition assertRegisteredResourceType (r : resourceServer) (resourceType : string)
    : option error :=
  match resources r !! resourceType with
  | None => None
  | Some _ => Some (unknownResourceError r resourceType)
  end.

Definition assertRegisteredAnyResource (r : resourceServer) (resource : Any)
    : result unit :=
  match resources r !! type_url resource with
  | None => Err (unknownResourceError r (type_url resource))
  | Some _ => Ok tt
  end.

(** *** resources.go *)

Definition scan_string (c : Cell) : result string :=
  match c with
  | CString s => Ok s
  | CNull => Err (PlainError "sql: Scan error: converting NULL to string is unsupported")
  | CData _ => Err (PlainError "sql: Scan error: unsupported column under a string")
  end.

Definition scan_NullString (c : Cell) : result (option string) :=
  match c with
  | CString s => Ok (Some s)
  | CNull => Ok None
  | CData _ => Err (PlainError "sql: Scan error: unsupported column under a string")
  end.

Definition scan_data (c : Cell) : result Data :=
  match c with
  | CData d => Ok d
  | CString s => Ok (Text s)
  | CNull => Err (PlainError "sql: Scan error: converting NULL to string is unsupported")
  end.

(** [scanResource] reads the current row of a cursor: [Scan] takes seven
    destinations and refuses a row of any other width. *)
Definition scanResource (cells : list Cell) : result Any :=
  match cells with
  | [c_uid; c_name; c_parent; c_create; c_update; c_delete; c_data] =>
      uid ← scan_string c_uid;
      name ← scan_string c_name;
      parent ← scan_string c_parent;
      createTime ← scan_string c_create;
      updateTime ← scan_string c_update;
      deleteTime ← scan_NullString c_delete;
      data ← scan_data c_data;
      anyResource ← protojson_Unmarshal data;
      resource ← UnmarshalNew anyResource;
      let resourceFields := msg_desc resource in
      resource ← Set_ resource (ByName resourceFields "uid") (VString uid);
      resource ← Set_ resource (ByName resourceFields "name") (VString name);
      createTimeParsed ← Parse_RFC3339Nano createTime;
      updateTimeParsed ← Parse_RFC3339Nano updateTime;
      resource ←
        match deleteTime with
        | Some s =>
            parsed ← Parse_RFC3339Nano s;
            Set_ resource (ByName resourceFields "delete_time") (VMessage (Some parsed))
        | None => Ok resource
        end;
      resource ← Set_ resource (ByName resourceFields "create_time")
                   (VMessage (Some createTimeParsed));
      resource ← Set_ resource (ByName resourceFields "update_time")
                   (VMessage (Some updateTimeParsed));
      Ok (anypb_New resource)
  | _ => Err (PlainError ("sql: expected " +:+ pretty (length cells)
                          +:+ " destination arguments in Scan, not 7"))
  end.

(** An updater receives the unpacked existing message by reference.  It
    returns the state in which it left that message together with the
    message to store; the two are one object when the updater hands the
    mutated argument back. *)
Definition updaterFunc : Type := Message -> result (Message * Message).

(** The clause of the [UPDATE] that [getResourceDeletion] prints:
    [Some t] for [delete_time = 't'], [None] for [delete_time = NULL]. *)
Definition getResourceDeletion (resource : Message) : result (option string) :=
  deleteTime ← Get resource (ByName (msg_desc resource) "delete_time");
  msg ← Value_Message deleteTime;
  if Message_IsValid msg
  then Ok (Some (Format_RFC3339Nano (Timestamp_AsTime msg)))
  else Ok None.

Definition updatesConflict (existing updated : Message) : result bool :=
  match ByName (msg_desc existing) "etag" with
  | None => Ok false
  | Some etagField =>
      e ← Get existing (Some etagField);
      u ← Get updated (Some etagField);
      Ok (negb (String.eqb (Value_String e) (Value_String u)))
  end.

(** The loop of [clearOutputOnlyFields]: fields without the behavior
    option are skipped, a field is cleared once per [OUTPUT_ONLY]. *)
Definition clear_if_output_only (fd : FieldDescriptor) (resourceCopy : gmap string Value)
    : gmap string Value :=
  match fd_behavior fd with
  | [] => resourceCopy
  | behaviors =>
      fold_left (fun copy behavior =>
                   if bool_decide (behavior = OUTPUT_ONLY)
                   then delete (fd_name fd) copy else copy)
                behaviors resourceCopy
  end.

Definition clearOutputOnlyFields (resource : Message) : Message :=
  {| msg_desc := msg_desc resource;
     msg_fields := fold_left (fun copy fd => clear_if_output_only fd copy)
                             (md_fields (msg_desc resource)) (msg_fields resource) |}.

(** [getFilterValue]: the text of the field labelled [filter], read
    through the descriptor of the message itself. *)
Definition getFilterValue (req : Message) : result string :=
  match ByName (msg_desc req) "filter" with
  | None => Ok ""
  | Some filter =>
      v ← Get req (Some filter);
      Ok (Value_String v)
  end.

Definition all_columns : list Column :=
  [col_uid; col_name; col_parent; col_create_time; col_update_time; col_delete_time; col_data].

Definition getResource (r : resourceServer) (db : Tables) (req : GetResourceRequest)
    : result Any :=
  resourceDescriptor ← GetResourceDescriptor r (get_ResourceType req);
  table ← getResourceTableName resourceDescriptor;
  res ← sql_select_by_name table all_columns (get_Name req) db;
  match res with
  | [] => Err (StatusError NotFound "resource not found" [])
  | row :: _ => scanResource row
  end.

Definition GetResource (req : GetResourceRequest) : M Any :=
  r ← self;
  db_query (fun db => getResource r db req).

Definition conflict_error : error :=
  StatusError Aborted
    "resource %q has been modified. please apply your changes to the latest version and try again"
    [].

(** The tail of [atomicUpdateResource], from the stamping of [update_time]
    to the commit. *)
Definition storeUpdatedResource (resourceFields : MessageDescriptor)
    (updatedResource : Message) (now : Time) : M Any :=
  updatedResource ← lift
    match ByName resourceFields "update_time" with
    | Some updatedField => Set_ updatedResource (Some updatedField) (VMessage (Some now))
    | None => Ok updatedResource
    end;
  let anyResource := anypb_New (clearOutputOnlyFields updatedResource) in
  reqJson ← lift (protojson_Marshal anyResource);
  table ← lift (getResourceTableName (msg_desc updatedResource));
  deletion ← lift (getResourceDeletion updatedResource);
  _ ← tx_query (sql_prepare table);
  update_time ← lift (v ← Get updatedResource (ByName resourceFields "update_time");
                      msg ← Value_Message v;
                      Ok (Timestamp_AsTime msg));
  name ← lift (Get updatedResource (ByName resourceFields "name"));
  _ ← tx_exec (sql_update table (Format_RFC3339Nano update_time) deletion reqJson
                          (Value_String name));
  _ ← Commit;
  mret (anypb_New updatedResource).

Definition atomicUpdateResource (resourceName resourceType : string)
    (updater : updaterFunc) (now : Time) : M Any :=
  r ← self;
  resourceDescriptor ← lift (GetResourceDescriptor r resourceType);
  let resourceFields := resourceDescriptor in
  _ ← BeginTx;
  existingResource ← tx_query (fun tx =>
    getResource r tx {| get_Name := resourceName; get_ResourceType := resourceType |});
  unpacked ← lift (UnmarshalNew existingResource);
  '(unpacked, updatedResource) ← lift (updater unpacked);
  conflict ← lift (updatesConflict unpacked updatedResource);
  if conflict : bool then lift (Err conflict_error)
  else storeUpdatedResource resourceFields updatedResource now.

Definition UndeleteResource (req : UndeleteResourceRequest) (now : Time) : M Any :=
  atomicUpdateResource (undelete_Name req) (undelete_ResourceType req)
    (fun existing =>
       existing ← Clear existing (ByName (msg_desc existing) "delete_time");
       Ok (existing, existing))
    now.

Definition PurgeResource (req : PurgeResourceRequest) : M unit :=
  r ← self;
  resourceDescriptor ← lift (GetResourceDescriptor r (purge_ResourceType req));
  _ ← BeginTx;
  table ← lift (getResourceTableName resourceDescriptor);
  _ ← tx_query (sql_prepare table);
  _ ← tx_exec (sql_delete table (purge_Name req));
  _ ← Commit;
  mret tt.

Fixpoint scan_rows (res : list (list Cell)) : result (list Any) :=
  match res with
  | [] => Ok []
  | row :: rest =>
      resource ← scanResource row;
      resources ← scan_rows rest;
      Ok (resource :: resources)
  end.

Definition list_columns : list Column :=
  [col_uid; col_name; col_parent; col_create_time; col_update_time; col_data].

Definition ListResources (req : ListResourcesRequest) : M ListResourcesResponse :=
  r ← self;
  resourceDescriptor ← lift (GetResourceDescriptor r (list_ResourceType req));
  let PageSize := if (list_PageSize req =? 0)%Z then 50%Z else list_PageSize req in
  table ← lift (getResourceTableName resourceDescriptor);
  res ← db_query (sql_select_by_parent table list_columns (list_Parent req) PageSize);
  resources ← lift (scan_rows res);
  mret {| Resources := resources; NextPageToken := "" |}.

Definition CreateResource (req : CreateResourceRequest) (uid : string)
    (now_create now_update : Time) : M Any :=
  r ← self;
  _ ← lift (assertRegisteredAnyResource r (create_Resource req));
  resource ← lift (UnmarshalNew (create_Resource req));
  let resourceFields := msg_desc resource in
  resource ← lift (Set_ resource (ByName resourceFields "uid") (VString uid));
  resource ← lift (Set_ resource (ByName resourceFields "create_time")
                     (VMessage (Some now_create)));
  resource ← lift
    match ByName resourceFields "update_time" with
    | Some updatedField => Set_ resource (Some updatedField) (VMessage (Some now_update))
    | None => Ok resource
    end;
  let anyResource := anypb_New (clearOutputOnlyFields resource) in
  reqJson ← lift (protojson_Marshal anyResource);
  _ ← BeginTx;
  name ← lift (Get resource (ByName resourceFields "name"));
  found ← tx_query (fun tx =>
    match getResource r tx {| get_Name := Value_String name;
                              get_ResourceType := md_full_name (msg_desc resource) |} with
    | Ok existing => Ok (Some existing)
    | Err err =>
        if bool_decide (status_Code err = NotFound) then Ok None else Err err
    | Panic => Panic
    end);
  match found with
  | Some _ => lift (Err (StatusError AlreadyExists "Resource already exists" []))
  | None =>
      table ← lift (getResourceTableName (msg_desc resource));
      _ ← tx_query (sql_prepare table);
      uid ← lift (Get resource (ByName resourceFields "uid"));
      name ← lift (Get resource (ByName resourceFields "name"));
      create_time ← lift (v ← Get resource (ByName resourceFields "create_time");
                          msg ← Value_Message v;
                          Ok (Timestamp_AsTime msg));
      update_time ← lift (v ← Get resource (ByName resourceFields "update_time");
                          msg ← Value_Message v;
                          Ok (Timestamp_AsTime msg));
      _ ← tx_exec (sql_insert table
             {| row_uid := Value_String uid;
                row_name := Value_String name;
                row_parent := create_Parent req;
                row_data := reqJson;
                row_create_time := Some (Format_RFC3339Nano create_time);
                row_update_time := Some (Format_RFC3339Nano update_time);
                row_delete_time := None |});
      _ ← Commit;
      mret (anypb_New resource)
  end.

Definition resourceName (resource : Any) : result string :=
  r ← UnmarshalNew resource;
  name ← Get r (ByName (msg_desc r) "name");
  Ok (Value_String name).

(** [strings.Split(path, ".")] *)
Fixpoint segments (path : string) : list string :=
  match path with
  | EmptyString => [EmptyString]
  | String c rest =>
      if Ascii.eqb c "."
      then EmptyString :: segments rest
      else match segments rest with
           | segment :: more => String c segment :: more
           | [] => [String c EmptyString]
           end
  end.

Definition valid_path (path : string) : bool :=
  forallb (fun fieldName => negb (String.eqb fieldName "")) (segments path).

(** [fieldmask_utils]: [MaskFromProtoFieldMask] splits every path of
    the field mask at its dots and refuses a path with an empty
    segment; the mask it builds is kept here by the fields that the
    paths start with (every field when there is no path), which are
    the fields of [src] that [StructToStruct mask src dst] writes over
    those of [dst].  Field names are compared as proto names; the Go
    library compares their CamelCase forms.  [StructToStruct] succeeds
    on two messages of one type. *)
Definition Mask : Type := list string.

Definition MaskFromProtoFieldMask (fm : option (list string)) : result Mask :=
  let paths := default [] fm in
  match find (fun path => negb (valid_path path)) paths with
  | Some path => Err (PlainError ("invalid fieldName FieldFilter format: " +:+ path))
  | None => Ok (map (fun path => hd EmptyString (segments path)) paths)
  end.

Definition mask_selects (mask : Mask) (name : string) : bool :=
  match mask with
  | [] => true
  | _ => bool_decide (name ∈ mask)
  end.

Definition StructToStruct (mask : Mask) (src dst : Message) : result Message :=
  Ok {| msg_desc := msg_desc dst;
        msg_fields :=
          fold_left (fun fields fd =>
                       if mask_selects mask (fd_name fd)
                       then match msg_fields src !! fd_name fd with
                            | Some v => <[fd_name fd := v]> fields
                            | None => delete (fd_name fd) fields
                            end
                       else fields)
                    (md_fields (msg_desc src)) (msg_fields dst) |}.

Definition UpdateResource_updater (req : UpdateResourceRequest) : updaterFunc :=
  fun existing =>
    mask ← MaskFromProtoFieldMask (update_UpdateMask req);
    updatedResource ← UnmarshalNew (update_Resource req);
    existingResource ← UnmarshalNew (update_Resource req);
    _ ← StructToStruct mask updatedResource existingResource;
    Ok (existing, updatedResource).

Definition UpdateResource (req : UpdateResourceRequest) (now : Time) : M Any :=
  name ← lift (resourceName (update_Resource req));
  atomicUpdateResource name (type_url (update_Resource req))
    (UpdateResource_updater req) now.

(** [now_delete] is the instant stamped on [delete_time], [now] the one
    stamped on [update_time]; the updater's [fmt.Printf] of the existing
    message is left out. *)
Definition DeleteResource (req : DeleteResourceRequest) (now_delete now : Time) : M Any :=
  atomicUpdateResource (delete_Name req) (delete_ResourceType req)
    (fun existing =>
       existing ← Set_ existing (ByName (msg_desc existing) "delete_time")
                    (VMessage (Some now_delete));
       Ok (existing, existing))
    now.

End Server.

(** ** The [features.Account] resource of [features/resources.proto] *)

Definition output_only (name : string) (k : Kind) : FieldDescriptor :=
  {| fd_name := name; fd_kind := k; fd_behavior := [OUTPUT_ONLY] |}.

Definition Account : MessageDescriptor :=
  {| md_name := "Account";
     md_full_name := "features.Account";
     md_fields :=
       [ output_only "name" StringKind;
         {| fd_name := "display_name"; fd_kind := StringKind; fd_behavior := [REQUIRED] |};
         {| fd_name := "labels"; fd_kind := MapKind; fd_behavior := [] |};
         {| fd_name := "annotations"; fd_kind := MapKind; fd_behavior := [] |};
         output_only "self_link" StringKind;
         output_only "uid" StringKind;
         output_only "create_time" MessageKind;
         output_only "update_time" MessageKind;
         output_only "delete_time" MessageKind ];
     md_resource :=
       Some {| res_type := "features.com/Account";
               res_pattern := "accounts/{account}";
               res_plural := "accounts";
               res_singular := "account" |} |}.

(** [server.New(db)] over an empty database. *)
Definition New : resourceServer :=
  {| resources := ∅; database := {| tables := ∅; open_txs := [] |} |}.

(** Two more resource types, for the behaviours that [Account] does
    not exercise: [Document] declares an [etag], [Token] has no
    [delete_time]. *)
Definition Document : MessageDescriptor :=
  {| md_name := "Document";
     md_full_name := "features.Document";
     md_fields :=
       [ output_only "name" StringKind;
         {| fd_name := "title"; fd_kind := StringKind; fd_behavior := [REQUIRED] |};
         {| fd_name := "etag"; fd_kind := StringKind; fd_behavior := [] |};
         output_only "uid" StringKind;
         output_only "create_time" MessageKind;
         output_only "update_time" MessageKind;
         output_only "delete_time" MessageKind ];
     md_resource :=
       Some {| res_type := "features.com/Document";
               res_pattern := "documents/{document}";
               res_plural := "documents";
               res_singular := "document" |} |}.

Definition Token : MessageDescriptor :=
  {| md_name := "Token";
     md_full_name := "features.Token";
     md_fields :=
       [ output_only "name" StringKind;
         {| fd_name := "secret"; fd_kind := StringKind; fd_behavior := [REQUIRED] |};
         output_only "uid" StringKind;
         output_only "create_time" MessageKind;
         output_only "update_time" MessageKind ];
     md_resource :=
       Some {| res_type := "features.com/Token";
               res_pattern := "tokens/{token}";
               res_plural := "tokens";
               res_singular := "token" |} |}.

Definition linked : list MessageDescriptor := [Account; Document; Token].

Definition registered : resourceServer :=
  snd (CreateResourceDescriptor {| msg_desc := Account; msg_fields := ∅ |} New).

Definition create_a1 : CreateResourceRequest :=
  {| create_Parent := "";
     create_Resource :=
       {| type_url := "features.Account";
          any_value := {[ "name" := VString "accounts/a1";
                          "display_name" := VString "Joe";
                          "labels" := VMap [("city", "dallas")] ]} |};
     create_ResourceId := "" |}.

Definition with_a1 : resourceServer :=
  snd (CreateResource linked create_a1 "uid-1" 100%Z 101%Z registered).


Definition create_t1 : CreateResourceRequest :=
  {| create_Parent := "";
     create_Resource :=
       {| type_url := "features.Token";
          any_value := {[ "name" := VString "tokens/t1";
                          "secret" := VString "s3cr3t" ]} |};
     create_ResourceId := "" |}.

Definition with_t1 : resourceServer :=
  snd (CreateResource linked create_t1 "uid-7" 100%Z 101%Z
         (snd (CreateResourceDescriptor {| msg_desc := Token; msg_fields := ∅ |} New))).

Definition create_d1 : CreateResourceRequest :=
  {| create_Parent := "";
     create_Resource :=
       {| type_url := "features.Document";
          any_value := {[ "name" := VString "documents/d1";
                          "title" := VString "Plan";
                          "etag" := VString "v2" ]} |};
     create_ResourceId := "" |}.

Definition with_d1 : resourceServer :=
  snd (CreateResource linked create_d1 "uid-3" 100%Z 101%Z
         (snd (CreateResourceDescriptor {| msg_desc := Document; msg_fields := ∅ |} New))).

(** An update that still carries the etag of an older version. *)
Definition update_d1_stale : UpdateResourceRequest :=
  {| update_Resource :=
       {| type_url := "features.Document";
          any_value := {[ "name" := VString "documents/d1";
                          "title" := VString "Plan B";
                          "etag" := VString "v1" ]} |};
     update_UpdateMask := Some ["title"] |}.

Definition delete_t1 : DeleteResourceRequest :=
  {| delete_Name := "tokens/t1"; delete_ResourceType := "features.Token" |}.

Definition delete_a1 : DeleteResourceRequest :=
  {| delete_Name := "accounts/a1"; delete_ResourceType := "features.Account" |}.

Definition with_a1_deleted : resourceServer :=
  snd (DeleteResource linked delete_a1 300%Z 301%Z with_a1).

(** Renaming the account, with a mask that names [display_name] only. *)
Definition update_a1 : UpdateResourceRequest :=
  {| update_Resource :=
       {| type_url := "features.Account";
          any_value := {[ "name" := VString "accounts/a1";
                          "display_name" := VString "Joe2" ]} |};
     update_UpdateMask := Some ["display_name"] |}.

Definition list_accounts : ListResourcesRequest :=
  {| list_Parent := ""; list_ResourceType := "features.Account";
     list_PageSize := 0; list_PageToken := ""; list_Filter := "" |}.

Definition get_a1 : GetResourceRequest :=
  {| get_Name := "accounts/a1"; get_ResourceType := "features.Account" |}.

(** A resource type without [update_time], the field that
    [CreateResource] and [atomicUpdateResource] stamp only on the types
    that declare it. *)
Definition Badge : MessageDescriptor :=
  {| md_name := "Badge";
     md_full_name := "features.Badge";
     md_fields :=
       [ output_only "name" StringKind;
         {| fd_name := "title"; fd_kind := StringKind; fd_behavior := [REQUIRED] |};
         output_only "uid" StringKind;
         output_only "create_time" MessageKind ];
     md_resource :=
       Some {| res_type := "features.com/Badge";
               res_pattern := "badges/{badge}";
               res_plural := "badges";
               res_singular := "badge" |} |}.

Definition with_Badge : resourceServer :=
  snd (CreateResourceDescriptor {| msg_desc := Badge; msg_fields := ∅ |} New).

Definition create_b1 : CreateResourceRequest :=
  {| create_Parent := "";
     create_Resource :=
       {| type_url := "features.Badge";
          any_value := {[ "name" := VString "badges/b1";
                          "title" := VString "Gold" ]} |};
     create_ResourceId := "" |}.


(** * Vocabulary of the properties *)

(** A descriptor that the global registry returns for its own name. *)
Definition linked_type (G : list MessageDescriptor) (d : MessageDescriptor) : Prop :=
  FindMessageByName G (md_full_name d) = Some d /\
  contains_slash (md_full_name d) = false.

(** A type recorded in the registry the way [CreateResourceDescriptor]
    records the linked types: under its full name. *)
Definition registered_type (G : list MessageDescriptor) (r : resourceServer)
    (resourceType : string) (d : MessageDescriptor) : Prop :=
  resources r !! resourceType = Some d /\
  md_full_name d = resourceType /\
  linked_type G d.

(** The descriptor declares [name] with kind [k]. *)
Definition has_field (d : MessageDescriptor) (name : string) (k : Kind) : bool :=
  match ByName d name with
  | Some f => bool_decide (fd_kind f = k)
  | None => false
  end.

(** The fields that the engine reads and writes on every resource. *)
Definition is_resource_schema (d : MessageDescriptor) : bool :=
  has_field d "uid" StringKind && has_field d "name" StringKind &&
  has_field d "create_time" MessageKind && has_field d "update_time" MessageKind.

(** Some field called [name] is tagged [OUTPUT_ONLY]. *)
Definition output_only_named (d : MessageDescriptor) (name : string) : Prop :=
  Exists (fun fd => fd_name fd = name /\ OUTPUT_ONLY ∈ fd_behavior fd) (md_fields d).

(** The stored payload is the protojson of an [Any] that populates no
    [OUTPUT_ONLY] field of [d]. *)
Definition payload_clean (d : MessageDescriptor) (data : Data) : Prop :=
  exists a, data = JsonAny a /\
            forall fd, fd ∈ md_fields d -> OUTPUT_ONLY ∈ fd_behavior fd ->
                       any_value a !! fd_name fd = None.

(** The fields that [scanResource] fills from the system columns. *)
Definition system_field (name : string) : Prop :=
  name ∈ ["uid"; "name"; "create_time"; "update_time"; "delete_time"].

(** The message that [scanResource] builds from payload fields and the
    system columns of a row. *)
Definition stamped (d : MessageDescriptor) (payload : gmap string Value)
    (uid name : string) (create_time update_time : Time) (delete_time : option Time)
    : Message :=
  let identified := <["name" := VString name]> (<["uid" := VString uid]> payload) in
  let deleted :=
    match delete_time with
    | Some t => <["delete_time" := VMessage (Some t)]> identified
    | None => identified
    end in
  {| msg_desc := d;
     msg_fields := <["update_time" := VMessage (Some update_time)]>
                     (<["create_time" := VMessage (Some create_time)]> deleted) |}.

(** A row decodes: its payload is the protojson of an [Any] of a linked
    resource type, its timestamps parse, and a non-null [delete_time]
    comes with a [delete_time] field to hold it.  These are the rows on
    which [scanResource] succeeds, and [resource] is what it returns. *)
Definition row_decodes (G : list MessageDescriptor) (row : Row) (resource : Message) : Prop :=
  exists a d sc su ctime utime dtime,
    row_data row = JsonAny a /\
    FindMessageByURL G (type_url a) = Some d /\
    is_resource_schema d = true /\
    row_create_time row = Some sc /\ Parse_RFC3339Nano sc = Ok ctime /\
    row_update_time row = Some su /\ Parse_RFC3339Nano su = Ok utime /\
    match row_delete_time row with
    | Some sd => exists t, dtime = Some t /\ Parse_RFC3339Nano sd = Ok t /\
                           has_field d "delete_time" MessageKind = true
    | None => dtime = None
    end /\
    resource = stamped d (any_value a) (row_uid row) (row_name row) ctime utime dtime.

(** The name under which a create request files its resource. *)
Definition requested_name (req : CreateResourceRequest) : string :=
  Value_String (default (VString "") (any_value (create_Resource req) !! "name")).

(** The resource that [CreateResource] returns: the request's fields
    with [uid], [create_time] and [update_time] stamped. *)
Definition created_resource (d : MessageDescriptor) (req : CreateResourceRequest)
    (uid : string) (now_create now_update : Time) : Message :=
  {| msg_desc := d;
     msg_fields :=
       <["update_time" := VMessage (Some now_update)]>
         (<["create_time" := VMessage (Some now_create)]>
            (<["uid" := VString uid]> (any_value (create_Resource req)))) |}.

(** The row that [CreateResource] inserts for it. *)
Definition created_row (d : MessageDescriptor) (req : CreateResourceRequest)
    (uid : string) (now_create now_update : Time) : Row :=
  {| row_uid := uid;
     row_name := requested_name req;
     row_parent := create_Parent req;
     row_data := JsonAny (anypb_New (clearOutputOnlyFields
                   (created_resource d req uid now_create now_update)));
     row_create_time := Some (Format_RFC3339Nano now_create);
     row_update_time := Some (Format_RFC3339Nano now_update);
     row_delete_time := None |}.

(** Errors without a gRPC status. *)
Definition plain {A} (x : result A) : Prop :=
  forall e, x = Err e -> status_Code e = Unknown.

(** [r'] is [r] with one more transaction open and nothing committed. *)
Definition left_open (r r' : resourceServer) : Prop :=
  resources r' = resources r /\
  tables (database r') = tables (database r) /\
  exists view, open_txs (database r') = view :: open_txs (database r).

(** A call that does not return a value has either done nothing or has
    left its transaction open over the unchanged committed tables. *)
Definition fails_uncommitted {A} (m : M A) : Prop :=
  forall r, match m r with
            | (Ok _, _) => True
            | (_, r') => r' = r \/ left_open r r'
            end.

(** Steps that leave the server as it is. *)
Definition stateless {A} (m : M A) : Prop :=
  forall r, snd (m r) = r.

(** Steps that keep the transaction opened on [r0] open, whatever they
    answer. *)
Definition tx_step (r0 : resourceServer) {A} (m : M A) : Prop :=
  forall r, left_open r0 r -> left_open r0 (snd (m r)).

(** Computations that, run inside the transaction opened on [r0],
    leave it open unless they return a value. *)
Definition in_transaction (r0 : resourceServer) {A} (m : M A) : Prop :=
  forall r, left_open r0 r ->
            match m r with
            | (Ok _, _) => True
            | (_, r') => left_open r0 r'
            end.

(** The columns that identify a row and record its creation. *)
Definition identity_columns (row : Row) : string * string * string * option string :=
  (row_uid row, row_name row, row_parent row, row_create_time row).

(** In every table no two rows share a name and no two rows share a
    uid. *)
Definition unique_keys (t : Tables) : Prop :=
  forall table rows, t !! table = Some rows ->
    NoDup (map row_name rows) /\ NoDup (map row_uid rows).

(** The errors of a call carry one of the status codes [cs]. *)
Definition result_codes (cs : list Code) {A} (x : result A) : Prop :=
  forall e, x = Err e -> status_Code e ∈ cs.

Definition fails_only_with (cs : list Code) {A} (m : M A) : Prop :=
  forall r e r', m r = (Err e, r') -> status_Code e ∈ cs.

(** Steps that never write to the registry. *)
Definition keeps_registry {A} (m : M A) : Prop :=
  forall r, resources (snd (m r)) = resources r.

(** The calls that a server answers, with the uid and the instants that
    they draw. *)
Inductive Call :=
  | CallRegister (message : Message)
  | CallCreate (req : CreateResourceRequest) (uid : string) (now_create now_update : Time)
  | CallGet (req : GetResourceRequest)
  | CallList (req : ListResourcesRequest)
  | CallUpdate (req : UpdateResourceRequest) (now : Time)
  | CallDelete (req : DeleteResourceRequest) (now_delete now : Time)
  | CallUndelete (req : UndeleteResourceRequest) (now : Time)
  | CallPurge (req : PurgeResourceRequest).

(** The server after a call, whatever the call answered. *)
Definition after (G : list MessageDescriptor) (c : Call) (r : resourceServer)
    : resourceServer :=
  match c with
  | CallRegister message => snd (CreateResourceDescriptor message r)
  | CallCreate req uid now_create now_update =>
      snd (CreateResource G req uid now_create now_update r)
  | CallGet req => snd (GetResource G req r)
  | CallList req => snd (ListResources G req r)
  | CallUpdate req now => snd (UpdateResource G req now r)
  | CallDelete req now_delete now => snd (DeleteResource G req now_delete now r)
  | CallUndelete req now => snd (UndeleteResource G req now r)
  | CallPurge req => snd (PurgeResource req r)
  end.

(** The servers that [server.New(db)] and a sequence of calls lead to. *)
Inductive reachable (G : list MessageDescriptor) : resourceServer -> Prop :=
  | reachable_New (db : Database) : reachable G {| resources := ∅; database := db |}
  | reachable_after (c : Call) (r : resourceServer) :
      reachable G r -> reachable G (after G c r).

(** Every registered descriptor is filed under its full name, carries
    the [google.api.resource] annotation and has its table. *)
Definition registry_sound (r : resourceServer) : Prop :=
  forall resourceType d,
    resources r !! resourceType = Some d ->
    md_full_name d = resourceType /\
    exists ann rows,
      md_resource d = Some ann /\
      tables (database r) !! (res_singular ann +:+ "_resource") = Some rows.

(** The steps of [CreateResource] that come before [BeginTx]: the
    registry check, unmarshalling the resource of the request, stamping
    it and encoding its output-only-free clone. *)
Definition CreateResource_before_BeginTx (G : list MessageDescriptor) (r : resourceServer)
    (req : CreateResourceRequest) (uid : string) (now_create now_update : Time)
    : result (Message * Data) :=
  _ ← assertRegisteredAnyResource r (create_Resource req);
  resource ← UnmarshalNew G (create_Resource req);
  let resourceFields := msg_desc resource in
  resource ← Set_ resource (ByName resourceFields "uid") (VString uid);
  resource ← Set_ resource (ByName resourceFields "create_time")
               (VMessage (Some now_create));
  resource ←
    match ByName resourceFields "update_time" with
    | Some updatedField => Set_ resource (Some updatedField) (VMessage (Some now_update))
    | None => Ok resource
    end;
  reqJson ← protojson_Marshal G (anypb_New (clearOutputOnlyFields resource));
  Ok (resource, reqJson).

(** The steps of [UpdateResource] that come before [BeginTx]: reading
    the name off the resource of the request and resolving its type. *)
Definition UpdateResource_before_BeginTx (G : list MessageDescriptor) (r : resourceServer)
    (req : UpdateResourceRequest) : result MessageDescriptor :=
  _ ← resourceName G (update_Resource req);
  GetResourceDescriptor r (type_url (update_Resource req)).

(** A call on [r] has either returned a value and left no transaction
    of its own behind, or left the transaction that it began open over
    the unchanged registry and committed tables. *)
Definition commits_or_leaves_open {A} (m : M A) (r : resourceServer) : Prop :=
  match m r with
  | (Ok _, r') => open_txs (database r') = open_txs (database r)
  | (_, r') => left_open r r'
  end.

(** [m] begins its transaction when the steps [before] have succeeded:
    when they fail, so does [m], the same way, and the server is as it
    was; when they succeed no failure of [m] closes the transaction. *)
Definition begins_after {A B} (before : result A) (m : M B) (r : resourceServer) : Prop :=
  match before with
  | Ok _ => commits_or_leaves_open m r
  | Err e => m r = (Err e, r)
  | Panic => m r = (Panic, r)
  end.

(** The message that [storeUpdatedResource] stores and returns for the
    message [m] that the updater handed back. *)
Definition with_update_time (m : Message) (now : Time) : Message :=
  {| msg_desc := msg_desc m;
     msg_fields := <["update_time" := VMessage (Some now)]> (msg_fields m) |}.

(** * Properties *)

(** ** The monad *)

Lemma bind_lift {A B} (x : result A) (k : A -> M B) (r : resourceServer) :
  (lift x ≫= k) r =
  match x with
  | Ok a => k a r
  | Err e => (Err e, r)
  | Panic => (Panic, r)
  end.
Proof. unfold mbind, M_bind, lift. by destruct x. Qed.

Lemma bind_self {B} (k : resourceServer -> M B) (r : resourceServer) :
  (self ≫= k) r = k r r.
Proof. reflexivity. Qed.

Lemma bind_db_query {A B} (q : Tables -> result A) (k : A -> M B) (r : resourceServer) :
  (db_query q ≫= k) r =
  match q (tables (database r)) with
  | Ok a => k a r
  | Err e => (Err e, r)
  | Panic => (Panic, r)
  end.
Proof. unfold mbind, M_bind, db_query. by destruct (q _). Qed.

Lemma bind_tx_query {A B} (q : Tables -> result A) (k : A -> M B) (r : resourceServer) :
  (tx_query q ≫= k) r =
  match q (tx_tables (database r)) with
  | Ok a => k a r
  | Err e => (Err e, r)
  | Panic => (Panic, r)
  end.
Proof. unfold mbind, M_bind, tx_query. by destruct (q _). Qed.

Lemma bind_BeginTx {B} (k : unit -> M B) (r : resourceServer) :
  (BeginTx ≫= k) r = k tt (begun r).
Proof. reflexivity. Qed.

Lemma bind_Commit {B} (k : unit -> M B) (r : resourceServer) :
  (Commit ≫= k) r = k tt (snd (Commit r)).
Proof. reflexivity. Qed.

Lemma bind_tx_exec {B} (q : Tables -> result Tables) (k : unit -> M B) (r : resourceServer) :
  (tx_exec q ≫= k) r =
  match q (tx_tables (database r)) with
  | Ok t => k tt (snd (tx_exec (fun _ => Ok t) r))
  | Err e => (Err e, r)
  | Panic => (Panic, r)
  end.
Proof. unfold mbind, M_bind, tx_exec. by destruct (q _). Qed.

Lemma tx_tables_begun (r : resourceServer) :
  tx_tables (database (begun r)) = tables (database r).
Proof. reflexivity. Qed.

Lemma bind_result_Ok {A B} (x : result A) (k : A -> result B) (b : B) :
  x ≫= k = Ok b -> exists a, x = Ok a /\ k a = Ok b.
Proof. destruct x; try done. intros H. by exists a. Qed.

(** ** Type URLs and the linked types *)

Lemma url_message_name_no_slash (url : string) :
  contains_slash (url_message_name url) = false.
Proof.
  induction url as [|c rest IH]; [done|].
  cbn [url_message_name].
  destruct (contains_slash (String c rest)) eqn:E; done.
Qed.

Lemma url_message_name_id (name : string) :
  contains_slash name = false -> url_message_name name = name.
Proof. destruct name; [done|]. cbn [url_message_name]. by intros ->. Qed.

Lemma url_message_name_googleapis (name : string) :
  url_message_name ("type.googleapis.com/" +:+ name) = url_message_name name.
Proof. reflexivity. Qed.

Lemma FindMessageByURL_linked (G : list MessageDescriptor) (url : string) (d : MessageDescriptor) :
  FindMessageByURL G url = Some d -> linked_type G d.
Proof.
  unfold FindMessageByURL, FindMessageByName. intros H.
  pose proof (find_some _ _ H) as [_ Hname].
  apply String.eqb_eq in Hname.
  unfold linked_type, FindMessageByName. rewrite Hname.
  split; [done|]. apply url_message_name_no_slash.
Qed.

Lemma FindMessageByURL_anypb_New (G : list MessageDescriptor) (m : Message) :
  linked_type G (msg_desc m) ->
  FindMessageByURL G (type_url (anypb_New m)) = Some (msg_desc m).
Proof.
  intros [Hfind Hslash]. unfold FindMessageByURL, anypb_New; simpl type_url.
  by rewrite url_message_name_googleapis, url_message_name_id.
Qed.

Lemma UnmarshalNew_anypb_New (G : list MessageDescriptor) (m : Message) :
  linked_type G (msg_desc m) -> UnmarshalNew G (anypb_New m) = Ok m.
Proof.
  intros H. unfold UnmarshalNew. rewrite FindMessageByURL_anypb_New by done.
  by destruct m.
Qed.

Lemma protojson_Marshal_anypb_New (G : list MessageDescriptor) (m : Message) :
  linked_type G (msg_desc m) ->
  protojson_Marshal G (anypb_New m) = Ok (JsonAny (anypb_New m)).
Proof.
  intros H. unfold protojson_Marshal. by rewrite FindMessageByURL_anypb_New.
Qed.

Lemma UnmarshalNew_Ok (G : list MessageDescriptor) (a : Any) (m : Message) :
  UnmarshalNew G a = Ok m ->
  FindMessageByURL G (type_url a) = Some (msg_desc m) /\ msg_fields m = any_value a.
Proof.
  unfold UnmarshalNew. destruct (FindMessageByURL G (type_url a)); [|done].
  by intros [= <-].
Qed.

(** ** Reflection *)

Lemma Set_Ok (m m' : Message) (fd : option FieldDescriptor) (v : Value) :
  Set_ m fd v = Ok m' ->
  exists f, fd = Some f /\ f ∈ md_fields (msg_desc m) /\ kind_of v = fd_kind f /\
            m' = {| msg_desc := msg_desc m; msg_fields := <[fd_name f := v]> (msg_fields m) |}.
Proof.
  unfold Set_, checkField. destruct fd as [f|]; [|done].
  cbn. case_bool_decide; [|done]. cbn. case_bool_decide; [|done].
  intros [= <-]. by exists f.
Qed.

Lemma Set_desc (m m' : Message) (fd : option FieldDescriptor) (v : Value) :
  Set_ m fd v = Ok m' -> msg_desc m' = msg_desc m.
Proof. intros (f & _ & _ & _ & ->)%Set_Ok. done. Qed.

Lemma ByName_name (d : MessageDescriptor) (name : string) (f : FieldDescriptor) :
  ByName d name = Some f -> fd_name f = name /\ f ∈ md_fields d.
Proof.
  unfold ByName. intros H. pose proof (find_some _ _ H) as [Hin Hname].
  apply String.eqb_eq in Hname. split; [done|]. by apply list_elem_of_In.
Qed.

(** ** The registry *)

(** C10: [assertRegisteredResourceType] answers nil exactly for the
    types that are absent from the registry, and the unknown-type error
    exactly for the registered ones. *)
Theorem assertRegisteredResourceType_inverted (r : resourceServer) (resourceType : string) :
  (assertRegisteredResourceType r resourceType = None
     <-> resources r !! resourceType = None) /\
  (assertRegisteredResourceType r resourceType = Some (unknownResourceError r resourceType)
     <-> is_Some (resources r !! resourceType)).
Proof.
  unfold assertRegisteredResourceType.
  destruct (resources r !! resourceType) as [d|]; split; split; intros H;
    first [ done | by eexists | by destruct H ].
Qed.

Lemma sql_create_table_lookup (table : string) (t : Tables) :
  sql_create_table table t !! table = Some (default [] (t !! table)).
Proof.
  unfold sql_create_table.
  destruct (t !! table) as [rows|] eqn:E; simpl.
  - by rewrite E.
  - by rewrite lookup_insert_eq.
Qed.

Lemma sql_create_table_other (table other : string) (t : Tables) :
  other <> table -> sql_create_table table t !! other = t !! other.
Proof.
  intros Hne. unfold sql_create_table.
  destruct (t !! table); [done|]. by rewrite lookup_insert_ne.
Qed.

Lemma sql_create_table_idem (table : string) (t : Tables) :
  sql_create_table table (sql_create_table table t) = sql_create_table table t.
Proof.
  unfold sql_create_table at 1. by rewrite sql_create_table_lookup.
Qed.

Lemma CreateResourceDescriptor_run (message : Message) (r : resourceServer)
    (ann : ResourceAnnotation) :
  md_resource (msg_desc message) = Some ann ->
  CreateResourceDescriptor message r
  = (Ok tt,
     {| resources := <[md_full_name (msg_desc message) := msg_desc message]> (resources r);
        database :=
          {| tables := sql_create_table (res_singular ann +:+ "_resource")
                         (tables (database r));
             open_txs := open_txs (database r) |} |}).
Proof.
  intros Hann. unfold CreateResourceDescriptor. rewrite Hann.
  rewrite !bind_lift. unfold getResourceTableName. by rewrite Hann.
Qed.

(** C8: registration fails, and changes nothing, exactly when the
    message has no [google.api.resource] annotation.  Otherwise it
    succeeds, the backing table exists afterwards with the rows it had
    (none when it is new), every other table and every other registry
    entry is untouched, the descriptor is recorded under the full name
    of the type, and registering again changes nothing more. *)
Theorem CreateResourceDescriptor_spec (message : Message) (r : resourceServer) :
  let resource := msg_desc message in
  let out := CreateResourceDescriptor message r in
  match md_resource resource with
  | None =>
      out = (Err (PlainError
                    ("google.api.resource annotation is required for storage registration: "
                     +:+ md_name resource
                     +:+ " does not have google.api.resource annoitation")), r)
  | Some ann =>
      let table := res_singular ann +:+ "_resource" in
      fst out = Ok tt /\
      resources (snd out) = <[md_full_name resource := resource]> (resources r) /\
      (forall other, other <> md_full_name resource ->
         resources (snd out) !! other = resources r !! other) /\
      tables (database (snd out)) !! table
        = Some (default [] (tables (database r) !! table)) /\
      (forall other, other <> table ->
         tables (database (snd out)) !! other = tables (database r) !! other) /\
      open_txs (database (snd out)) = open_txs (database r) /\
      CreateResourceDescriptor message (snd out) = (Ok tt, snd out)
  end.
Proof.
  intros resource out. subst out resource.
  destruct (md_resource (msg_desc message)) as [ann|] eqn:Hann.
  - rewrite (CreateResourceDescriptor_run message r ann Hann).
    cbn [fst snd resources database tables open_txs].
    repeat split.
    + intros other Hne. by rewrite lookup_insert_ne.
    + apply sql_create_table_lookup.
    + intros other Hne. by apply sql_create_table_other.
    + rewrite (CreateResourceDescriptor_run message _ ann Hann).
      cbn [resources database tables open_txs].
      by rewrite sql_create_table_idem, insert_insert_eq.
  - unfold CreateResourceDescriptor. by rewrite Hann.
Qed.

(** ** Reading rows *)

Lemma scanResource_list_columns (G : list MessageDescriptor) (row : Row) :
  scanResource G (project list_columns row)
  = Err (PlainError "sql: expected 6 destination arguments in Scan, not 7").
Proof. reflexivity. Qed.

Lemma scan_rows_list_columns (G : list MessageDescriptor) (row : Row) (rest : list (list Cell)) :
  scan_rows G (project list_columns row :: rest)
  = Err (PlainError "sql: expected 6 destination arguments in Scan, not 7").
Proof. reflexivity. Qed.

(** C2: [ListResources] selects six columns, without [delete_time],
    and hands each row to the seven-column [scanResource]: as soon as
    one stored row has the requested parent the call fails with the
    [Scan] arity error and lists nothing. *)
Theorem ListResources_rejects_every_row (G : list MessageDescriptor) (r : resourceServer)
    (req : ListResourcesRequest) (d : MessageDescriptor) (table : string)
    (rows : list Row) (row : Row) :
  resources r !! list_ResourceType req = Some d ->
  getResourceTableName d = Ok table ->
  tables (database r) !! table = Some rows ->
  row ∈ rows ->
  row_parent row = list_Parent req ->
  (0 <= list_PageSize req)%Z ->
  ListResources G req r
  = (Err (PlainError "sql: expected 6 destination arguments in Scan, not 7"), r).
Proof.
  intros Hd Htable Hrows Hin Hparent Hsize.
  unfold ListResources. rewrite bind_self, bind_lift.
  unfold GetResourceDescriptor. rewrite Hd. cbv zeta.
  rewrite bind_lift, Htable, bind_db_query.
  unfold sql_select_by_parent. rewrite Hrows.
  set (n := if (list_PageSize req =? 0)%Z then 50%Z else list_PageSize req).
  assert (Hn : (0 < n)%Z).
  { subst n. destruct (Z.eqb_spec (list_PageSize req) 0); lia. }
  destruct (Z.ltb_spec n 0) as [?|_]; [lia|].
  assert (Hmatch : row ∈ filter (fun row => row_parent row = list_Parent req) rows).
  { apply list_elem_of_filter. by split. }
  destruct (filter (fun row => row_parent row = list_Parent req) rows)
    as [|first others] eqn:Hfilter.
  { by apply elem_of_nil in Hmatch. }
  destruct (Z.to_nat n) as [|k] eqn:Hk; [lia|].
  rewrite map_cons, firstn_cons.
  by rewrite bind_lift, scan_rows_list_columns.
Qed.

(** ** Rows that decode *)

Ltac bind_inv H x E :=
  apply bind_result_Ok in H as (x & E & H); cbv beta zeta in H.

(** What [scanResource] returns is the [Any] of a message of a linked
    type. *)
Lemma scanResource_Ok (G : list MessageDescriptor) (cells : list Cell) (a : Any) :
  scanResource G cells = Ok a ->
  exists m, a = anypb_New m /\ linked_type G (msg_desc m).
Proof.
  unfold scanResource.
  do 8 (destruct cells as [|? cells]; try done).
  intros H.
  bind_inv H uid Euid. bind_inv H name Ename. bind_inv H parent Eparent.
  bind_inv H createTime Ecreate. bind_inv H updateTime Eupdate.
  bind_inv H deleteTime Edelete. bind_inv H data Edata.
  bind_inv H anyResource Eany. bind_inv H m0 Em0.
  bind_inv H m1 Em1. bind_inv H m2 Em2.
  bind_inv H createTimeParsed Ecp. bind_inv H updateTimeParsed Eup.
  bind_inv H m3 Em3. bind_inv H m4 Em4. bind_inv H m5 Em5.
  injection H as <-.
  exists m5. split; [done|].
  pose proof (UnmarshalNew_Ok _ _ _ Em0) as [Hurl _].
  apply FindMessageByURL_linked in Hurl.
  rewrite (Set_desc _ _ _ _ Em5), (Set_desc _ _ _ _ Em4).
  assert (msg_desc m3 = msg_desc m2) as ->.
  { destruct deleteTime as [s|]; [|by injection Em3 as <-].
    bind_inv Em3 parsed Eparsed. by apply Set_desc in Em3. }
  by rewrite (Set_desc _ _ _ _ Em2), (Set_desc _ _ _ _ Em1).
Qed.

Lemma getResource_Ok (G : list MessageDescriptor) (r : resourceServer) (db : Tables)
    (req : GetResourceRequest) (a : Any) :
  getResource G r db req = Ok a ->
  exists m, a = anypb_New m /\ linked_type G (msg_desc m).
Proof.
  unfold getResource. intros H.
  bind_inv H d Ed. bind_inv H table Etable. bind_inv H res Eres.
  destruct res as [|row ?]; [done|]. by apply scanResource_Ok in H.
Qed.

(** ** Soft deletion needs the [delete_time] field *)

(** C9: on a registered type whose schema has no [delete_time] field,
    [DeleteResource] of a stored resource of that type panics: the
    updater hands the nil field descriptor to [Set]. *)
Theorem DeleteResource_panics_without_delete_time (G : list MessageDescriptor)
    (r : resourceServer) (req : DeleteResourceRequest) (now_delete now : Time)
    (d : MessageDescriptor) (existing : Any) :
  resources r !! delete_ResourceType req = Some d ->
  ByName d "delete_time" = None ->
  getResource G r (tables (database r))
    {| get_Name := delete_Name req; get_ResourceType := delete_ResourceType req |}
    = Ok existing ->
  FindMessageByURL G (type_url existing) = Some d ->
  DeleteResource G req now_delete now r = (Panic, begun r).
Proof.
  intros Hd Hfield Hget Htype.
  destruct (getResource_Ok _ _ _ _ _ Hget) as (m & -> & Hlinked).
  rewrite FindMessageByURL_anypb_New in Htype by done. injection Htype as Hm.
  unfold DeleteResource, atomicUpdateResource.
  rewrite bind_self, bind_lift.
  unfold GetResourceDescriptor. rewrite Hd. cbv zeta.
  rewrite bind_BeginTx, bind_tx_query, tx_tables_begun, Hget.
  rewrite bind_lift, UnmarshalNew_anypb_New by done.
  rewrite bind_lift, Hm, Hfield.
  reflexivity.
Qed.

Lemma DeleteResource_panics_on_Token :
  DeleteResource linked delete_t1 300%Z 301%Z with_t1 = (Panic, begun with_t1).
Proof.
  eapply (DeleteResource_panics_without_delete_time linked with_t1 delete_t1 300%Z 301%Z Token).
  - reflexivity.
  - reflexivity.
  - vm_compute. reflexivity.
  - reflexivity.
Defined.

(** ** Optimistic concurrency *)

Lemma updatesConflict_true (existing updated : Message) :
  updatesConflict existing updated = Ok true <->
  exists etagField e u,
    ByName (msg_desc existing) "etag" = Some etagField /\
    Get existing (Some etagField) = Ok e /\
    Get updated (Some etagField) = Ok u /\
    Value_String e <> Value_String u.
Proof.
  unfold updatesConflict.
  destruct (ByName (msg_desc existing) "etag") as [f|].
  - split.
    + intros H. bind_inv H e He. bind_inv H u Hu. injection H as H.
      exists f, e, u. repeat split; try done.
      intros Heq. apply String.eqb_eq in Heq. by rewrite Heq in H.
    + intros (f' & e & u & [= <-] & -> & -> & Hne). cbn.
      f_equal. apply negb_true_iff. by apply String.eqb_neq.
  - split; [done|]. by intros (? & ? & ? & ? & _).
Qed.

(** C3: once the stored resource is fetched and the updater has
    answered, a differing etag makes [atomicUpdateResource] return the
    [Aborted] status with nothing but the opened transaction behind it
    (its view is still the committed tables: no statement was run),
    and the check reports a conflict only for such a differing etag.
    When the type has no [etag] field the check answers no conflict and
    the call goes on to store the update. *)
Theorem updatesConflict_guards_atomicUpdateResource (G : list MessageDescriptor)
    (resourceName resourceType : string) (updater : updaterFunc) (now : Time)
    (r : resourceServer) (d : MessageDescriptor) (existing : Any)
    (unpacked unpacked' updated : Message) :
  resources r !! resourceType = Some d ->
  getResource G r (tables (database r))
    {| get_Name := resourceName; get_ResourceType := resourceType |} = Ok existing ->
  UnmarshalNew G existing = Ok unpacked ->
  updater unpacked = Ok (unpacked', updated) ->
  (updatesConflict unpacked' updated = Ok true ->
     atomicUpdateResource G resourceName resourceType updater now r
       = (Err conflict_error, begun r) /\
     status_Code conflict_error = Aborted /\
     tables (database (begun r)) = tables (database r) /\
     tx_tables (database (begun r)) = tables (database r)) /\
  (updatesConflict unpacked' updated = Ok true <->
     exists etagField e u,
       ByName (msg_desc unpacked') "etag" = Some etagField /\
       Get unpacked' (Some etagField) = Ok e /\
       Get updated (Some etagField) = Ok u /\
       Value_String e <> Value_String u) /\
  (ByName (msg_desc unpacked') "etag" = None ->
     updatesConflict unpacked' updated = Ok false /\
     atomicUpdateResource G resourceName resourceType updater now r
       = storeUpdatedResource G d updated now (begun r)).
Proof.
  intros Hd Hget Hunpack Hupdater.
  assert (Hrun : forall conflict, updatesConflict unpacked' updated = Ok conflict ->
            atomicUpdateResource G resourceName resourceType updater now r
            = if conflict then (Err conflict_error, begun r)
              else storeUpdatedResource G d updated now (begun r)).
  { intros conflict Hc. unfold atomicUpdateResource.
    rewrite bind_self, bind_lift. unfold GetResourceDescriptor. rewrite Hd. cbv zeta.
    rewrite bind_BeginTx, bind_tx_query, tx_tables_begun, Hget.
    rewrite bind_lift, Hunpack, bind_lift, Hupdater, bind_lift, Hc.
    by destruct conflict. }
  split; [|split].
  - intros Hc. by rewrite (Hrun true Hc).
  - apply updatesConflict_true.
  - intros Hnone.
    assert (Hc : updatesConflict unpacked' updated = Ok false).
    { unfold updatesConflict. by rewrite Hnone. }
    by rewrite (Hrun false Hc).
Qed.

Lemma stale_etag_aborts_update :
  atomicUpdateResource linked "documents/d1" "features.Document"
    (UpdateResource_updater linked update_d1_stale) 200%Z with_d1
  = (Err conflict_error, begun with_d1).
Proof.
  edestruct (updatesConflict_guards_atomicUpdateResource linked "documents/d1"
               "features.Document" (UpdateResource_updater linked update_d1_stale)
               200%Z with_d1 Document) as [Hconflict _].
  - reflexivity.
  - vm_compute. reflexivity.
  - vm_compute. reflexivity.
  - vm_compute. reflexivity.
  - apply Hconflict. vm_compute. reflexivity.
Defined.

(** ** Failures and the transaction *)

Lemma stateless_lift {A} (x : result A) : stateless (lift x).
Proof. done. Qed.

Lemma stateless_self : stateless self.
Proof. done. Qed.

Lemma stateless_tx_step (r0 : resourceServer) {A} (m : M A) :
  stateless m -> tx_step r0 m.
Proof. intros H r Hr. by rewrite H. Qed.

Lemma tx_step_tx_query (r0 : resourceServer) {A} (q : Tables -> result A) :
  tx_step r0 (tx_query q).
Proof. by apply stateless_tx_step. Qed.

Lemma tx_step_tx_exec (r0 : resourceServer) (q : Tables -> result Tables) :
  tx_step r0 (tx_exec q).
Proof.
  intros r Hr. pose proof Hr as (Hres & Htab & view & Hopen). unfold tx_exec.
  destruct (q _); simpl; try done.
  split; [done|]. split; [done|]. rewrite Hopen. by eexists.
Qed.

Lemma tx_step_in_transaction (r0 : resourceServer) {A} (m : M A) :
  tx_step r0 m -> in_transaction r0 m.
Proof.
  intros H r Hr. specialize (H r Hr).
  destruct (m r) as [[?| |] r']; done.
Qed.

Lemma in_transaction_bind (r0 : resourceServer) {A B} (m : M A) (k : A -> M B) :
  tx_step r0 m -> (forall a, in_transaction r0 (k a)) -> in_transaction r0 (m ≫= k).
Proof.
  intros Hm Hk r Hr. specialize (Hm r Hr).
  unfold mbind, M_bind. destruct (m r) as [[a| |] r1]; try done.
  by apply Hk.
Qed.

Lemma in_transaction_Commit (r0 : resourceServer) {B} (b : B) :
  in_transaction r0 (Commit ≫= fun _ => mret b).
Proof. by intros r _. Qed.

Lemma fails_uncommitted_bind {A B} (m : M A) (k : A -> M B) :
  stateless m -> (forall a, fails_uncommitted (k a)) -> fails_uncommitted (m ≫= k).
Proof.
  intros Hm Hk r. specialize (Hm r). specialize (Hk).
  unfold mbind, M_bind. destruct (m r) as [[a| |] r1]; simpl in Hm; subst r1.
  - apply Hk.
  - by left.
  - by left.
Qed.

Lemma fails_uncommitted_BeginTx {B} (k : unit -> M B) :
  (forall r0, in_transaction r0 (k tt)) -> fails_uncommitted (BeginTx ≫= k).
Proof.
  intros Hk r. rewrite bind_BeginTx.
  assert (Hopen : left_open r (begun r)).
  { repeat split. by eexists. }
  specialize (Hk r (begun r) Hopen).
  destruct (k tt (begun r)) as [[?| |] r']; try done; by right.
Qed.

Create HintDb tx.

#[local] Hint Resolve stateless_lift stateless_self stateless_tx_step
  tx_step_tx_query tx_step_tx_exec tx_step_in_transaction : tx.

Ltac in_tx :=
  repeat first
    [ apply in_transaction_Commit
    | apply in_transaction_bind; [ solve [auto with tx] | intros ? ]
    | apply tx_step_in_transaction; solve [auto with tx]
    | progress cbv zeta ].

Lemma storeUpdatedResource_in_transaction (G : list MessageDescriptor)
    (r0 : resourceServer) (resourceFields : MessageDescriptor) (updated : Message) (now : Time) :
  in_transaction r0 (storeUpdatedResource G resourceFields updated now).
Proof. unfold storeUpdatedResource. in_tx. Qed.

Lemma atomicUpdateResource_fails_uncommitted (G : list MessageDescriptor)
    (resourceName resourceType : string) (updater : updaterFunc) (now : Time) :
  fails_uncommitted (atomicUpdateResource G resourceName resourceType updater now).
Proof.
  unfold atomicUpdateResource.
  apply fails_uncommitted_bind; [auto with tx|intros r].
  apply fails_uncommitted_bind; [auto with tx|intros d]. cbv zeta.
  apply fails_uncommitted_BeginTx. intros r0.
  do 3 (apply in_transaction_bind; [auto with tx|intros ?]).
  destruct a1 as [unpacked updated].
  apply in_transaction_bind; [auto with tx|intros conflict].
  destruct conflict.
  - apply tx_step_in_transaction. auto with tx.
  - apply storeUpdatedResource_in_transaction.
Qed.

Lemma PurgeResource_fails_uncommitted (req : PurgeResourceRequest) :
  fails_uncommitted (PurgeResource req).
Proof.
  unfold PurgeResource.
  apply fails_uncommitted_bind; [auto with tx|intros r].
  apply fails_uncommitted_bind; [auto with tx|intros d].
  apply fails_uncommitted_BeginTx. intros r0. in_tx.
Qed.

Lemma CreateResource_fails_uncommitted (G : list MessageDescriptor)
    (req : CreateResourceRequest) (uid : string) (now_create now_update : Time) :
  fails_uncommitted (CreateResource G req uid now_create now_update).
Proof.
  unfold CreateResource.
  apply fails_uncommitted_bind; [auto with tx|intros r].
  do 2 (apply fails_uncommitted_bind; [auto with tx|intros ?]). cbv zeta.
  do 4 (apply fails_uncommitted_bind; [auto with tx|intros ?]).
  apply fails_uncommitted_BeginTx. intros r0.
  do 2 (apply in_transaction_bind; [auto with tx|intros ?]).
  destruct a6 as [existing|]; in_tx.
Qed.

(** C4 (as the spec has it) fails: creating [accounts/a1] a second time
    is refused with [AlreadyExists] and the transaction that the call
    opened is still open afterwards. *)
Lemma CreateResource_leaves_transaction_open :
  let out := CreateResource linked create_a1 "uid-2" 102%Z 103%Z with_a1 in
  fst out = Err (StatusError AlreadyExists "Resource already exists" []) /\
  open_txs (database with_a1) = [] /\
  open_txs (database (snd out)) = [tables (database with_a1)].
Proof. split; [|split]; vm_compute; reflexivity. Qed.

(** ** The stored payload *)

Lemma bind_lift_Ok {A B} (x : result A) (k : A -> M B) (r r' : resourceServer) (b : B) :
  (lift x ≫= k) r = (Ok b, r') -> exists a, x = Ok a /\ k a r = (Ok b, r').
Proof. rewrite bind_lift. destruct x; try done. by exists a. Qed.

Lemma bind_tx_query_Ok {A B} (q : Tables -> result A) (k : A -> M B)
    (r r' : resourceServer) (b : B) :
  (tx_query q ≫= k) r = (Ok b, r') ->
  exists a, q (tx_tables (database r)) = Ok a /\ k a r = (Ok b, r').
Proof. rewrite bind_tx_query. destruct (q _); try done. by exists a. Qed.

Lemma bind_tx_exec_Ok {B} (q : Tables -> result Tables) (k : unit -> M B)
    (r r' : resourceServer) (b : B) :
  (tx_exec q ≫= k) r = (Ok b, r') ->
  exists t, q (tx_tables (database r)) = Ok t /\
            k tt (snd (tx_exec (fun _ => Ok t) r)) = (Ok b, r').
Proof. rewrite bind_tx_exec. destruct (q _); try done. by exists a. Qed.

Ltac lift_inv H x E :=
  apply bind_lift_Ok in H as (x & E & H); cbv beta zeta in H.
Ltac tx_query_inv H x E :=
  apply bind_tx_query_Ok in H as (x & E & H); cbv beta zeta in H.
Ltac tx_exec_inv H x E :=
  apply bind_tx_exec_Ok in H as (x & E & H); cbv beta zeta in H.

Lemma clear_if_output_only_fold (fd : FieldDescriptor) (copy : gmap string Value) :
  clear_if_output_only fd copy
  = fold_left (fun copy behavior =>
                 if bool_decide (behavior = OUTPUT_ONLY)
                 then delete (fd_name fd) copy else copy)
              (fd_behavior fd) copy.
Proof. unfold clear_if_output_only. by destruct (fd_behavior fd). Qed.

Lemma clear_if_output_only_other (fd : FieldDescriptor) (copy : gmap string Value)
    (name : string) :
  fd_name fd <> name -> clear_if_output_only fd copy !! name = copy !! name.
Proof.
  intros Hne. rewrite clear_if_output_only_fold.
  generalize (fd_behavior fd) as behaviors. intros behaviors. revert copy.
  induction behaviors as [|b bs IH]; intros copy; [done|].
  cbn [fold_left]. rewrite IH. case_bool_decide; [|done]. by rewrite lookup_delete_ne.
Qed.

Lemma clear_if_output_only_None (fd : FieldDescriptor) (copy : gmap string Value)
    (name : string) :
  copy !! name = None -> clear_if_output_only fd copy !! name = None.
Proof.
  rewrite clear_if_output_only_fold.
  generalize (fd_behavior fd) as behaviors. intros behaviors. revert copy.
  induction behaviors as [|b bs IH]; intros copy Hnone; [done|].
  cbn [fold_left]. apply IH. case_bool_decide; [|done].
  destruct (decide (fd_name fd = name)) as [->|Hne].
  - apply lookup_delete_eq.
  - by rewrite lookup_delete_ne.
Qed.

Lemma clear_if_output_only_keeps (fd : FieldDescriptor) (copy : gmap string Value) :
  OUTPUT_ONLY ∉ fd_behavior fd -> clear_if_output_only fd copy = copy.
Proof.
  rewrite clear_if_output_only_fold.
  generalize (fd_behavior fd) as behaviors. intros behaviors. revert copy.
  induction behaviors as [|b bs IH]; intros copy Hnot; [done|].
  cbn [fold_left]. apply not_elem_of_cons in Hnot as [Hb Hbs].
  rewrite bool_decide_eq_false_2 by done. by apply IH.
Qed.

Lemma clear_if_output_only_clears (fd : FieldDescriptor) (copy : gmap string Value) :
  OUTPUT_ONLY ∈ fd_behavior fd -> clear_if_output_only fd copy !! fd_name fd = None.
Proof.
  rewrite clear_if_output_only_fold.
  generalize (fd_behavior fd) as behaviors. intros behaviors. revert copy.
  induction behaviors as [|b bs IH]; intros copy Hin.
  - by apply elem_of_nil in Hin.
  - cbn [fold_left]. case_bool_decide as Hb.
    + pose proof (clear_if_output_only_None
                    {| fd_name := fd_name fd; fd_kind := fd_kind fd; fd_behavior := bs |}
                    (delete (fd_name fd) copy) (fd_name fd)) as H.
      rewrite clear_if_output_only_fold in H. apply H. apply lookup_delete_eq.
    + apply IH. apply elem_of_cons in Hin as [Heq|Hin]; [congruence|done].
Qed.

(** After [clearOutputOnlyFields] a field named by an [OUTPUT_ONLY]
    descriptor is unpopulated and every other field is as it was. *)
Lemma clearOutputOnlyFields_lookup (m : Message) (name : string) :
  msg_fields (clearOutputOnlyFields m) !! name
  = if decide (output_only_named (msg_desc m) name) then None
    else msg_fields m !! name.
Proof.
  unfold clearOutputOnlyFields, output_only_named. cbn [msg_fields].
  generalize (md_fields (msg_desc m)) as fields.
  generalize (msg_fields m) as copy.
  intros copy fields. revert copy.
  induction fields as [|fd fields IH]; intros copy.
  - cbn [fold_left]. case_decide as H; [|done]. by apply Exists_nil in H.
  - cbn [fold_left]. rewrite IH. clear IH.
    destruct (decide (Exists (fun fd => fd_name fd = name /\ OUTPUT_ONLY ∈ fd_behavior fd)
                             fields)) as [Hrest|Hrest].
    + rewrite decide_True; [done|]. by apply Exists_cons_tl.
    + destruct (decide (fd_name fd = name /\ OUTPUT_ONLY ∈ fd_behavior fd)) as [[<- Hin]|Hfd].
      * rewrite decide_True by (by apply Exists_cons_hd).
        by apply clear_if_output_only_clears.
      * rewrite decide_False.
        2:{ intros [?|?]%Exists_cons; done. }
        destruct (decide (fd_name fd = name)) as [Hname|Hname].
        -- rewrite clear_if_output_only_keeps; [done|]. intros Hin. by apply Hfd.
        -- by apply clear_if_output_only_other.
Qed.

Lemma clearOutputOnlyFields_cleared (m : Message) (fd : FieldDescriptor) :
  fd ∈ md_fields (msg_desc m) -> OUTPUT_ONLY ∈ fd_behavior fd ->
  any_value (anypb_New (clearOutputOnlyFields m)) !! fd_name fd = None.
Proof.
  intros Hin Hout. cbn [anypb_New any_value].
  rewrite clearOutputOnlyFields_lookup, decide_True; [done|].
  apply Exists_exists. by exists fd.
Qed.

Lemma Set_ByName_Ok (m m' : Message) (d : MessageDescriptor) (name : string) (v : Value) :
  Set_ m (ByName d name) v = Ok m' ->
  exists f, ByName d name = Some f /\ kind_of v = fd_kind f /\
            m' = {| msg_desc := msg_desc m; msg_fields := <[name := v]> (msg_fields m) |}.
Proof.
  intros (f & Hf & _ & Hkind & ->)%Set_Ok.
  exists f. destruct (ByName_name _ _ _ Hf) as [<- _]. done.
Qed.

Lemma protojson_Marshal_Ok (G : list MessageDescriptor) (a : Any) (data : Data) :
  protojson_Marshal G a = Ok data -> data = JsonAny a.
Proof. unfold protojson_Marshal. destruct (FindMessageByURL G (type_url a)); by intros [=]. Qed.

Lemma sql_prepare_Ok (table : string) (t : Tables) (u : unit) :
  sql_prepare table t = Ok u -> exists rows, t !! table = Some rows.
Proof. unfold sql_prepare. destruct (t !! table); [by eexists|done]. Qed.

(** What a successful [CreateResource] has done: one row appended to
    the table of the resource, carrying the output-only-free clone. *)
Lemma CreateResource_Ok (G : list MessageDescriptor) (req : CreateResourceRequest)
    (uid : string) (now_create now_update : Time) (r r' : resourceServer) (ret : Any) :
  CreateResource G req uid now_create now_update r = (Ok ret, r') ->
  exists resource table rows row,
    ret = anypb_New resource /\
    getResourceTableName (msg_desc resource) = Ok table /\
    tables (database r) !! table = Some rows /\
    row_data row = JsonAny (anypb_New (clearOutputOnlyFields resource)) /\
    row_delete_time row = None /\
    tables (database r') = <[table := rows ++ [row]]> (tables (database r)) /\
    open_txs (database r') = open_txs (database r) /\
    resources r' = resources r.
Proof.
  unfold CreateResource. intros H. rewrite bind_self in H.
  lift_inv H u Hregistered. lift_inv H m0 Hm0.
  lift_inv H m1 Hm1. lift_inv H m2 Hm2. lift_inv H resource Hresource.
  lift_inv H reqJson HreqJson. rewrite bind_BeginTx in H.
  lift_inv H name Hname. tx_query_inv H found Hfound.
  destruct found as [existing|]; [done|].
  lift_inv H table Htable. tx_query_inv H u' Hprepare.
  lift_inv H vuid Hvuid. lift_inv H vname Hvname.
  lift_inv H create_time Hcreate. lift_inv H update_time Hupdate.
  tx_exec_inv H t Hinsert. rewrite bind_Commit in H.
  injection H as <- <-.
  rewrite tx_tables_begun in Hinsert, Hprepare.
  apply sql_prepare_Ok in Hprepare as [rows Hrows].
  unfold sql_insert in Hinsert. rewrite Hrows in Hinsert.
  destruct (forallb _ rows); [|done]. injection Hinsert as <-.
  apply protojson_Marshal_Ok in HreqJson as ->.
  eexists resource, table, rows, _.
  repeat split; try done.
Qed.

(** What a successful [atomicUpdateResource] has done: the rows named
    like the updated message, in the table of its type, carry new
    [update_time], [delete_time] and the output-only-free clone. *)
Lemma atomicUpdateResource_Ok (G : list MessageDescriptor) (resourceName resourceType : string)
    (updater : updaterFunc) (now : Time) (r r' : resourceServer) (ret : Any) :
  atomicUpdateResource G resourceName resourceType updater now r = (Ok ret, r') ->
  exists updated table rows update_time deletion name,
    ret = anypb_New updated /\
    getResourceTableName (msg_desc updated) = Ok table /\
    tables (database r) !! table = Some rows /\
    tables (database r')
      = <[table := map (set_columns update_time deletion
                          (JsonAny (anypb_New (clearOutputOnlyFields updated))) name) rows]>
          (tables (database r)) /\
    open_txs (database r') = open_txs (database r) /\
    resources r' = resources r.
Proof.
  unfold atomicUpdateResource. intros H. rewrite bind_self in H.
  lift_inv H d Hd. rewrite bind_BeginTx in H.
  tx_query_inv H existing Hexisting. lift_inv H unpacked Hunpacked.
  lift_inv H both Hupdater. destruct both as [unpacked' updated0].
  lift_inv H conflict Hconflict. destruct conflict; [done|].
  unfold storeUpdatedResource in H.
  lift_inv H updated Hupdated. lift_inv H reqJson HreqJson.
  lift_inv H table Htable. lift_inv H deletion Hdeletion.
  tx_query_inv H u Hprepare. lift_inv H update_time Hupdate_time.
  lift_inv H name Hname. tx_exec_inv H t Hexec. rewrite bind_Commit in H.
  injection H as <- <-.
  rewrite tx_tables_begun in Hexec, Hprepare.
  apply sql_prepare_Ok in Hprepare as [rows Hrows].
  unfold sql_update in Hexec. rewrite Hrows in Hexec. injection Hexec as <-.
  apply protojson_Marshal_Ok in HreqJson as ->.
  eexists updated, table, rows, _, deletion, _.
  repeat split; try done.
Qed.

Lemma clearOutputOnlyFields_clean (m : Message) :
  payload_clean (msg_desc m) (JsonAny (anypb_New (clearOutputOnlyFields m))).
Proof. eexists. split; [done|]. apply clearOutputOnlyFields_cleared. Qed.

(** ** Decoding stored rows *)

Lemma Parse_Format (t : Time) :
  Parse_RFC3339Nano (Format_RFC3339Nano t) = Ok t.
Proof.
  unfold Parse_RFC3339Nano, Format_RFC3339Nano.
  rewrite NilZero.isi.
  - by rewrite DecimalZ.of_to.
  - destruct t; try done. simpl. intros [= H]. by apply DecimalPos.Unsigned.to_uint_nonnil in H.
  - destruct t; try done. simpl. intros [= H]. by apply DecimalPos.Unsigned.to_uint_nonnil in H.
Qed.

Lemma has_field_Set (d : MessageDescriptor) (m : Message) (name : string) (v : Value) :
  msg_desc m = d ->
  has_field d name (kind_of v) = true ->
  Set_ m (ByName d name) v
  = Ok {| msg_desc := d; msg_fields := <[name := v]> (msg_fields m) |}.
Proof.
  intros <-. unfold has_field.
  destruct (ByName (msg_desc m) name) as [f|] eqn:Hf; [|done].
  intros Hkind%bool_decide_eq_true.
  destruct (ByName_name _ _ _ Hf) as [Hname Hin].
  unfold Set_, checkField. rewrite bool_decide_eq_true_2 by done. cbn.
  rewrite bool_decide_eq_true_2 by done. by rewrite Hname.
Qed.

Lemma has_field_Get (d : MessageDescriptor) (m : Message) (name : string) (k : Kind) :
  msg_desc m = d ->
  has_field d name k = true ->
  Get m (ByName d name)
  = Ok (default (zero_value k) (msg_fields m !! name)).
Proof.
  intros <-. unfold has_field.
  destruct (ByName (msg_desc m) name) as [f|] eqn:Hf; [|done].
  intros Hkind%bool_decide_eq_true.
  destruct (ByName_name _ _ _ Hf) as [Hname Hin].
  unfold Get, checkField. rewrite bool_decide_eq_true_2 by done. cbn.
  by rewrite Hname, Hkind.
Qed.

Lemma Set_has_field (d : MessageDescriptor) (m m' : Message) (name : string) (v : Value) :
  Set_ m (ByName d name) v = Ok m' ->
  has_field d name (kind_of v) = true /\
  m' = {| msg_desc := msg_desc m; msg_fields := <[name := v]> (msg_fields m) |}.
Proof.
  intros (f & Hf & Hkind & ->)%Set_ByName_Ok. split; [|done].
  unfold has_field. rewrite Hf. by apply bool_decide_eq_true_2.
Qed.

Lemma scanResource_row (G : list MessageDescriptor) (row : Row) (resource : Message) :
  row_decodes G row resource ->
  scanResource G (project all_columns row) = Ok (anypb_New resource).
Proof.
  intros (a & d & sc & su & tc & tu & td & Hdata & Hurl & Hschema
            & Hsc & Htc & Hsu & Htu & Hdelete & ->).
  unfold is_resource_schema in Hschema.
  apply andb_prop in Hschema as [Hschema Hu].
  apply andb_prop in Hschema as [Hschema Hc].
  apply andb_prop in Hschema as [Huid Hname].
  cbn [project all_columns map select_column scanResource].
  rewrite Hdata, Hsc, Hsu. cbn [nullable scan_string scan_data mbind result_bind].
  assert (Hscan : scan_NullString (nullable (row_delete_time row)) = Ok (row_delete_time row)).
  { by destruct (row_delete_time row). }
  rewrite Hscan. cbn [mbind result_bind].
  unfold protojson_Unmarshal, UnmarshalNew. rewrite Hurl. cbn [mbind result_bind type_url].
  rewrite Hurl. cbn [mbind result_bind msg_desc].
  rewrite (has_field_Set d _ "uid" (VString (row_uid row))) by done.
  cbn [mbind result_bind msg_fields].
  rewrite (has_field_Set d _ "name" (VString (row_name row))) by done.
  cbn [mbind result_bind msg_fields]. rewrite Htc, Htu. cbn [mbind result_bind].
  destruct (row_delete_time row) as [sd|].
  - destruct Hdelete as (t & -> & Ht & Hfield). rewrite Ht. cbn [mbind result_bind].
    rewrite (has_field_Set d _ "delete_time" (VMessage (Some t))) by done.
    cbn [mbind result_bind msg_fields].
    rewrite (has_field_Set d _ "create_time" (VMessage (Some tc))) by done.
    cbn [mbind result_bind msg_fields].
    rewrite (has_field_Set d _ "update_time" (VMessage (Some tu))) by done.
    reflexivity.
  - subst td. cbn [mbind result_bind].
    rewrite (has_field_Set d _ "create_time" (VMessage (Some tc))) by done.
    cbn [mbind result_bind msg_fields].
    rewrite (has_field_Set d _ "update_time" (VMessage (Some tu))) by done.
    reflexivity.
Qed.

Lemma scan_NullString_nullable (o : option string) :
  scan_NullString (nullable o) = Ok o.
Proof. by destruct o. Qed.

Lemma scanResource_row_Ok (G : list MessageDescriptor) (row : Row) (ret : Any) :
  scanResource G (project all_columns row) = Ok ret ->
  exists resource, row_decodes G row resource /\ ret = anypb_New resource.
Proof.
  cbn [project all_columns map select_column scanResource]. intros H.
  cbn [scan_string mbind result_bind] in H.
  bind_inv H createTime Ecreate. bind_inv H updateTime Eupdate.
  rewrite scan_NullString_nullable in H. cbn [scan_data mbind result_bind] in H.
  bind_inv H a Ea. bind_inv H m0 Em0.
  bind_inv H m1 Em1. bind_inv H m2 Em2.
  bind_inv H ctime Ectime. bind_inv H utime Eutime.
  bind_inv H m3 Em3. bind_inv H m4 Em4. bind_inv H m5 Em5.
  injection H as <-.
  destruct (row_data row) as [a'|] eqn:Hdata; [|done].
  unfold protojson_Unmarshal in Ea.
  destruct (FindMessageByURL G (type_url a')) as [d|] eqn:Hurl; [|done].
  injection Ea as ->.
  unfold UnmarshalNew in Em0. rewrite Hurl in Em0. injection Em0 as <-.
  cbn [msg_desc] in *.
  apply Set_has_field in Em1 as [Huid ->]. apply Set_has_field in Em2 as [Hname ->].
  destruct (row_create_time row) as [sc|] eqn:Hsc; [|done]. injection Ecreate as <-.
  destruct (row_update_time row) as [su|] eqn:Hsu; [|done]. injection Eupdate as <-.
  cbn [msg_desc msg_fields kind_of] in *.
  destruct (row_delete_time row) as [sd|] eqn:Hsd.
  - bind_inv Em3 td Etd. apply Set_has_field in Em3 as [Hdelete ->].
    apply Set_has_field in Em4 as [Hcreate ->].
    apply Set_has_field in Em5 as [Hupdate ->].
    cbn [msg_desc msg_fields kind_of] in *.
    eexists. split; [|reflexivity].
    exists a, d, sc, su, ctime, utime, (Some td). rewrite Hsd.
    repeat split; try done.
    + unfold is_resource_schema. by rewrite Huid, Hname, Hcreate, Hupdate.
    + by exists td.
  - injection Em3 as <-.
    apply Set_has_field in Em4 as [Hcreate ->].
    apply Set_has_field in Em5 as [Hupdate ->].
    cbn [msg_desc msg_fields kind_of] in *.
    eexists. split; [|reflexivity].
    exists a, d, sc, su, ctime, utime, None. rewrite Hsd.
    repeat split; try done.
    unfold is_resource_schema. by rewrite Huid, Hname, Hcreate, Hupdate.
Qed.

(** [getResource] on a registered type whose table exists: the first
    row with the requested name is the one decoded. *)
Lemma getResource_select (G : list MessageDescriptor) (r : resourceServer) (db : Tables)
    (req : GetResourceRequest) (d : MessageDescriptor) (table : string) (rows : list Row) :
  resources r !! get_ResourceType req = Some d ->
  getResourceTableName d = Ok table ->
  db !! table = Some rows ->
  getResource G r db req
  = match filter (fun row => row_name row = get_Name req) rows with
    | [] => Err (StatusError NotFound "resource not found" [])
    | row :: _ => scanResource G (project all_columns row)
    end.
Proof.
  intros Hd Htable Hrows. unfold getResource, GetResourceDescriptor.
  rewrite Hd. cbn [mbind result_bind]. rewrite Htable. cbn [mbind result_bind].
  unfold sql_select_by_name. rewrite Hrows. cbn [mbind result_bind].
  by destruct (filter _ rows).
Qed.

Lemma getResource_Ok_row (G : list MessageDescriptor) (r : resourceServer) (db : Tables)
    (req : GetResourceRequest) (ret : Any) :
  getResource G r db req = Ok ret ->
  exists d table rows row others resource,
    resources r !! get_ResourceType req = Some d /\
    getResourceTableName d = Ok table /\
    db !! table = Some rows /\
    filter (fun row => row_name row = get_Name req) rows = row :: others /\
    row_decodes G row resource /\
    ret = anypb_New resource.
Proof.
  unfold getResource. intros H.
  bind_inv H d Ed. bind_inv H table Etable. bind_inv H res Eres.
  unfold GetResourceDescriptor in Ed.
  destruct (resources r !! get_ResourceType req) as [d'|] eqn:Hd; [|done].
  injection Ed as ->.
  unfold sql_select_by_name in Eres.
  destruct (db !! table) as [rows|] eqn:Hrows; [|done]. injection Eres as <-.
  destruct (filter _ rows) as [|row others] eqn:Hfilter; [done|].
  cbn [map] in H. apply scanResource_row_Ok in H as (resource & Hdecodes & ->).
  by exists d, table, rows, row, others, resource.
Qed.

(** ** Soft deletion *)

Lemma stamped_desc d payload uid name ctime utime dtime :
  msg_desc (stamped d payload uid name ctime utime dtime) = d.
Proof. done. Qed.

Lemma stamped_lookup_name d payload uid name ctime utime dtime :
  msg_fields (stamped d payload uid name ctime utime dtime) !! "name" = Some (VString name).
Proof. unfold stamped. destruct dtime; by simplify_map_eq. Qed.

Lemma row_decodes_linked (G : list MessageDescriptor) (row : Row) (resource : Message) :
  row_decodes G row resource ->
  linked_type G (msg_desc resource) /\ is_resource_schema (msg_desc resource) = true /\
  msg_fields resource !! "name" = Some (VString (row_name row)).
Proof.
  intros (a & d & sc & su & ctime & utime & dtime & _ & Hurl & Hschema & _ & _ & _ & _ & _ & ->).
  rewrite stamped_desc, stamped_lookup_name.
  split; [|done]. by apply FindMessageByURL_linked in Hurl.
Qed.

Lemma is_resource_schema_fields (d : MessageDescriptor) :
  is_resource_schema d = true ->
  has_field d "uid" StringKind = true /\ has_field d "name" StringKind = true /\
  has_field d "create_time" MessageKind = true /\ has_field d "update_time" MessageKind = true.
Proof.
  unfold is_resource_schema. intros H.
  apply andb_prop in H as [H Hu]. apply andb_prop in H as [H Hc].
  by apply andb_prop in H as [Huid Hname].
Qed.

Lemma stamp_update_time (d : MessageDescriptor) (m : Message) (now : Time) :
  msg_desc m = d ->
  has_field d "update_time" MessageKind = true ->
  match ByName d "update_time" with
  | Some updatedField => Set_ m (Some updatedField) (VMessage (Some now))
  | None => Ok m
  end
  = Ok {| msg_desc := d;
          msg_fields := <["update_time" := VMessage (Some now)]> (msg_fields m) |}.
Proof.
  intros Hm Hfield.
  rewrite <- (has_field_Set d m "update_time" (VMessage (Some now))) by done.
  unfold has_field in Hfield. by destruct (ByName d "update_time").
Qed.

Lemma Get_Timestamp (d : MessageDescriptor) (m : Message) (name : string) (t : Time) :
  msg_desc m = d ->
  has_field d name MessageKind = true ->
  msg_fields m !! name = Some (VMessage (Some t)) ->
  (v ← Get m (ByName d name); msg ← Value_Message v; Ok (Timestamp_AsTime msg)) = Ok t.
Proof.
  intros Hm Hfield Hlookup.
  rewrite (has_field_Get d m name MessageKind) by done. by rewrite Hlookup.
Qed.

(** What a successful [DeleteResource] of a resource of the registered
    type has done. *)
Lemma DeleteResource_Ok (G : list MessageDescriptor) (req : DeleteResourceRequest)
    (now_delete now : Time) (r r' : resourceServer) (ret : Any) (d : MessageDescriptor) :
  DeleteResource G req now_delete now r = (Ok ret, r') ->
  resources r !! delete_ResourceType req = Some d ->
  FindMessageByURL G (type_url ret) = Some d ->
  exists table rows row others stored,
    getResourceTableName d = Ok table /\
    tables (database r) !! table = Some rows /\
    filter (fun row => row_name row = delete_Name req) rows = row :: others /\
    row_decodes G row stored /\
    msg_desc stored = d /\
    has_field d "delete_time" MessageKind = true /\
    let updated :=
      {| msg_desc := d;
         msg_fields := <["update_time" := VMessage (Some now)]>
                         (<["delete_time" := VMessage (Some now_delete)]> (msg_fields stored)) |} in
    ret = anypb_New updated /\
    tables (database r')
      = <[table := map (set_columns (Format_RFC3339Nano now)
                                    (Some (Format_RFC3339Nano now_delete))
                                    (JsonAny (anypb_New (clearOutputOnlyFields updated)))
                                    (delete_Name req)) rows]>
          (tables (database r)) /\
    open_txs (database r') = open_txs (database r) /\
    resources r' = resources r.
Proof.
  unfold DeleteResource, atomicUpdateResource. intros H Hd Hret.
  rewrite bind_self in H. lift_inv H d' Hd'.
  unfold GetResourceDescriptor in Hd'. rewrite Hd in Hd'. injection Hd' as <-.
  rewrite bind_BeginTx in H. tx_query_inv H existing Hexisting.
  rewrite tx_tables_begun in Hexisting.
  apply getResource_Ok_row in Hexisting
    as (d0 & table & rows & row & others & stored & Hd0 & Htable & Hrows & Hfilter
          & Hdecodes & ->).
  cbn [get_ResourceType get_Name] in *. rewrite Hd in Hd0. injection Hd0 as <-.
  destruct (row_decodes_linked _ _ _ Hdecodes) as (Hlinked & Hschema & Hname).
  rewrite UnmarshalNew_anypb_New in H by done.
  lift_inv H unpacked Hunpacked. injection Hunpacked as <-.
  lift_inv H both Hupdater. bind_inv Hupdater deleted Hdeleted.
  injection Hupdater as <-.
  apply Set_has_field in Hdeleted as [Hdelete_time ->].
  lift_inv H conflict Hconflict. destruct conflict; [done|].
  unfold storeUpdatedResource in H.
  lift_inv H updated Hupdated. lift_inv H reqJson HreqJson.
  lift_inv H table' Htable'. lift_inv H deletion Hdeletion.
  tx_query_inv H u Hprepare. lift_inv H update_time Hupdate_time.
  lift_inv H vname Hvname. tx_exec_inv H t Hexec. rewrite bind_Commit in H.
  injection H as <- <-.
  (* the returned resource is of the registered type *)
  assert (Hdesc : msg_desc updated = msg_desc stored).
  { destruct (ByName d "update_time"); [by apply Set_desc in Hupdated|by injection Hupdated as <-]. }
  assert (Hsame : msg_desc stored = d).
  { rewrite FindMessageByURL_anypb_New in Hret by (by rewrite Hdesc).
    injection Hret as <-. done. }
  rewrite Hsame in *.
  destruct (is_resource_schema_fields _ Hschema) as (Huid & Hnm & Hct & Hut).
  rewrite stamp_update_time in Hupdated by done. injection Hupdated as <-.
  apply protojson_Marshal_Ok in HreqJson as ->.
  cbn [msg_desc] in Htable'. rewrite Htable in Htable'. injection Htable' as <-.
  assert (deletion = Some (Format_RFC3339Nano now_delete)) as ->.
  { unfold getResourceDeletion in Hdeletion. cbn [msg_desc] in Hdeletion.
    rewrite (has_field_Get d _ "delete_time" MessageKind) in Hdeletion by done.
    cbn [msg_fields] in Hdeletion.
    rewrite lookup_insert_ne, lookup_insert_eq in Hdeletion by done.
    by injection Hdeletion as <-. }
  rewrite (Get_Timestamp d _ "update_time" now) in Hupdate_time; [| done | done | ].
  2:{ cbn [msg_fields]. by rewrite lookup_insert_eq. }
  injection Hupdate_time as <-.
  rewrite (has_field_Get d _ "name" StringKind) in Hvname by done.
  cbn [msg_fields] in Hvname.
  rewrite !lookup_insert_ne, Hname in Hvname by done.
  injection Hvname as <-. cbn [default Value_String] in Hexec.
  assert (Hrow : row_name row = delete_Name req).
  { assert (Hin : row ∈ filter (fun row => row_name row = delete_Name req) rows).
    { rewrite Hfilter. apply list_elem_of_here. }
    by apply list_elem_of_filter in Hin as [? _]. }
  rewrite Hrow in Hexec.
  rewrite tx_tables_begun in Hexec.
  unfold sql_update in Hexec. rewrite Hrows in Hexec. injection Hexec as <-.
  exists table, rows, row, others, stored.
  repeat split; try done.
Qed.

Lemma set_columns_name update_time delete_time data name row :
  row_name (set_columns update_time delete_time data name row) = row_name row.
Proof. unfold set_columns. by destruct (String.eqb _ _). Qed.

Lemma filter_set_columns update_time delete_time data name (wanted : string) rows :
  filter (fun row => row_name row = wanted)
         (map (set_columns update_time delete_time data name) rows)
  = map (set_columns update_time delete_time data name)
        (filter (fun row => row_name row = wanted) rows).
Proof.
  induction rows as [|row rows IH]; [done|].
  cbn [map]. rewrite !filter_cons, set_columns_name.
  case_decide; [|done]. cbn [map]. by rewrite IH.
Qed.

Lemma plain_bind {A B} (x : result A) (k : A -> result B) :
  plain x -> (forall a, plain (k a)) -> plain (x ≫= k).
Proof.
  intros Hx Hk e. destruct x as [a| |]; cbn; [apply Hk| |done].
  intros [= <-]. by apply Hx.
Qed.

Lemma plain_Set m fd v : plain (Set_ m fd v).
Proof.
  unfold Set_, checkField. intros e.
  destruct fd; [|done]. case_bool_decide; [|done]. cbn. by case_bool_decide.
Qed.

Lemma plain_Parse s : plain (Parse_RFC3339Nano s).
Proof. unfold Parse_RFC3339Nano. intros e. destruct (NilZero.int_of_string s); by intros [= <-]. Qed.

Lemma plain_scan_string c : plain (scan_string c).
Proof. by destruct c; intros e [= <-]. Qed.

Lemma plain_scanResource (G : list MessageDescriptor) (cells : list Cell) :
  plain (scanResource G cells).
Proof.
  unfold scanResource.
  do 8 (destruct cells as [|? cells]; try by intros e [= <-]).
  do 5 (apply plain_bind; [apply plain_scan_string|intros ?]).
  apply plain_bind; [by destruct c4; intros e [= <-]|intros deleteTime].
  apply plain_bind; [by destruct c5; intros e [= <-]|intros data].
  apply plain_bind; [|intros anyResource].
  { unfold protojson_Unmarshal. destruct data as [a'|]; [|by intros e [= <-]].
    destruct (FindMessageByURL G (type_url a')); by intros e [= <-]. }
  apply plain_bind; [|intros resource].
  { unfold UnmarshalNew.
    destruct (FindMessageByURL G (type_url anyResource)); by intros e [= <-]. }
  cbv zeta.
  do 2 (apply plain_bind; [apply plain_Set|intros ?]).
  do 2 (apply plain_bind; [apply plain_Parse|intros ?]).
  apply plain_bind; [|intros ?].
  { destruct deleteTime; [|done].
    apply plain_bind; [apply plain_Parse|intros ?; apply plain_Set]. }
  do 2 (apply plain_bind; [apply plain_Set|intros ?]).
  done.
Qed.

Lemma GetResource_run (G : list MessageDescriptor) (req : GetResourceRequest)
    (r : resourceServer) :
  GetResource G req r = (getResource G r (tables (database r)) req, r).
Proof.
  unfold GetResource. rewrite bind_self. unfold db_query. done.
Qed.

Lemma GetResource_after_DeleteResource (G : list MessageDescriptor)
    (req : DeleteResourceRequest) (now_delete now : Time) (r r' : resourceServer)
    (ret : Any) (d : MessageDescriptor) :
  DeleteResource G req now_delete now r = (Ok ret, r') ->
  resources r !! delete_ResourceType req = Some d ->
  FindMessageByURL G (type_url ret) = Some d ->
  exists ret',
    GetResource G {| get_Name := delete_Name req;
                     get_ResourceType := delete_ResourceType req |} r' = (Ok ret', r') /\
    any_value ret' !! "delete_time" = Some (VMessage (Some now_delete)) /\
    (forall name, system_field name \/ ~ output_only_named d name ->
                  any_value ret' !! name = any_value ret !! name).
Proof.
  intros H Hd Hret.
  destruct (DeleteResource_Ok _ _ _ _ _ _ _ _ H Hd Hret)
    as (table & rows & row & others & stored & Htable & Hrows & Hfilter & Hdecodes
          & Hstored & Hdelete_time & Hreturned & Htables & Hopen & Hresources).
  cbv zeta in Hreturned, Htables.
  set (updated := {| msg_desc := d; msg_fields := _ |}) in *.
  assert (Hrow : row_name row = delete_Name req).
  { assert (Hin : row ∈ filter (fun row => row_name row = delete_Name req) rows).
    { rewrite Hfilter. apply list_elem_of_here. }
    by apply list_elem_of_filter in Hin as [? _]. }
  destruct Hdecodes as (a & d0 & sc & su & ctime & utime & dtime & Hdata & Hurl & Hschema
                          & Hsc & Hctime & Hsu & Hutime & Hdtime & Hstamped).
  assert (d0 = d) as -> by (by rewrite Hstamped in Hstored).
  pose proof (FindMessageByURL_linked _ _ _ Hurl) as Hlinked.
  rewrite GetResource_run.
  rewrite (getResource_select G r' _ _ d table
             (map (set_columns (Format_RFC3339Nano now) (Some (Format_RFC3339Nano now_delete))
                     (JsonAny (anypb_New (clearOutputOnlyFields updated))) (delete_Name req))
                  rows)).
  2:{ by rewrite Hresources. }
  2:{ done. }
  2:{ rewrite Htables. apply lookup_insert_eq. }
  cbn [get_Name]. rewrite filter_set_columns, Hfilter. cbn [map].
  set (row' := set_columns _ _ _ _ row).
  set (resource' := stamped d (msg_fields (clearOutputOnlyFields updated))
                      (row_uid row) (row_name row) ctime now (Some now_delete)).
  assert (Hrow' : row' = {| row_uid := row_uid row; row_name := row_name row;
                            row_parent := row_parent row;
                            row_data := JsonAny (anypb_New (clearOutputOnlyFields updated));
                            row_create_time := row_create_time row;
                            row_update_time := Some (Format_RFC3339Nano now);
                            row_delete_time := Some (Format_RFC3339Nano now_delete) |}).
  { subst row'. unfold set_columns. by rewrite Hrow, String.eqb_refl. }
  rewrite (scanResource_row G row' resource').
  2:{ rewrite Hrow'.
      exists (anypb_New (clearOutputOnlyFields updated)), d, sc, (Format_RFC3339Nano now),
             ctime, now, (Some now_delete).
      cbn [row_data row_create_time row_update_time row_delete_time row_uid row_name].
      repeat split; try done.
      - by apply (FindMessageByURL_anypb_New G (clearOutputOnlyFields updated)).
      - apply Parse_Format.
      - exists now_delete. repeat split; [apply Parse_Format|done]. }
  exists (anypb_New resource'). split; [done|].
  subst resource'. cbn [anypb_New any_value stamped msg_fields].
  split; [by simplify_map_eq|].
  intros name Hname. rewrite Hreturned. cbn [anypb_New any_value].
  subst updated. cbn [msg_fields].
  rewrite Hstamped. unfold stamped. cbn [msg_fields].
  destruct (decide (name = "update_time")) as [->|?]; [by simplify_map_eq|].
  destruct (decide (name = "create_time")) as [->|?].
  { destruct dtime; by simplify_map_eq. }
  destruct (decide (name = "delete_time")) as [->|?]; [by simplify_map_eq|].
  destruct (decide (name = "name")) as [->|?].
  { destruct dtime; by simplify_map_eq. }
  destruct (decide (name = "uid")) as [->|?].
  { destruct dtime; by simplify_map_eq. }
  destruct Hname as [Hsys|Hnot].
  { unfold system_field in Hsys.
    repeat (apply elem_of_cons in Hsys as [?|Hsys]; [done|]).
    by apply elem_of_nil in Hsys. }
  rewrite !lookup_insert_ne by done.
  rewrite clearOutputOnlyFields_lookup, decide_False by done.
  cbn [msg_fields]. by rewrite !lookup_insert_ne by done.
Qed.

(** C7: [GetResource] selects by name alone.  A stored row that decodes
    is returned whether or not its [delete_time] is null; after a
    successful [DeleteResource] of a resource of the registered type,
    [GetResource] succeeds, its value carries the instant that the
    delete stamped and agrees with the value the delete returned on the
    system fields and on every field that is not output-only; and on a
    registered type with its table the [NotFound] status is returned
    exactly when no row has the name. *)
Theorem GetResource_ignores_delete_time (G : list MessageDescriptor) (r : resourceServer)
    (resourceType : string) (d : MessageDescriptor) (table : string) (rows : list Row) :
  resources r !! resourceType = Some d ->
  getResourceTableName d = Ok table ->
  tables (database r) !! table = Some rows ->
  (forall name row others resource,
     filter (fun row => row_name row = name) rows = row :: others ->
     row_decodes G row resource ->
     GetResource G {| get_Name := name; get_ResourceType := resourceType |} r
       = (Ok (anypb_New resource), r)) /\
  (forall name now_delete now r' ret,
     DeleteResource G {| delete_Name := name; delete_ResourceType := resourceType |}
       now_delete now r = (Ok ret, r') ->
     FindMessageByURL G (type_url ret) = Some d ->
     exists ret',
       GetResource G {| get_Name := name; get_ResourceType := resourceType |} r'
         = (Ok ret', r') /\
       any_value ret' !! "delete_time" = Some (VMessage (Some now_delete)) /\
       (forall field, system_field field \/ ~ output_only_named d field ->
                      any_value ret' !! field = any_value ret !! field)) /\
  (forall name,
     (exists e, GetResource G {| get_Name := name; get_ResourceType := resourceType |} r
                  = (Err e, r) /\ status_Code e = NotFound)
     <-> (forall row, row ∈ rows -> row_name row <> name)).
Proof.
  intros Hd Htable Hrows.
  assert (Hget : forall name,
            GetResource G {| get_Name := name; get_ResourceType := resourceType |} r
            = (match filter (fun row => row_name row = name) rows with
               | [] => Err (StatusError NotFound "resource not found" [])
               | row :: _ => scanResource G (project all_columns row)
               end, r)).
  { intros name. rewrite GetResource_run.
    by rewrite (getResource_select G r _ _ d table rows). }
  split; [|split].
  - intros name row others resource Hfilter Hdecodes.
    by rewrite Hget, Hfilter, (scanResource_row G row resource).
  - intros name now_delete now r' ret Hdelete Hret.
    by apply (GetResource_after_DeleteResource G _ _ _ _ _ _ d Hdelete).
  - intros name. rewrite Hget. split.
    + intros (e & He & Hcode) row Hin Hname.
      assert (Hmatch : row ∈ filter (fun row => row_name row = name) rows).
      { apply list_elem_of_filter. by split. }
      destruct (filter (fun row => row_name row = name) rows) as [|first others].
      { by apply elem_of_nil in Hmatch. }
      apply (f_equal fst) in He. cbn [fst] in He.
      apply (plain_scanResource G _ e) in He. by rewrite He in Hcode.
    + intros Hnone.
      destruct (filter (fun row => row_name row = name) rows) as [|first others] eqn:Hfilter.
      * by eexists.
      * exfalso. apply (Hnone first); [|].
        -- assert (Hin : first ∈ filter (fun row => row_name row = name) rows).
           { rewrite Hfilter. apply list_elem_of_here. }
           by apply list_elem_of_filter in Hin as [_ ?].
        -- assert (Hin : first ∈ filter (fun row => row_name row = name) rows).
           { rewrite Hfilter. apply list_elem_of_here. }
           by apply list_elem_of_filter in Hin as [? _].
Qed.

Lemma GetResource_returns_deleted_account :
  exists ret',
    GetResource linked get_a1 with_a1_deleted = (Ok ret', with_a1_deleted) /\
    any_value ret' !! "delete_time" = Some (VMessage (Some 300%Z)).
Proof.
  edestruct (GetResource_ignores_delete_time linked with_a1 "features.Account" Account
               "account_resource") as (_ & Hdeleted & _).
  - reflexivity.
  - reflexivity.
  - vm_compute. reflexivity.
  - edestruct (Hdeleted "accounts/a1" 300%Z 301%Z) as (ret' & Hget & Htime & _).
    + vm_compute. reflexivity.
    + vm_compute. reflexivity.
    + exists ret'. split; [exact Hget|exact Htime].
Defined.

(** ** Creation and name collisions *)

Lemma registered_type_URL (G : list MessageDescriptor) (r : resourceServer)
    (resourceType : string) (d : MessageDescriptor) :
  registered_type G r resourceType d -> FindMessageByURL G resourceType = Some d.
Proof.
  intros (_ & <- & Hfind & Hslash). unfold FindMessageByURL.
  by rewrite url_message_name_id.
Qed.

(** [CreateResource] on a registered resource type whose table exists:
    it turns on the first stored row with the requested name, and on
    the uniqueness constraints of the table when there is none. *)
Lemma CreateResource_run (G : list MessageDescriptor) (r : resourceServer)
    (req : CreateResourceRequest) (uid : string) (now_create now_update : Time)
    (d : MessageDescriptor) (table : string) (rows : list Row) :
  registered_type G r (type_url (create_Resource req)) d ->
  is_resource_schema d = true ->
  getResourceTableName d = Ok table ->
  tables (database r) !! table = Some rows ->
  CreateResource G req uid now_create now_update r
  = match filter (fun row => row_name row = requested_name req) rows with
    | existing :: _ =>
        match scanResource G (project all_columns existing) with
        | Ok _ => (Err (StatusError AlreadyExists "Resource already exists" []), begun r)
        | Err e => (Err e, begun r)
        | Panic => (Panic, begun r)
        end
    | [] =>
        match sql_insert table (created_row d req uid now_create now_update)
                (tables (database r)) with
        | Ok t =>
            (Ok (anypb_New (created_resource d req uid now_create now_update)),
             {| resources := resources r;
                database := {| tables := t; open_txs := open_txs (database r) |} |})
        | Err e => (Err e, begun r)
        | Panic => (Panic, begun r)
        end
    end.
Proof.
  intros Hregistered Hschema Htable Hrows.
  pose proof (registered_type_URL _ _ _ _ Hregistered) as Hurl.
  destruct Hregistered as (Hd & Hfull & Hlinked).
  destruct (is_resource_schema_fields _ Hschema) as (Huid & Hname & Hct & Hut).
  unfold CreateResource. rewrite bind_self, bind_lift.
  unfold assertRegisteredAnyResource. rewrite Hd.
  rewrite bind_lift. unfold UnmarshalNew. rewrite Hurl. cbv zeta. cbn [msg_desc].
  rewrite bind_lift, (has_field_Set d _ "uid" (VString uid)) by done.
  rewrite bind_lift, (has_field_Set d _ "create_time" (VMessage (Some now_create))) by done.
  rewrite bind_lift, stamp_update_time by done. cbn [msg_fields].
  fold (created_resource d req uid now_create now_update).
  set (resource := created_resource d req uid now_create now_update).
  rewrite bind_lift, protojson_Marshal_anypb_New by done.
  rewrite bind_BeginTx, bind_lift.
  rewrite (has_field_Get d resource "name" StringKind) by done.
  assert (Hrequested : Value_String (default (zero_value StringKind)
                                       (msg_fields resource !! "name")) = requested_name req).
  { subst resource. unfold created_resource, requested_name. cbn [msg_fields].
    by rewrite !lookup_insert_ne by done. }
  rewrite Hrequested, bind_tx_query, tx_tables_begun.
  change (msg_desc resource) with d.
  rewrite Hfull.
  rewrite (getResource_select G r _ _ d table rows) by done.
  cbn [get_Name].
  destruct (filter (fun row => row_name row = requested_name req) rows) as [|existing others].
  - rewrite bool_decide_eq_true_2 by done.
    rewrite bind_lift, Htable, bind_tx_query, tx_tables_begun.
    unfold sql_prepare. rewrite Hrows.
    rewrite bind_lift, (has_field_Get d resource "uid" StringKind) by done.
    rewrite !bind_lift, (Get_Timestamp d resource "create_time" now_create); [|done|done|].
    2:{ subst resource. unfold created_resource. cbn [msg_fields]. by simplify_map_eq. }
    rewrite bind_lift, (Get_Timestamp d resource "update_time" now_update); [|done|done|].
    2:{ subst resource. unfold created_resource. cbn [msg_fields]. by simplify_map_eq. }
    assert (Huid_value : Value_String (default (zero_value StringKind)
                                         (msg_fields resource !! "uid")) = uid).
    { subst resource. unfold created_resource. cbn [msg_fields]. by simplify_map_eq. }
    rewrite Huid_value, Hrequested, bind_tx_exec, tx_tables_begun.
    change (sql_insert table _ (tables (database r)))
      with (sql_insert table (created_row d req uid now_create now_update)
              (tables (database r))).
    by destruct (sql_insert table (created_row d req uid now_create now_update)
                   (tables (database r))) as [t| |].
  - destruct (scanResource G (project all_columns existing)) as [ret|e|] eqn:Hscan.
    + reflexivity.
    + apply plain_scanResource in Hscan.
      rewrite bool_decide_eq_false_2; [done|]. by rewrite Hscan.
    + done.
Qed.

Lemma filter_none {A} (P : A -> Prop) `{forall x, Decision (P x)} (l : list A) :
  (forall x, x ∈ l -> ~ P x) -> filter P l = [].
Proof.
  induction l as [|x l IH]; intros Hnone; [done|].
  rewrite filter_cons_False.
  - apply IH. intros y Hy. apply Hnone. by apply list_elem_of_further.
  - apply Hnone. apply list_elem_of_here.
Qed.

Lemma created_row_decodes (G : list MessageDescriptor) (d : MessageDescriptor)
    (req : CreateResourceRequest) (uid : string) (now_create now_update : Time) :
  linked_type G d -> is_resource_schema d = true ->
  exists stored, row_decodes G (created_row d req uid now_create now_update) stored.
Proof.
  intros Hlinked Hschema. eexists.
  exists (anypb_New (clearOutputOnlyFields (created_resource d req uid now_create now_update))),
         d, (Format_RFC3339Nano now_create), (Format_RFC3339Nano now_update),
         now_create, now_update, None.
  cbn [created_row row_data row_create_time row_update_time row_delete_time].
  repeat split; try done.
  - by apply (FindMessageByURL_anypb_New G
                (clearOutputOnlyFields (created_resource d req uid now_create now_update))).
  - apply Parse_Format.
  - apply Parse_Format.
Qed.

(** X19: on a registered type whose schema declares [uid], [name],
    [create_time] and [update_time] and whose table exists, a create
    whose name is already borne by a stored resource is refused with
    [AlreadyExists], nothing is inserted and the committed tables are as
    they were; a create whose name (and uid) no row bears appends its row
    and succeeds, after which every create of that name under that type
    is refused with [AlreadyExists]. *)
Theorem CreateResource_name_collision (G : list MessageDescriptor) (r : resourceServer)
    (req : CreateResourceRequest) (uid : string) (now_create now_update : Time)
    (d : MessageDescriptor) (table : string) (rows : list Row) :
  registered_type G r (type_url (create_Resource req)) d ->
  is_resource_schema d = true ->
  getResourceTableName d = Ok table ->
  tables (database r) !! table = Some rows ->
  (forall existing others stored,
     filter (fun row => row_name row = requested_name req) rows = existing :: others ->
     row_decodes G existing stored ->
     CreateResource G req uid now_create now_update r
       = (Err (StatusError AlreadyExists "Resource already exists" []), begun r) /\
     tables (database (begun r)) = tables (database r)) /\
  ((forall row, row ∈ rows -> row_name row <> requested_name req /\ row_uid row <> uid) ->
   let r' :=
     {| resources := resources r;
        database :=
          {| tables := <[table := rows ++ [created_row d req uid now_create now_update]]>
                         (tables (database r));
             open_txs := open_txs (database r) |} |} in
   CreateResource G req uid now_create now_update r
     = (Ok (anypb_New (created_resource d req uid now_create now_update)), r') /\
   (forall again uid' now_create' now_update',
      type_url (create_Resource again) = type_url (create_Resource req) ->
      requested_name again = requested_name req ->
      CreateResource G again uid' now_create' now_update' r'
        = (Err (StatusError AlreadyExists "Resource already exists" []), begun r') /\
      tables (database (begun r')) = tables (database r'))).
Proof.
  intros Hregistered Hschema Htable Hrows. split.
  - intros existing others stored Hfilter Hdecodes. split; [|done].
    rewrite (CreateResource_run G r req uid now_create now_update d table rows) by done.
    by rewrite Hfilter, (scanResource_row G existing stored).
  - intros Hfresh r'. split.
    + rewrite (CreateResource_run G r req uid now_create now_update d table rows) by done.
      rewrite filter_none by (intros row Hin; by apply Hfresh).
      unfold sql_insert. rewrite Hrows.
      rewrite (proj2 (forallb_forall _ _)); [done|].
      intros old Hold%list_elem_of_In. destruct (Hfresh old Hold) as [Hname Huid].
      cbn [created_row row_uid row_name].
      apply andb_true_intro. split; apply negb_true_iff; by apply String.eqb_neq.
    + intros again uid' now_create' now_update' Htype Hagain. split; [|done].
      destruct Hregistered as (Hd & Hfull & Hlinked).
      destruct (created_row_decodes G d req uid now_create now_update Hlinked Hschema)
        as [stored Hdecodes].
      rewrite (CreateResource_run G r' again uid' now_create' now_update' d table
                 (rows ++ [created_row d req uid now_create now_update])).
      * rewrite Hagain, filter_app.
        rewrite filter_none by (intros row Hin; by apply Hfresh).
        rewrite filter_cons_True by done.
        cbn [app]. by rewrite (scanResource_row G _ stored).
      * by rewrite Htype.
      * done.
      * done.
      * apply lookup_insert_eq.
Qed.

Lemma second_CreateResource_is_refused :
  CreateResource linked create_a1 "uid-2" 102%Z 103%Z with_a1
  = (Err (StatusError AlreadyExists "Resource already exists" []), begun with_a1).
Proof.
  edestruct (CreateResource_name_collision linked registered create_a1 "uid-1" 100%Z 101%Z
               Account "account_resource" []) as [_ Hfresh].
  - repeat split; reflexivity.
  - reflexivity.
  - reflexivity.
  - reflexivity.
  - edestruct Hfresh as [_ Hagain].
    + intros row Hin. by apply elem_of_nil in Hin.
    + apply (Hagain create_a1 "uid-2" 102%Z 103%Z); reflexivity.
Defined.

(** ** Updates *)



(** C1 fails on the code: [accounts/a1] is stored with labels, a uid and
    a create time; updating its [display_name] under the mask
    [display_name] returns a value without labels, uid and create time,
    and the labels are gone from what [GetResource] then returns. *)
Theorem UpdateResource_drops_unmasked_fields :
  let before := fst (GetResource linked get_a1 with_a1) in
  let out := UpdateResource linked update_a1 200%Z with_a1 in
  let after := fst (GetResource linked get_a1 (snd out)) in
  (exists stored,
     before = Ok stored /\
     any_value stored !! "labels" = Some (VMap [("city", "dallas")]) /\
     any_value stored !! "uid" = Some (VString "uid-1") /\
     any_value stored !! "create_time" = Some (VMessage (Some 100%Z))) /\
  (exists returned,
     fst out = Ok returned /\
     any_value returned !! "display_name" = Some (VString "Joe2") /\
     any_value returned !! "labels" = None /\
     any_value returned !! "uid" = None /\
     any_value returned !! "create_time" = None) /\
  (exists stored,
     after = Ok stored /\
     any_value stored !! "display_name" = Some (VString "Joe2") /\
     any_value stored !! "labels" = None).
Proof.
  split; [|split]; eexists; (split; [vm_compute; reflexivity|]);
    repeat split; vm_compute; reflexivity.
Qed.

Lemma ListResources_fails_on_accounts :
  ListResources linked list_accounts with_a1
  = (Err (PlainError "sql: expected 6 destination arguments in Scan, not 7"), with_a1).
Proof.
  eapply (ListResources_rejects_every_row linked with_a1 list_accounts Account
            "account_resource").
  - reflexivity.
  - reflexivity.
  - vm_compute. reflexivity.
  - apply list_elem_of_here.
  - reflexivity.
  - done.
Defined.

(** Registration puts a linked type in the registry under its full
    name. *)
Lemma CreateResourceDescriptor_registers (G : list MessageDescriptor) (message : Message)
    (r : resourceServer) :
  linked_type G (msg_desc message) ->
  is_Some (md_resource (msg_desc message)) ->
  registered_type G (snd (CreateResourceDescriptor message r))
    (md_full_name (msg_desc message)) (msg_desc message).
Proof.
  intros Hlinked [ann Hann].
  rewrite (CreateResourceDescriptor_run message r ann Hann).
  repeat split; try apply Hlinked.
  cbn [snd resources]. apply lookup_insert_eq.
Qed.

(** * Further properties of the engine *)

(** ** Resolving types *)

Lemma ListResourceDescriptors_elem_of (r : resourceServer) (d : MessageDescriptor) :
  d ∈ ListResourceDescriptors r <-> exists resourceType, resources r !! resourceType = Some d.
Proof.
  unfold ListResourceDescriptors. rewrite list_elem_of_fmap. split.
  - intros ([resourceType d'] & -> & Hin). exists resourceType.
    by apply elem_of_map_to_list in Hin.
  - intros [resourceType Hd]. exists (resourceType, d). split; [done|].
    by apply elem_of_map_to_list.
Qed.

(** X1: what [CreateResourceDescriptor] registers is what
    [GetResourceDescriptor] resolves under the full name of the type
    (a later registration under that name replaces the earlier one),
    the other names resolve as before, and [ListResourceDescriptors]
    lists exactly the descriptors that some name resolves to. *)
Theorem registered_descriptor_resolves (message : Message) (r : resourceServer)
    (ann : ResourceAnnotation) :
  md_resource (msg_desc message) = Some ann ->
  let d := msg_desc message in
  let r' := snd (CreateResourceDescriptor message r) in
  GetResourceDescriptor r' (md_full_name d) = Ok d /\
  (forall other d', other <> md_full_name d ->
     GetResourceDescriptor r' other = Ok d' <-> GetResourceDescriptor r other = Ok d') /\
  d ∈ ListResourceDescriptors r' /\
  (forall d', d' ∈ ListResourceDescriptors r' <->
              exists resourceType, GetResourceDescriptor r' resourceType = Ok d').
Proof.
  intros Hann d r'. subst r'.
  rewrite (CreateResourceDescriptor_run message r ann Hann). cbn [snd].
  assert (Hresolve : forall s resourceType d',
            GetResourceDescriptor s resourceType = Ok d'
            <-> resources s !! resourceType = Some d').
  { intros s resourceType d'. unfold GetResourceDescriptor.
    destruct (resources s !! resourceType); split; by intros [= ->]. }
  split; [|split; [|split]].
  - apply Hresolve. cbn [resources]. apply lookup_insert_eq.
  - intros other d' Hother. rewrite !Hresolve. cbn [resources].
    by rewrite lookup_insert_ne.
  - apply ListResourceDescriptors_elem_of. exists (md_full_name d).
    cbn [resources]. apply lookup_insert_eq.
  - intros d'. rewrite ListResourceDescriptors_elem_of.
    split; intros [resourceType H]; exists resourceType; by apply Hresolve.
Qed.

Lemma Account_resolves_once_registered :
  GetResourceDescriptor registered "features.Account" = Ok Account.
Proof.
  edestruct (registered_descriptor_resolves {| msg_desc := Account; msg_fields := ∅ |} New)
    as (Hresolves & _).
  - reflexivity.
  - exact Hresolves.
Defined.

Lemma atomicUpdateResource_unknown (G : list MessageDescriptor) (resourceName resourceType : string)
    (updater : updaterFunc) (now : Time) (r : resourceServer) :
  resources r !! resourceType = None ->
  atomicUpdateResource G resourceName resourceType updater now r
  = (Err (unknownResourceError r resourceType), r).
Proof.
  intros Hnone. unfold atomicUpdateResource. rewrite bind_self, bind_lift.
  unfold GetResourceDescriptor. by rewrite Hnone.
Qed.

(** X2: on a type that is not in the registry every operation returns
    the [Unimplemented] status whose detail names the known types, and
    leaves the server as it was: no transaction is begun.  Update does
    so once it has read the name off the resource of the request. *)
Theorem unregistered_type_is_Unimplemented (G : list MessageDescriptor) (r : resourceServer)
    (resourceType : string) :
  resources r !! resourceType = None ->
  let unknown := unknownResourceError r resourceType in
  status_Code unknown = Unimplemented /\
  (forall name,
     GetResource G {| get_Name := name; get_ResourceType := resourceType |} r
       = (Err unknown, r)) /\
  (forall parent size token filter,
     ListResources G {| list_Parent := parent; list_ResourceType := resourceType;
                        list_PageSize := size; list_PageToken := token;
                        list_Filter := filter |} r
       = (Err unknown, r)) /\
  (forall parent fields id uid now_create now_update,
     CreateResource G {| create_Parent := parent;
                         create_Resource := {| type_url := resourceType; any_value := fields |};
                         create_ResourceId := id |} uid now_create now_update r
       = (Err unknown, r)) /\
  (forall fields mask now name,
     resourceName G {| type_url := resourceType; any_value := fields |} = Ok name ->
     UpdateResource G {| update_Resource := {| type_url := resourceType; any_value := fields |};
                         update_UpdateMask := mask |} now r
       = (Err unknown, r)) /\
  (forall name now_delete now,
     DeleteResource G {| delete_Name := name; delete_ResourceType := resourceType |}
       now_delete now r = (Err unknown, r)) /\
  (forall name now,
     UndeleteResource G {| undelete_Name := name; undelete_ResourceType := resourceType |}
       now r = (Err unknown, r)) /\
  (forall name,
     PurgeResource {| purge_Name := name; purge_ResourceType := resourceType |} r
       = (Err unknown, r)).
Proof.
  intros Hnone unknown. subst unknown.
  repeat split.
  - intros name. rewrite GetResource_run. unfold getResource, GetResourceDescriptor.
    cbn [get_ResourceType]. by rewrite Hnone.
  - intros parent size token filter. unfold ListResources.
    rewrite bind_self, bind_lift. unfold GetResourceDescriptor.
    cbn [list_ResourceType]. by rewrite Hnone.
  - intros parent fields id uid now_create now_update. unfold CreateResource.
    rewrite bind_self, bind_lift. unfold assertRegisteredAnyResource.
    cbn [create_Resource type_url]. by rewrite Hnone.
  - intros fields mask now name Hname. unfold UpdateResource.
    rewrite bind_lift. cbn [update_Resource]. rewrite Hname. cbn [type_url].
    by apply atomicUpdateResource_unknown.
  - intros name now_delete now. unfold DeleteResource.
    by apply atomicUpdateResource_unknown.
  - intros name now. unfold UndeleteResource. by apply atomicUpdateResource_unknown.
  - intros name. unfold PurgeResource. rewrite bind_self, bind_lift.
    unfold GetResourceDescriptor. cbn [purge_ResourceType]. by rewrite Hnone.
Qed.

Lemma fresh_server_knows_no_Account :
  GetResource linked get_a1 New
  = (Err (unknownResourceError New "features.Account"), New).
Proof.
  edestruct (unregistered_type_is_Unimplemented linked New "features.Account")
    as (_ & Hget & _).
  - reflexivity.
  - apply Hget.
Defined.

(** ** Listing *)

Lemma stateless_bind {A B} (m : M A) (k : A -> M B) :
  stateless m -> (forall a, stateless (k a)) -> stateless (m ≫= k).
Proof.
  intros Hm Hk r. specialize (Hm r). unfold mbind, M_bind.
  destruct (m r) as [[a| |] r1]; simpl in Hm; subst r1; [apply Hk|done|done].
Qed.

Lemma stateless_ListResources (G : list MessageDescriptor) (req : ListResourcesRequest) :
  stateless (ListResources G req).
Proof.
  unfold ListResources.
  repeat (apply stateless_bind; [done|intros ?]; cbv zeta). done.
Qed.

Lemma scan_rows_projected (G : list MessageDescriptor) (rows : list Row) (resources : list Any) :
  scan_rows G (map (project list_columns) rows) = Ok resources ->
  rows = [] /\ resources = [].
Proof. destruct rows as [|row rows]; [by intros [= <-]|done]. Qed.

(** X3: [ListResources] never changes the server and never returns a
    resource: when it succeeds its list is empty and its page token is
    empty.  On a registered type whose table exists it succeeds exactly
    when the page size is not negative and no stored row has the
    requested parent. *)
Theorem ListResources_lists_nothing (G : list MessageDescriptor) (req : ListResourcesRequest)
    (r : resourceServer) :
  snd (ListResources G req r) = r /\
  (forall resp, fst (ListResources G req r) = Ok resp ->
                resp = {| Resources := []; NextPageToken := "" |}) /\
  (forall d table rows,
     resources r !! list_ResourceType req = Some d ->
     getResourceTableName d = Ok table ->
     tables (database r) !! table = Some rows ->
     (fst (ListResources G req r) = Ok {| Resources := []; NextPageToken := "" |}
      <-> (0 <= list_PageSize req)%Z /\
          forall row, row ∈ rows -> row_parent row <> list_Parent req)).
Proof.
  split; [apply stateless_ListResources|]. split.
  - intros resp. unfold ListResources. rewrite bind_self.
    intros H. rewrite bind_lift in H.
    destruct (GetResourceDescriptor r (list_ResourceType req)) as [d| |]; try done.
    cbv zeta in H. rewrite bind_lift in H.
    destruct (getResourceTableName d) as [table| |]; try done.
    rewrite bind_db_query in H.
    destruct (sql_select_by_parent _ _ _ _ _) as [res| |] eqn:Hres; try done.
    rewrite bind_lift in H.
    destruct (scan_rows G res) as [found| |] eqn:Hscan; try done.
    cbn in H. injection H as <-.
    unfold sql_select_by_parent in Hres.
    destruct (tables (database r) !! table) as [rows|]; [|done].
    destruct (_ <? 0)%Z; [done|]. injection Hres as <-.
    rewrite firstn_map in Hscan. by apply scan_rows_projected in Hscan as [_ ->].
  - intros d table rows Hd Htable Hrows.
    unfold ListResources. rewrite bind_self, bind_lift.
    unfold GetResourceDescriptor. rewrite Hd. cbv zeta.
    rewrite bind_lift, Htable, bind_db_query.
    unfold sql_select_by_parent. rewrite Hrows.
    set (n := if (list_PageSize req =? 0)%Z then 50%Z else list_PageSize req).
    assert (Hn : (0 <= list_PageSize req)%Z -> (0 < n)%Z).
    { subst n. destruct (Z.eqb_spec (list_PageSize req) 0); lia. }
    assert (Hneg : (n < 0)%Z -> (list_PageSize req < 0)%Z).
    { subst n. destruct (Z.eqb_spec (list_PageSize req) 0); lia. }
    destruct (Z.ltb_spec n 0) as [Hlt|Hge].
    { split; [done|]. intros [Hsize _]. specialize (Hneg Hlt). lia. }
    rewrite firstn_map, bind_lift. split.
    + intros H.
      destruct (scan_rows G _) as [found| |] eqn:Hscan; try done.
      apply scan_rows_projected in Hscan as [Hempty _].
      assert (Hsize : (0 <= list_PageSize req)%Z).
      { subst n. destruct (Z.eqb_spec (list_PageSize req) 0); lia. }
      split; [done|]. intros row Hin Hparent.
      assert (Hmatch : row ∈ filter (fun row => row_parent row = list_Parent req) rows).
      { apply list_elem_of_filter. by split. }
      destruct (filter _ rows) as [|first others]; [by apply elem_of_nil in Hmatch|].
      specialize (Hn Hsize). destruct (Z.to_nat n) as [|k] eqn:Hk; [lia|]. done.
    + intros [Hsize Hnone]. rewrite filter_none by done. by rewrite firstn_nil.
Qed.

Lemma registered_server_lists_nothing :
  fst (ListResources linked list_accounts registered)
  = Ok {| Resources := []; NextPageToken := "" |}.
Proof.
  destruct (ListResources_lists_nothing linked list_accounts registered) as (_ & _ & Hempty).
  apply (Hempty Account "account_resource" []); try reflexivity.
  split; [done|]. intros row Hin. by apply elem_of_nil in Hin.
Defined.

(** ** Purging *)

Lemma PurgeResource_run (r : resourceServer) (req : PurgeResourceRequest)
    (d : MessageDescriptor) (table : string) (rows : list Row) :
  resources r !! purge_ResourceType req = Some d ->
  getResourceTableName d = Ok table ->
  tables (database r) !! table = Some rows ->
  PurgeResource req r
  = (Ok tt,
     {| resources := resources r;
        database :=
          {| tables := <[table := filter (fun row => row_name row <> purge_Name req) rows]>
                         (tables (database r));
             open_txs := open_txs (database r) |} |}).
Proof.
  intros Hd Htable Hrows. unfold PurgeResource.
  rewrite bind_self, bind_lift. unfold GetResourceDescriptor. rewrite Hd.
  rewrite bind_BeginTx, bind_lift, Htable, bind_tx_query, tx_tables_begun.
  unfold sql_prepare. rewrite Hrows.
  rewrite bind_tx_exec, tx_tables_begun. unfold sql_delete. by rewrite Hrows.
Qed.

(** X4: on a registered type whose table exists [PurgeResource] always
    succeeds, whether or not a row has the name and whether or not it
    was soft-deleted first.  It commits the table without the rows of
    that name, keeps every other row and leaves no transaction open;
    afterwards [GetResource] of the name is [NotFound] and purging
    again changes nothing. *)
Theorem PurgeResource_removes_the_named_rows (G : list MessageDescriptor)
    (r : resourceServer) (name resourceType : string)
    (d : MessageDescriptor) (table : string) (rows : list Row) :
  resources r !! resourceType = Some d ->
  getResourceTableName d = Ok table ->
  tables (database r) !! table = Some rows ->
  let req := {| purge_Name := name; purge_ResourceType := resourceType |} in
  let remaining := filter (fun row => row_name row <> name) rows in
  let r' := {| resources := resources r;
               database := {| tables := <[table := remaining]> (tables (database r));
                              open_txs := open_txs (database r) |} |} in
  PurgeResource req r = (Ok tt, r') /\
  (forall row, row ∈ remaining <-> row ∈ rows /\ row_name row <> name) /\
  GetResource G {| get_Name := name; get_ResourceType := resourceType |} r'
    = (Err (StatusError NotFound "resource not found" []), r') /\
  PurgeResource req r' = (Ok tt, r').
Proof.
  intros Hd Htable Hrows req remaining r'.
  split; [by apply (PurgeResource_run r req d table rows)|].
  split.
  { intros row. subst remaining. rewrite list_elem_of_filter. tauto. }
  assert (Hremaining : tables (database r') !! table = Some remaining).
  { apply lookup_insert_eq. }
  split.
  - rewrite GetResource_run.
    rewrite (getResource_select G r' _ _ d table remaining) by done.
    cbn [get_Name]. rewrite filter_none; [done|].
    intros row Hin. subst remaining. by apply list_elem_of_filter in Hin as [? _].
  - rewrite (PurgeResource_run r' req d table remaining) by done.
    subst r'. cbn [resources database tables open_txs purge_Name req].
    rewrite insert_insert_eq. do 4 f_equal.
    subst remaining. rewrite list_filter_filter. apply list_filter_iff. tauto.
Qed.

Lemma purged_account_is_NotFound :
  let r' := snd (PurgeResource {| purge_Name := "accounts/a1";
                                  purge_ResourceType := "features.Account" |}
                   with_a1_deleted) in
  GetResource linked get_a1 r' = (Err (StatusError NotFound "resource not found" []), r').
Proof.
  edestruct (PurgeResource_removes_the_named_rows linked with_a1_deleted "accounts/a1"
               "features.Account" Account "account_resource") as (Hpurge & _ & Hget & _).
  - reflexivity.
  - reflexivity.
  - vm_compute. reflexivity.
  - cbv zeta. rewrite Hpurge. exact Hget.
Defined.

(** ** The atomic update, step by step *)

(** The fetch of [atomicUpdateResource] on a registered type whose
    table exists. *)
Lemma atomicUpdateResource_run (G : list MessageDescriptor) (resourceName resourceType : string)
    (updater : updaterFunc) (now : Time) (r : resourceServer)
    (d : MessageDescriptor) (table : string) (rows : list Row) :
  resources r !! resourceType = Some d ->
  getResourceTableName d = Ok table ->
  tables (database r) !! table = Some rows ->
  atomicUpdateResource G resourceName resourceType updater now r
  = match filter (fun row => row_name row = resourceName) rows with
    | [] => (Err (StatusError NotFound "resource not found" []), begun r)
    | row :: _ =>
        match scanResource G (project all_columns row) with
        | Ok existing =>
            (unpacked ← lift (UnmarshalNew G existing);
             '(unpacked, updatedResource) ← lift (updater unpacked);
             conflict ← lift (updatesConflict unpacked updatedResource);
             if conflict : bool then lift (Err conflict_error)
             else storeUpdatedResource G d updatedResource now) (begun r)
        | Err e => (Err e, begun r)
        | Panic => (Panic, begun r)
        end
    end.
Proof.
  intros Hd Htable Hrows. unfold atomicUpdateResource.
  rewrite bind_self, bind_lift. unfold GetResourceDescriptor. rewrite Hd. cbv zeta.
  rewrite bind_BeginTx, bind_tx_query, tx_tables_begun.
  rewrite (getResource_select G r _ _ d table rows) by done. cbn [get_Name].
  destruct (filter (fun row => row_name row = resourceName) rows) as [|row others]; [done|].
  by destruct (scanResource G (project all_columns row)).
Qed.

Lemma updatesConflict_same (m : Message) : updatesConflict m m = Ok false.
Proof.
  unfold updatesConflict.
  destruct (ByName (msg_desc m) "etag") as [f|] eqn:Hf; [|done].
  destruct (ByName_name _ _ _ Hf) as [_ Hin].
  unfold Get, checkField. rewrite bool_decide_eq_true_2 by done. cbn.
  by rewrite String.eqb_refl.
Qed.

(** The [delete_time] clause that [getResourceDeletion] prints for
    the populated fields of a message. *)
Lemma getResourceDeletion_run (d : MessageDescriptor) (m : Message) :
  msg_desc m = d ->
  has_field d "delete_time" MessageKind = true ->
  getResourceDeletion m
  = match msg_fields m !! "delete_time" with
    | None | Some (VMessage None) => Ok None
    | Some (VMessage (Some t)) => Ok (Some (Format_RFC3339Nano t))
    | Some _ => Panic
    end.
Proof.
  intros Hm Hfield. unfold getResourceDeletion. rewrite Hm.
  rewrite (has_field_Get d m "delete_time" MessageKind) by done.
  destruct (msg_fields m !! "delete_time") as [[s|[t|]|kv]|]; done.
Qed.

(** The store step of [atomicUpdateResource] for a message of the
    registered type, in the transaction begun on [r]. *)
Lemma storeUpdatedResource_run (G : list MessageDescriptor) (r : resourceServer)
    (d : MessageDescriptor) (updated : Message) (now : Time)
    (table : string) (rows : list Row) (deletion : option string) :
  msg_desc updated = d ->
  linked_type G d ->
  is_resource_schema d = true ->
  getResourceTableName d = Ok table ->
  tables (database r) !! table = Some rows ->
  getResourceDeletion
    {| msg_desc := d;
       msg_fields := <["update_time" := VMessage (Some now)]> (msg_fields updated) |}
    = Ok deletion ->
  let stamped_update :=
    {| msg_desc := d;
       msg_fields := <["update_time" := VMessage (Some now)]> (msg_fields updated) |} in
  storeUpdatedResource G d updated now (begun r)
  = (Ok (anypb_New stamped_update),
     {| resources := resources r;
        database :=
          {| tables :=
               <[table := map (set_columns (Format_RFC3339Nano now) deletion
                                 (JsonAny (anypb_New (clearOutputOnlyFields stamped_update)))
                                 (Value_String (default (VString "")
                                                  (msg_fields updated !! "name"))))
                              rows]> (tables (database r));
             open_txs := open_txs (database r) |} |}).
Proof.
  intros Hm Hlinked Hschema Htable Hrows Hdeletion stamped_update.
  change (getResourceDeletion stamped_update = Ok deletion) in Hdeletion.
  destruct (is_resource_schema_fields _ Hschema) as (Huid & Hname & Hct & Hut).
  unfold storeUpdatedResource.
  rewrite bind_lift, stamp_update_time by done.
  fold stamped_update.
  rewrite bind_lift, protojson_Marshal_anypb_New by done.
  change (msg_desc stamped_update) with d.
  rewrite bind_lift, Htable, bind_lift, Hdeletion.
  rewrite bind_tx_query, tx_tables_begun. unfold sql_prepare. rewrite Hrows.
  rewrite bind_lift, (Get_Timestamp d stamped_update "update_time" now); [|done|done|].
  2:{ subst stamped_update. cbn [msg_fields]. apply lookup_insert_eq. }
  rewrite bind_lift, (has_field_Get d stamped_update "name" StringKind) by done.
  assert (Hlookup : msg_fields stamped_update !! "name" = msg_fields updated !! "name").
  { subst stamped_update. cbn [msg_fields]. by rewrite lookup_insert_ne. }
  rewrite Hlookup. cbn [zero_value].
  rewrite bind_tx_exec, tx_tables_begun. unfold sql_update. rewrite Hrows.
  reflexivity.
Qed.

(** X5: on a registered type whose table has no row of the requested
    name, Update, Delete and Undelete (every [atomicUpdateResource])
    return the [NotFound] status without running the updater; nothing
    is written and the transaction that was begun stays open. *)
Theorem atomic_update_of_missing_name_is_NotFound (G : list MessageDescriptor)
    (r : resourceServer) (name resourceType : string)
    (d : MessageDescriptor) (table : string) (rows : list Row) :
  resources r !! resourceType = Some d ->
  getResourceTableName d = Ok table ->
  tables (database r) !! table = Some rows ->
  (forall row, row ∈ rows -> row_name row <> name) ->
  let missing := (Err (StatusError NotFound "resource not found" []), begun r) in
  (forall updater now,
     atomicUpdateResource G name resourceType updater now r = missing) /\
  (forall fields mask now,
     resourceName G {| type_url := resourceType; any_value := fields |} = Ok name ->
     UpdateResource G {| update_Resource := {| type_url := resourceType; any_value := fields |};
                         update_UpdateMask := mask |} now r = missing) /\
  (forall now_delete now,
     DeleteResource G {| delete_Name := name; delete_ResourceType := resourceType |}
       now_delete now r = missing) /\
  (forall now,
     UndeleteResource G {| undelete_Name := name; undelete_ResourceType := resourceType |}
       now r = missing) /\
  tables (database (begun r)) = tables (database r) /\
  tx_tables (database (begun r)) = tables (database r).
Proof.
  intros Hd Htable Hrows Hnone missing.
  assert (Hrun : forall updater now,
            atomicUpdateResource G name resourceType updater now r = missing).
  { intros updater now.
    rewrite (atomicUpdateResource_run G name resourceType updater now r d table rows) by done.
    by rewrite filter_none. }
  repeat split; try done.
  - intros fields mask now Hname. unfold UpdateResource.
    rewrite bind_lift. cbn [update_Resource]. rewrite Hname. apply Hrun.
  - intros now_delete now. unfold DeleteResource. apply Hrun.
  - intros now. unfold UndeleteResource. apply Hrun.
Qed.

Lemma deleting_a_missing_account_is_NotFound :
  DeleteResource linked delete_a1 300%Z 301%Z registered
  = (Err (StatusError NotFound "resource not found" []), begun registered).
Proof.
  edestruct (atomic_update_of_missing_name_is_NotFound linked registered "accounts/a1"
               "features.Account" Account "account_resource" []) as (_ & _ & Hdelete & _).
  - reflexivity.
  - reflexivity.
  - reflexivity.
  - intros row Hin. by apply elem_of_nil in Hin.
  - apply Hdelete.
Defined.

(** ** Undeleting *)

Lemma Clear_run (d : MessageDescriptor) (m : Message) (name : string) (k : Kind) :
  msg_desc m = d ->
  has_field d name k = true ->
  Clear m (ByName d name)
  = Ok {| msg_desc := d; msg_fields := delete name (msg_fields m) |}.
Proof.
  intros <-. unfold has_field.
  destruct (ByName (msg_desc m) name) as [f|] eqn:Hf; [|done]. intros _.
  destruct (ByName_name _ _ _ Hf) as [Hname Hin].
  unfold Clear, checkField. rewrite bool_decide_eq_true_2 by done. cbn.
  by rewrite Hname.
Qed.

(** X6: [UndeleteResource] of a stored resource of the registered type,
    soft-deleted or not, succeeds when the type declares [delete_time]:
    it returns the stored value without [delete_time] and with the new
    [update_time], sets the [delete_time] column of the rows of that
    name to null, and [GetResource] then returns a value whose
    [delete_time] is unpopulated. *)
Theorem UndeleteResource_clears_delete_time (G : list MessageDescriptor)
    (r : resourceServer) (name resourceType : string) (now : Time)
    (d : MessageDescriptor) (table : string) (rows : list Row)
    (row : Row) (others : list Row) (stored : Message) :
  resources r !! resourceType = Some d ->
  getResourceTableName d = Ok table ->
  tables (database r) !! table = Some rows ->
  filter (fun row => row_name row = name) rows = row :: others ->
  row_decodes G row stored ->
  msg_desc stored = d ->
  has_field d "delete_time" MessageKind = true ->
  let updated :=
    {| msg_desc := d;
       msg_fields := <["update_time" := VMessage (Some now)]>
                       (delete "delete_time" (msg_fields stored)) |} in
  let r' :=
    {| resources := resources r;
       database :=
         {| tables :=
              <[table := map (set_columns (Format_RFC3339Nano now) None
                                (JsonAny (anypb_New (clearOutputOnlyFields updated))) name)
                             rows]> (tables (database r));
            open_txs := open_txs (database r) |} |} in
  UndeleteResource G {| undelete_Name := name; undelete_ResourceType := resourceType |} now r
    = (Ok (anypb_New updated), r') /\
  any_value (anypb_New updated) !! "delete_time" = None /\
  exists ret',
    GetResource G {| get_Name := name; get_ResourceType := resourceType |} r' = (Ok ret', r') /\
    any_value ret' !! "delete_time" = None /\
    any_value ret' !! "update_time" = Some (VMessage (Some now)).
Proof.
  intros Hd Htable Hrows Hfilter Hdecodes Hstored Hdelete_time updated r'.
  destruct (row_decodes_linked _ _ _ Hdecodes) as (Hlinked & Hschema & Hname).
  rewrite Hstored in Hlinked, Hschema.
  assert (Hrow : row_name row = name).
  { assert (Hin : row ∈ filter (fun row => row_name row = name) rows).
    { rewrite Hfilter. apply list_elem_of_here. }
    by apply list_elem_of_filter in Hin as [? _]. }
  split; [|split].
  - unfold UndeleteResource. cbn [undelete_Name undelete_ResourceType].
    rewrite (atomicUpdateResource_run G name resourceType _ now r d table rows) by done.
    rewrite Hfilter, (scanResource_row G row stored) by done.
    rewrite bind_lift, UnmarshalNew_anypb_New by (by rewrite Hstored).
    rewrite bind_lift, Hstored.
    rewrite (Clear_run d stored "delete_time" MessageKind) by done.
    cbn [mbind result_bind]. rewrite bind_lift, updatesConflict_same.
    rewrite (storeUpdatedResource_run G r d _ now table rows None); try done.
    + cbn [msg_fields]. rewrite lookup_delete_ne, Hname, Hrow by done. reflexivity.
    + rewrite (getResourceDeletion_run d) by done. cbn [msg_fields].
      by rewrite lookup_insert_ne, lookup_delete_eq.
  - subst updated. cbn [anypb_New any_value msg_fields].
    by rewrite lookup_insert_ne, lookup_delete_eq.
  - destruct Hdecodes as (a & d0 & sc & su & ctime & utime & dtime & Hdata & Hurl & _
                            & Hsc & Hctime & _ & _ & _ & Hstamped).
    set (resource' := stamped d (msg_fields (clearOutputOnlyFields updated))
                        (row_uid row) (row_name row) ctime now None).
    exists (anypb_New resource'). split; [|split].
    + rewrite GetResource_run.
      rewrite (getResource_select G r' _ _ d table
                 (map (set_columns (Format_RFC3339Nano now) None
                         (JsonAny (anypb_New (clearOutputOnlyFields updated))) name) rows));
        [|done|done|apply lookup_insert_eq].
      cbn [get_Name]. rewrite filter_set_columns, Hfilter. cbn [map].
      apply (f_equal (fun x => (x, r'))).
      apply scanResource_row.
      exists (anypb_New (clearOutputOnlyFields updated)), d, sc, (Format_RFC3339Nano now),
             ctime, now, None.
      unfold set_columns. rewrite Hrow, String.eqb_refl.
      cbn [row_data row_create_time row_update_time row_delete_time row_uid row_name].
      repeat split; try done.
      * by apply (FindMessageByURL_anypb_New G (clearOutputOnlyFields updated)).
      * apply Parse_Format.
      * by rewrite <- Hrow.
    + subst resource'. cbn [anypb_New any_value stamped msg_fields].
      rewrite !lookup_insert_ne by done.
      rewrite clearOutputOnlyFields_lookup. case_decide; [done|].
      subst updated. cbn [msg_fields]. by rewrite lookup_insert_ne, lookup_delete_eq.
    + subst resource'. cbn [anypb_New any_value stamped msg_fields].
      apply lookup_insert_eq.
Qed.

Lemma undeleted_account_has_no_delete_time :
  exists ret r',
    UndeleteResource linked {| undelete_Name := "accounts/a1";
                               undelete_ResourceType := "features.Account" |}
      400%Z with_a1_deleted = (Ok ret, r') /\
    any_value ret !! "delete_time" = None.
Proof.
  edestruct (UndeleteResource_clears_delete_time linked with_a1_deleted "accounts/a1"
               "features.Account" 400%Z Account "account_resource")
    as (Hundelete & Hcleared & _).
  - reflexivity.
  - reflexivity.
  - vm_compute. reflexivity.
  - vm_compute. reflexivity.
  - do 7 eexists. cbn [row_data row_create_time row_update_time row_delete_time].
    split; [reflexivity|]. split; [reflexivity|]. split; [reflexivity|].
    split; [reflexivity|]. split; [vm_compute; reflexivity|].
    split; [reflexivity|]. split; [vm_compute; reflexivity|].
    split; [|reflexivity].
    eexists. split; [reflexivity|]. split; [vm_compute; reflexivity|reflexivity].
  - reflexivity.
  - reflexivity.
  - eexists _, _. split; [exact Hundelete|exact Hcleared].
Defined.

(** ** What an update stores *)



(** ** What updates never touch *)

Lemma set_columns_identity update_time delete_time data name row :
  identity_columns (set_columns update_time delete_time data name row) = identity_columns row.
Proof. unfold set_columns. by destruct (String.eqb _ _). Qed.

(** Whatever it answers, [atomicUpdateResource] either leaves the
    committed tables alone or rewrites the rows of one table with
    [set_columns]. *)
Lemma atomicUpdateResource_tables (G : list MessageDescriptor) (resourceName resourceType : string)
    (updater : updaterFunc) (now : Time) (r : resourceServer) :
  let r' := snd (atomicUpdateResource G resourceName resourceType updater now r) in
  tables (database r') = tables (database r) \/
  exists table rows update_time deletion data name,
    tables (database r) !! table = Some rows /\
    tables (database r')
      = <[table := map (set_columns update_time deletion data name) rows]>
          (tables (database r)).
Proof.
  intros r'. subst r'.
  destruct (atomicUpdateResource G resourceName resourceType updater now r)
    as [[ret| |] r'] eqn:Hrun; cbn [snd].
  - right. apply atomicUpdateResource_Ok in Hrun
      as (updated & table & rows & ut & del & name & _ & _ & Hrows & Htables & _).
    by eexists table, rows, ut, del, _, name.
  - left. pose proof (atomicUpdateResource_fails_uncommitted G resourceName resourceType
                        updater now r) as H.
    rewrite Hrun in H. destruct H as [->|(_ & ? & _)]; done.
  - left. pose proof (atomicUpdateResource_fails_uncommitted G resourceName resourceType
                        updater now r) as H.
    rewrite Hrun in H. destruct H as [->|(_ & ? & _)]; done.
Qed.

Lemma UpdateResource_tables (G : list MessageDescriptor) (req : UpdateResourceRequest)
    (now : Time) (r : resourceServer) :
  let r' := snd (UpdateResource G req now r) in
  tables (database r') = tables (database r) \/
  exists table rows update_time deletion data name,
    tables (database r) !! table = Some rows /\
    tables (database r')
      = <[table := map (set_columns update_time deletion data name) rows]>
          (tables (database r)).
Proof.
  unfold UpdateResource. rewrite bind_lift.
  destruct (resourceName G (update_Resource req)) as [name| |]; [|by left..].
  apply atomicUpdateResource_tables.
Qed.

Lemma rewritten_rows_keep_identity (t t' : Tables) :
  (t' = t \/
   exists table rows update_time deletion data name,
     t !! table = Some rows /\
     t' = <[table := map (set_columns update_time deletion data name) rows]> t) ->
  forall table, map identity_columns <$> (t' !! table) = map identity_columns <$> (t !! table).
Proof.
  intros [->|(table0 & rows & ut & del & data & name & Hrows & ->)] table; [done|].
  destruct (decide (table0 = table)) as [->|Hne].
  - rewrite lookup_insert_eq, Hrows. cbn. f_equal.
    rewrite map_map. apply map_ext. intros row. apply set_columns_identity.
  - by rewrite lookup_insert_ne.
Qed.

(** X8: Update, Delete and Undelete, whatever they answer, leave in
    every table the same rows in the same order with the same [uid],
    [name], [parent] and [create_time]: they add no row, remove none,
    and never touch the identity of one. *)
Theorem updates_keep_row_identity (G : list MessageDescriptor) (r : resourceServer)
    (table : string) :
  let same r' :=
    map identity_columns <$> (tables (database r') !! table)
    = map identity_columns <$> (tables (database r) !! table) in
  (forall resourceName resourceType updater now,
     same (snd (atomicUpdateResource G resourceName resourceType updater now r))) /\
  (forall req now, same (snd (UpdateResource G req now r))) /\
  (forall req now_delete now, same (snd (DeleteResource G req now_delete now r))) /\
  (forall req now, same (snd (UndeleteResource G req now r))).
Proof.
  intros same. subst same. cbv beta.
  split; [|split; [|split]]; intros.
  - apply rewritten_rows_keep_identity, atomicUpdateResource_tables.
  - apply rewritten_rows_keep_identity, UpdateResource_tables.
  - unfold DeleteResource. apply rewritten_rows_keep_identity, atomicUpdateResource_tables.
  - unfold UndeleteResource. apply rewritten_rows_keep_identity, atomicUpdateResource_tables.
Qed.

(** ** Names and uids stay unique *)

Lemma sql_insert_Ok (table : string) (row : Row) (t t' : Tables) :
  sql_insert table row t = Ok t' ->
  exists rows,
    t !! table = Some rows /\
    t' = <[table := rows ++ [row]]> t /\
    (row_name row ∉ map row_name rows) /\
    (row_uid row ∉ map row_uid rows).
Proof.
  unfold sql_insert. destruct (t !! table) as [rows|]; [|done].
  destruct (forallb _ rows) eqn:Hfresh; [|done]. intros [= <-].
  exists rows. split; [done|]. split; [done|].
  rewrite forallb_forall in Hfresh.
  split; intros Hin%list_elem_of_In%in_map_iff; destruct Hin as (old & Heq & Hold);
    specialize (Hfresh old Hold); apply andb_prop in Hfresh as [Huid Hname];
    apply negb_true_iff in Huid, Hname.
  - apply String.eqb_neq in Hname. done.
  - apply String.eqb_neq in Huid. done.
Qed.

(** Whatever it answers, [CreateResource] either leaves the committed
    tables alone or appends one row whose name and uid are new to its
    table. *)
Lemma CreateResource_tables (G : list MessageDescriptor) (req : CreateResourceRequest)
    (uid : string) (now_create now_update : Time) (r : resourceServer) :
  let r' := snd (CreateResource G req uid now_create now_update r) in
  tables (database r') = tables (database r) \/
  exists table rows row,
    tables (database r) !! table = Some rows /\
    tables (database r') = <[table := rows ++ [row]]> (tables (database r)) /\
    (row_name row ∉ map row_name rows) /\
    (row_uid row ∉ map row_uid rows) /\
    row_delete_time row = None.
Proof.
  intros r'. subst r'.
  destruct (CreateResource G req uid now_create now_update r) as [[ret| |] r'] eqn:Hrun;
    cbn [snd].
  - right. unfold CreateResource in Hrun. rewrite bind_self in Hrun.
    lift_inv Hrun u Hregistered. lift_inv Hrun m0 Hm0.
    lift_inv Hrun m1 Hm1. lift_inv Hrun m2 Hm2. lift_inv Hrun resource Hresource.
    lift_inv Hrun reqJson HreqJson. rewrite bind_BeginTx in Hrun.
    lift_inv Hrun name Hname. tx_query_inv Hrun found Hfound.
    destruct found as [existing|]; [done|].
    lift_inv Hrun table Htable. tx_query_inv Hrun u' Hprepare.
    lift_inv Hrun vuid Hvuid. lift_inv Hrun vname Hvname.
    lift_inv Hrun create_time Hcreate. lift_inv Hrun update_time Hupdate.
    tx_exec_inv Hrun t Hinsert. rewrite bind_Commit in Hrun.
    injection Hrun as <- <-.
    rewrite tx_tables_begun in Hinsert.
    apply sql_insert_Ok in Hinsert as (rows & Hrows & -> & Hfresh_name & Hfresh_uid).
    eexists table, rows, _. repeat split; done.
  - left. pose proof (CreateResource_fails_uncommitted G req uid now_create now_update r) as H.
    rewrite Hrun in H. destruct H as [->|(_ & ? & _)]; done.
  - left. pose proof (CreateResource_fails_uncommitted G req uid now_create now_update r) as H.
    rewrite Hrun in H. destruct H as [->|(_ & ? & _)]; done.
Qed.

(** Whatever it answers, [PurgeResource] either leaves the committed
    tables alone or keeps, in one table, the rows of the other names. *)
Lemma PurgeResource_tables (req : PurgeResourceRequest) (r : resourceServer) :
  let r' := snd (PurgeResource req r) in
  tables (database r') = tables (database r) \/
  exists table rows,
    tables (database r) !! table = Some rows /\
    tables (database r')
      = <[table := filter (fun row => row_name row <> purge_Name req) rows]>
          (tables (database r)).
Proof.
  intros r'. subst r'.
  destruct (PurgeResource req r) as [[ret| |] r'] eqn:Hrun; cbn [snd].
  - right. unfold PurgeResource in Hrun. rewrite bind_self in Hrun.
    lift_inv Hrun d Hd. rewrite bind_BeginTx in Hrun.
    lift_inv Hrun table Htable. tx_query_inv Hrun u Hprepare.
    tx_exec_inv Hrun t Hdelete. rewrite bind_Commit in Hrun.
    injection Hrun as <- <-.
    rewrite tx_tables_begun in Hdelete. unfold sql_delete in Hdelete.
    destruct (tables (database r) !! table) as [rows|] eqn:Hrows; [|done].
    injection Hdelete as <-. by exists table, rows.
  - left. pose proof (PurgeResource_fails_uncommitted req r) as H.
    rewrite Hrun in H. destruct H as [->|(_ & ? & _)]; done.
  - left. pose proof (PurgeResource_fails_uncommitted req r) as H.
    rewrite Hrun in H. destruct H as [->|(_ & ? & _)]; done.
Qed.

Lemma NoDup_map_filter {A B} (f : A -> B) (P : A -> Prop) `{forall x, Decision (P x)}
    (l : list A) :
  NoDup (map f l) -> NoDup (map f (filter P l)).
Proof.
  induction l as [|x l IH]; [done|].
  cbn [map]. intros [Hx Hl]%NoDup_cons. rewrite filter_cons.
  case_decide; [|by apply IH].
  cbn [map]. apply NoDup_cons. split; [|by apply IH].
  intros Hin%list_elem_of_In%in_map_iff. destruct Hin as (y & Heq & Hy).
  apply Hx. apply list_elem_of_In, in_map_iff. exists y. split; [done|].
  apply list_elem_of_In. apply list_elem_of_In in Hy.
  by apply list_elem_of_filter in Hy as [_ ?].
Qed.

Lemma map_set_columns (f : Row -> string) update_time delete_time data name rows :
  (forall row, f (set_columns update_time delete_time data name row) = f row) ->
  map f (map (set_columns update_time delete_time data name) rows) = map f rows.
Proof. intros Hf. rewrite map_map. by apply map_ext. Qed.

Lemma unique_keys_rewritten (t t' : Tables) :
  unique_keys t ->
  (t' = t \/
   exists table rows update_time deletion data name,
     t !! table = Some rows /\
     t' = <[table := map (set_columns update_time deletion data name) rows]> t) ->
  unique_keys t'.
Proof.
  intros Hunique [->|(table0 & rows0 & ut & del & data & name & Hrows0 & ->)]; [done|].
  intros table rows. destruct (decide (table0 = table)) as [->|Hne].
  - rewrite lookup_insert_eq. intros [= <-].
    rewrite !map_set_columns.
    + by apply (Hunique table).
    + intros row. unfold set_columns. by destruct (String.eqb _ _).
    + intros row. unfold set_columns. by destruct (String.eqb _ _).
  - rewrite lookup_insert_ne by done. apply Hunique.
Qed.

Lemma unique_keys_created (table : string) (t : Tables) :
  unique_keys t -> unique_keys (sql_create_table table t).
Proof.
  intros Hunique. unfold sql_create_table.
  destruct (t !! table) eqn:Htable; [done|].
  intros table' rows. destruct (decide (table = table')) as [<-|Hne].
  - rewrite lookup_insert_eq. intros [= <-]. split; apply NoDup_nil_2.
  - rewrite lookup_insert_ne by done. apply Hunique.
Qed.

Lemma unique_keys_inserted (table : string) (rows : list Row) (row : Row) (t : Tables) :
  unique_keys t ->
  t !! table = Some rows ->
  row_name row ∉ map row_name rows ->
  row_uid row ∉ map row_uid rows ->
  unique_keys (<[table := rows ++ [row]]> t).
Proof.
  intros Hunique Hrows Hname Huid table' rows'.
  destruct (decide (table = table')) as [<-|Hne].
  - rewrite lookup_insert_eq. intros [= <-].
    destruct (Hunique table rows Hrows) as [Hnames Huids].
    rewrite !map_app.
    split; (apply NoDup_app; split; [done|]; split; [|apply NoDup_singleton]);
      intros x Hx Hin; apply list_elem_of_singleton in Hin as ->; done.
  - rewrite lookup_insert_ne by done. apply Hunique.
Qed.

Lemma unique_keys_deleted (table : string) (rows : list Row) (name : string) (t : Tables) :
  unique_keys t ->
  t !! table = Some rows ->
  unique_keys (<[table := filter (fun row => row_name row <> name) rows]> t).
Proof.
  intros Hunique Hrows table' rows'.
  destruct (decide (table = table')) as [<-|Hne].
  - rewrite lookup_insert_eq. intros [= <-].
    destruct (Hunique table rows Hrows) as [Hnames Huids].
    split; by apply NoDup_map_filter.
  - rewrite lookup_insert_ne by done. apply Hunique.
Qed.

(** X9: the uniqueness of names and of uids within each table is an
    invariant of the engine: registration and every operation, whatever
    it answers, commits tables in which it still holds. *)
Theorem engine_keeps_keys_unique (G : list MessageDescriptor) (r : resourceServer) :
  unique_keys (tables (database r)) ->
  let kept {A} (m : M A) := unique_keys (tables (database (snd (m r)))) in
  (forall message, kept (CreateResourceDescriptor message)) /\
  (forall req uid now_create now_update,
     kept (CreateResource G req uid now_create now_update)) /\
  (forall req, kept (GetResource G req)) /\
  (forall req, kept (ListResources G req)) /\
  (forall req now, kept (UpdateResource G req now)) /\
  (forall req now_delete now, kept (DeleteResource G req now_delete now)) /\
  (forall req now, kept (UndeleteResource G req now)) /\
  (forall req, kept (PurgeResource req)).
Proof.
  intros Hunique kept. subst kept. cbv beta.
  split_and!.
  - intros message.
    destruct (md_resource (msg_desc message)) as [ann|] eqn:Hann.
    + rewrite (CreateResourceDescriptor_run message r ann Hann). cbn [snd database tables].
      by apply unique_keys_created.
    + unfold CreateResourceDescriptor. by rewrite Hann.
  - intros req uid now_create now_update.
    destruct (CreateResource_tables G req uid now_create now_update r)
      as [->|(table & rows & row & Hrows & -> & Hname & Huid & _)]; [done|].
    by apply unique_keys_inserted.
  - intros req. by rewrite GetResource_run.
  - intros req. by rewrite stateless_ListResources.
  - intros req now.
    apply (unique_keys_rewritten (tables (database r))); [done|].
    apply UpdateResource_tables.
  - intros req now_delete now.
    apply (unique_keys_rewritten (tables (database r))); [done|].
    unfold DeleteResource. apply atomicUpdateResource_tables.
  - intros req now.
    apply (unique_keys_rewritten (tables (database r))); [done|].
    unfold UndeleteResource. apply atomicUpdateResource_tables.
  - intros req.
    destruct (PurgeResource_tables req r) as [->|(table & rows & Hrows & ->)]; [done|].
    by apply unique_keys_deleted.
Qed.

Lemma account_lifecycle_keeps_keys_unique :
  unique_keys (tables (database New)) /\
  unique_keys (tables (database registered)) /\
  unique_keys (tables (database with_a1)) /\
  unique_keys (tables (database with_a1_deleted)).
Proof.
  assert (Hnew : unique_keys (tables (database New))).
  { intros table rows Hrows. cbn [New database tables] in Hrows.
    by rewrite lookup_empty in Hrows. }
  assert (Hregistered : unique_keys (tables (database registered))).
  { destruct (engine_keeps_keys_unique linked New Hnew) as (Hregister & _).
    unfold registered. apply Hregister. }
  assert (Hcreated : unique_keys (tables (database with_a1))).
  { destruct (engine_keeps_keys_unique linked registered Hregistered) as (_ & Hcreate & _).
    unfold with_a1. apply Hcreate. }
  split_and!; try assumption.
  destruct (engine_keeps_keys_unique linked with_a1 Hcreated)
    as (_ & _ & _ & _ & _ & Hdelete & _).
  unfold with_a1_deleted. apply Hdelete.
Defined.

(** ** The status codes of the answers *)

Lemma result_codes_plain {A} (cs : list Code) (x : result A) :
  plain x -> Unknown ∈ cs -> result_codes cs x.
Proof. intros Hx Hin e He. by rewrite (Hx e He). Qed.

Lemma result_codes_bind {A B} (cs : list Code) (x : result A) (k : A -> result B) :
  result_codes cs x ->
  (forall a, x = Ok a -> result_codes cs (k a)) ->
  result_codes cs (x ≫= k).
Proof.
  intros Hx Hk e. destruct x as [a| |]; cbn; [by apply Hk| |done].
  intros [= <-]. by apply Hx.
Qed.

Lemma fails_only_with_bind {A B} (cs : list Code) (m : M A) (k : A -> M B) :
  fails_only_with cs m ->
  (forall a r r1, m r = (Ok a, r1) -> fails_only_with cs (k a)) ->
  fails_only_with cs (m ≫= k).
Proof.
  intros Hm Hk r e r'. unfold mbind, M_bind.
  destruct (m r) as [[a| |] r1] eqn:Hrun; [by apply (Hk a r r1)| |done].
  intros [= -> ->]. by apply (Hm r e r').
Qed.

Lemma fails_only_with_lift {A B} (cs : list Code) (x : result A) (k : A -> M B) :
  result_codes cs x ->
  (forall a, x = Ok a -> fails_only_with cs (k a)) ->
  fails_only_with cs (lift x ≫= k).
Proof.
  intros Hx Hk. apply fails_only_with_bind.
  - intros r e r' [= -> _]. by apply Hx.
  - intros a r r1 [= -> _]. by apply Hk.
Qed.

Lemma fails_only_with_query {A B} (cs : list Code) (q : Tables -> result A) (k : A -> M B) :
  (forall t, result_codes cs (q t)) ->
  (forall a, fails_only_with cs (k a)) ->
  fails_only_with cs (tx_query q ≫= k).
Proof.
  intros Hq Hk. apply fails_only_with_bind; [|by intros].
  intros r e r' [= Hrun _]. by apply (Hq (tx_tables (database r)) e).
Qed.

Lemma fails_only_with_exec {B} (cs : list Code) (q : Tables -> result Tables)
    (k : unit -> M B) :
  (forall t, result_codes cs (q t)) ->
  (forall a, fails_only_with cs (k a)) ->
  fails_only_with cs (tx_exec q ≫= k).
Proof.
  intros Hq Hk. apply fails_only_with_bind; [|by intros].
  intros r e r'. unfold tx_exec.
  destruct (q (tx_tables (database r))) as [t| |] eqn:Hrun; [done| |done].
  intros [= -> _]. by apply (Hq (tx_tables (database r)) e).
Qed.

Lemma fails_only_with_step {A B} (cs : list Code) (m : M A) (k : A -> M B) :
  (forall r, exists a r1, m r = (Ok a, r1)) ->
  (forall a, fails_only_with cs (k a)) ->
  fails_only_with cs (m ≫= k).
Proof.
  intros Hm Hk. apply fails_only_with_bind; [|by intros].
  intros r e r' Hrun. destruct (Hm r) as (a & r1 & Hok). congruence.
Qed.

Lemma fails_only_with_ret {A} (cs : list Code) (a : A) : fails_only_with cs (mret a).
Proof. by intros r e r'. Qed.

Lemma result_codes_relation {B} (cs : list Code) (table : string) (t : Tables)
    (f : list Row -> result B) :
  Unknown ∈ cs ->
  (forall rows, result_codes cs (f rows)) ->
  result_codes cs match t !! table with
                  | Some rows => f rows
                  | None => Err (relation_missing table)
                  end.
Proof. intros Hin Hf. destruct (t !! table); [apply Hf|]. by intros e [= <-]. Qed.

Lemma result_codes_GetResourceDescriptor (cs : list Code) (r : resourceServer)
    (resourceType : string) :
  Unimplemented ∈ cs -> result_codes cs (GetResourceDescriptor r resourceType).
Proof.
  intros Hin e. unfold GetResourceDescriptor.
  destruct (resources r !! resourceType); [done|]. by intros [= <-].
Qed.

Lemma result_codes_getResourceTableName (cs : list Code) (d : MessageDescriptor) :
  result_codes cs (getResourceTableName d).
Proof. intros e. unfold getResourceTableName. by destruct (md_resource d). Qed.

Lemma result_codes_checkField (cs : list Code) (m : Message) (fd : option FieldDescriptor) :
  result_codes cs (checkField m fd).
Proof. intros e. unfold checkField. destruct fd; [|done]. by case_bool_decide. Qed.

Lemma result_codes_Get (cs : list Code) (m : Message) (fd : option FieldDescriptor) :
  result_codes cs (Get m fd).
Proof.
  unfold Get. apply result_codes_bind; [apply result_codes_checkField|]. by intros a _ e.
Qed.

Lemma result_codes_Set (cs : list Code) (m : Message) (fd : option FieldDescriptor)
    (v : Value) :
  result_codes cs (Set_ m fd v).
Proof.
  unfold Set_. apply result_codes_bind; [apply result_codes_checkField|].
  intros a _ e. by case_bool_decide.
Qed.

Lemma result_codes_Clear (cs : list Code) (m : Message) (fd : option FieldDescriptor) :
  result_codes cs (Clear m fd).
Proof.
  unfold Clear. apply result_codes_bind; [apply result_codes_checkField|]. by intros a _ e.
Qed.

Lemma result_codes_timestamp (cs : list Code) (m : Message) (fd : option FieldDescriptor) :
  result_codes cs (v ← Get m fd; msg ← Value_Message v; Ok (Timestamp_AsTime msg)).
Proof.
  apply result_codes_bind; [apply result_codes_Get|]. intros v _.
  apply result_codes_bind; [by destruct v; intros e|]. by intros msg _ e.
Qed.

Lemma result_codes_UnmarshalNew (G : list MessageDescriptor) (cs : list Code) (a : Any) :
  Unknown ∈ cs -> result_codes cs (UnmarshalNew G a).
Proof.
  intros Hin e. unfold UnmarshalNew. destruct (FindMessageByURL G (type_url a)); [done|].
  by intros [= <-].
Qed.

Lemma result_codes_protojson_Marshal (G : list MessageDescriptor) (cs : list Code) (a : Any) :
  Unknown ∈ cs -> result_codes cs (protojson_Marshal G a).
Proof.
  intros Hin e. unfold protojson_Marshal. destruct (FindMessageByURL G (type_url a)); [done|].
  by intros [= <-].
Qed.

Lemma result_codes_stamp (cs : list Code) (d : MessageDescriptor) (m : Message) (v : Value) :
  result_codes cs match ByName d "update_time" with
                  | Some updatedField => Set_ m (Some updatedField) v
                  | None => Ok m
                  end.
Proof. destruct (ByName d "update_time"); [apply result_codes_Set|by intros e]. Qed.

Lemma result_codes_getResource (G : list MessageDescriptor) (cs : list Code)
    (r : resourceServer) (db : Tables) (req : GetResourceRequest) :
  Unimplemented ∈ cs -> NotFound ∈ cs -> Unknown ∈ cs ->
  result_codes cs (getResource G r db req).
Proof.
  intros Hunimplemented Hnotfound Hunknown. unfold getResource.
  apply result_codes_bind; [by apply result_codes_GetResourceDescriptor|]. intros d _.
  apply result_codes_bind; [apply result_codes_getResourceTableName|]. intros table _.
  apply result_codes_bind.
  { unfold sql_select_by_name. apply result_codes_relation; [done|]. by intros rows e. }
  intros [|row res] _; [by intros e [= <-]|].
  apply result_codes_plain; [apply plain_scanResource|done].
Qed.

Lemma fails_only_with_storeUpdatedResource (G : list MessageDescriptor) (cs : list Code)
    (resourceFields : MessageDescriptor) (updatedResource : Message) (now : Time) :
  Unknown ∈ cs ->
  fails_only_with cs (storeUpdatedResource G resourceFields updatedResource now).
Proof.
  intros Hunknown. unfold storeUpdatedResource.
  apply fails_only_with_lift; [apply result_codes_stamp|]. intros stamped_resource _.
  cbv zeta.
  apply fails_only_with_lift; [by apply result_codes_protojson_Marshal|]. intros reqJson _.
  apply fails_only_with_lift; [apply result_codes_getResourceTableName|]. intros table _.
  apply fails_only_with_lift.
  { unfold getResourceDeletion.
    apply result_codes_bind; [apply result_codes_Get|]. intros v _.
    apply result_codes_bind; [by destruct v; intros e|]. intros msg _ e.
    by destruct (Message_IsValid msg). }
  intros deletion _.
  apply fails_only_with_query.
  { intros t. unfold sql_prepare. apply result_codes_relation; [done|]. by intros rows e. }
  intros _.
  apply fails_only_with_lift; [apply result_codes_timestamp|]. intros update_time _.
  apply fails_only_with_lift; [apply result_codes_Get|]. intros name _.
  apply fails_only_with_exec.
  { intros t. unfold sql_update. apply result_codes_relation; [done|]. by intros rows e. }
  intros _.
  apply fails_only_with_step; [by intros ?; eexists _, _|]. intros _.
  apply fails_only_with_ret.
Qed.

(** The codes of an atomic update: those of the updater, with
    [Unimplemented], [NotFound] and [Unknown]; and [Aborted], unless the
    updater hands back the very message it was given. *)
Lemma fails_only_with_atomicUpdateResource (G : list MessageDescriptor) (cs : list Code)
    (resourceName resourceType : string) (updater : updaterFunc) (now : Time) :
  Unimplemented ∈ cs -> NotFound ∈ cs -> Unknown ∈ cs ->
  (forall m, result_codes cs (updater m)) ->
  (Aborted ∈ cs \/ forall m existing updated, updater m = Ok (existing, updated) ->
                                             existing = updated) ->
  fails_only_with cs (atomicUpdateResource G resourceName resourceType updater now).
Proof.
  intros Hunimplemented Hnotfound Hunknown Hupdater Hconflict.
  unfold atomicUpdateResource.
  apply fails_only_with_step; [by intros ?; eexists _, _|]. intros r.
  apply fails_only_with_lift; [by apply result_codes_GetResourceDescriptor|]. intros d _.
  cbv zeta.
  apply fails_only_with_step; [by intros ?; eexists _, _|]. intros _.
  apply fails_only_with_query; [by intros t; apply result_codes_getResource|].
  intros existingResource.
  apply fails_only_with_lift; [by apply result_codes_UnmarshalNew|]. intros unpacked _.
  apply fails_only_with_lift; [apply Hupdater|]. intros [existing updated] Hupdated.
  apply fails_only_with_lift.
  { unfold updatesConflict. destruct (ByName (msg_desc existing) "etag"); [|by intros e].
    apply result_codes_bind; [apply result_codes_Get|]. intros e1 _.
    apply result_codes_bind; [apply result_codes_Get|]. by intros e2 _ e. }
  intros [|] Hdiffer.
  - destruct Hconflict as [Haborted|Hsame].
    + intros r0 e r' [= <- _]. done.
    + rewrite (Hsame _ _ _ Hupdated), updatesConflict_same in Hdiffer. done.
  - by apply fails_only_with_storeUpdatedResource.
Qed.

(** X10: the status codes that the operations answer with.  An error
    that is no gRPC status counts as [Unknown].  A read fails with
    [Unimplemented], [NotFound] or [Unknown]; a listing and a purge never
    with [NotFound]; a creation with [AlreadyExists] but never with
    [NotFound]; only an update can be [Aborted]: a deletion and an
    undeletion never are; a registration fails with [Unknown] only. *)
Theorem status_codes_of_the_operations (G : list MessageDescriptor) :
  (forall message, fails_only_with [Unknown] (CreateResourceDescriptor message)) /\
  (forall req, fails_only_with [Unimplemented; NotFound; Unknown] (GetResource G req)) /\
  (forall req, fails_only_with [Unimplemented; Unknown] (ListResources G req)) /\
  (forall req uid now_create now_update,
     fails_only_with [Unimplemented; AlreadyExists; Unknown]
       (CreateResource G req uid now_create now_update)) /\
  (forall req now,
     fails_only_with [Unimplemented; NotFound; Aborted; Unknown] (UpdateResource G req now)) /\
  (forall req now_delete now,
     fails_only_with [Unimplemented; NotFound; Unknown]
       (DeleteResource G req now_delete now)) /\
  (forall req now,
     fails_only_with [Unimplemented; NotFound; Unknown] (UndeleteResource G req now)) /\
  (forall req, fails_only_with [Unimplemented; Unknown] (PurgeResource req)).
Proof.
  assert (Hin : forall (c : Code) (cs : list Code), bool_decide (c ∈ cs) = true -> c ∈ cs).
  { intros c cs. apply bool_decide_eq_true_1. }
  split_and!.
  - intros message. unfold CreateResourceDescriptor.
    destruct (md_resource (msg_desc message)) as [ann|] eqn:Hann.
    + intros r e r'. rewrite bind_lift. unfold getResourceTableName. rewrite Hann. done.
    + intros r e r' [= <- _]. by apply Hin.
  - intros req. unfold GetResource.
    apply fails_only_with_step; [by intros ?; eexists _, _|]. intros r0 r e r' [= Hrun _].
    revert Hrun. apply result_codes_getResource; by apply Hin.
  - intros req. unfold ListResources.
    apply fails_only_with_step; [by intros ?; eexists _, _|]. intros r0.
    apply fails_only_with_lift; [apply result_codes_GetResourceDescriptor; by apply Hin|].
    intros d _. cbv zeta.
    apply fails_only_with_lift; [apply result_codes_getResourceTableName|]. intros table _.
    apply fails_only_with_bind.
    { intros r e r' [= Hrun _]. revert Hrun. unfold sql_select_by_parent.
      apply result_codes_relation; [by apply Hin|]. intros rows e0.
      destruct (_ <? _)%Z; [|done]. intros [= <-]. by apply Hin. }
    intros res _ _ _.
    apply fails_only_with_lift; [|intros; apply fails_only_with_ret].
    apply result_codes_plain; [|by apply Hin].
    induction res as [|row res IH]; [by intros e|]. cbn [scan_rows].
    apply plain_bind; [apply plain_scanResource|]. intros resource.
    apply plain_bind; [done|]. by intros resources e.
  - intros req uid now_create now_update. unfold CreateResource.
    apply fails_only_with_step; [by intros ?; eexists _, _|]. intros r0.
    apply fails_only_with_lift.
    { unfold assertRegisteredAnyResource. intros e.
      destruct (resources r0 !! _); [done|]. intros [= <-]. by apply Hin. }
    intros _ _.
    apply fails_only_with_lift; [apply result_codes_UnmarshalNew; by apply Hin|].
    intros m0 _. cbv zeta.
    apply fails_only_with_lift; [apply result_codes_Set|]. intros m1 _.
    apply fails_only_with_lift; [apply result_codes_Set|]. intros m2 _.
    apply fails_only_with_lift; [apply result_codes_stamp|]. intros resource _.
    apply fails_only_with_lift; [apply result_codes_protojson_Marshal; by apply Hin|].
    intros reqJson _.
    apply fails_only_with_step; [by intros ?; eexists _, _|]. intros _.
    apply fails_only_with_lift; [apply result_codes_Get|]. intros name _.
    apply fails_only_with_query.
    { intros t e.
      destruct (getResource G r0 t _) as [existing|err|] eqn:Hget; [done| |done].
      case_bool_decide as Hcode; [done|]. intros [= <-].
      assert (Hcodes : status_Code err ∈ [Unimplemented; NotFound; Unknown]).
      { revert Hget. apply result_codes_getResource; by apply Hin. }
      apply elem_of_cons in Hcodes as [->|Hcodes]; [by apply Hin|].
      apply elem_of_cons in Hcodes as [Hfound|Hcodes]; [done|].
      apply elem_of_cons in Hcodes as [->|Hcodes]; [by apply Hin|].
      by apply elem_of_nil in Hcodes. }
    intros [existing|]; [intros r e r' [= <- _]; by apply Hin|].
    apply fails_only_with_lift; [apply result_codes_getResourceTableName|]. intros table _.
    apply fails_only_with_query.
    { intros t. unfold sql_prepare. apply result_codes_relation; [by apply Hin|].
      by intros rows e. }
    intros _.
    apply fails_only_with_lift; [apply result_codes_Get|]. intros vuid _.
    apply fails_only_with_lift; [apply result_codes_Get|]. intros vname _.
    apply fails_only_with_lift; [apply result_codes_timestamp|]. intros create_time _.
    apply fails_only_with_lift; [apply result_codes_timestamp|]. intros update_time _.
    apply fails_only_with_exec.
    { intros t. unfold sql_insert. apply result_codes_relation; [by apply Hin|].
      intros rows e. destruct (forallb _ rows); [done|]. intros [= <-]. by apply Hin. }
    intros _.
    apply fails_only_with_step; [by intros ?; eexists _, _|]. intros _.
    apply fails_only_with_ret.
  - intros req now. unfold UpdateResource.
    apply fails_only_with_lift.
    { unfold resourceName.
      apply result_codes_bind; [apply result_codes_UnmarshalNew; by apply Hin|]. intros m _.
      apply result_codes_bind; [apply result_codes_Get|]. by intros name _ e. }
    intros name _.
    apply fails_only_with_atomicUpdateResource; try by apply Hin.
    + intros m. unfold UpdateResource_updater.
      apply result_codes_bind.
      { intros e. unfold MaskFromProtoFieldMask. destruct (find _ _); [|done].
        intros [= <-]. by apply Hin. }
      intros mask _.
      apply result_codes_bind; [apply result_codes_UnmarshalNew; by apply Hin|]. intros u _.
      apply result_codes_bind; [apply result_codes_UnmarshalNew; by apply Hin|]. intros x _.
      apply result_codes_bind; [by intros e|]. by intros merged _ e.
    + left. by apply Hin.
  - intros req now_delete now. unfold DeleteResource.
    apply fails_only_with_atomicUpdateResource; try by apply Hin.
    + intros m. apply result_codes_bind; [apply result_codes_Set|]. by intros existing _ e.
    + right. intros m existing updated Hrun. bind_inv Hrun stamped_message Hset. congruence.
  - intros req now. unfold UndeleteResource.
    apply fails_only_with_atomicUpdateResource; try by apply Hin.
    + intros m. apply result_codes_bind; [apply result_codes_Clear|]. by intros existing _ e.
    + right. intros m existing updated Hrun. bind_inv Hrun cleared Hclear. congruence.
  - intros req. unfold PurgeResource.
    apply fails_only_with_step; [by intros ?; eexists _, _|]. intros r0.
    apply fails_only_with_lift; [apply result_codes_GetResourceDescriptor; by apply Hin|].
    intros d _.
    apply fails_only_with_step; [by intros ?; eexists _, _|]. intros _.
    apply fails_only_with_lift; [apply result_codes_getResourceTableName|]. intros table _.
    apply fails_only_with_query.
    { intros t. unfold sql_prepare. apply result_codes_relation; [by apply Hin|].
      by intros rows e. }
    intros _.
    apply fails_only_with_exec.
    { intros t. unfold sql_delete. apply result_codes_relation; [by apply Hin|].
      by intros rows e. }
    intros _.
    apply fails_only_with_step; [by intros ?; eexists _, _|]. intros _.
    apply fails_only_with_ret.
Qed.

Lemma a_second_account_is_refused_with_AlreadyExists :
  exists e r',
    CreateResource linked create_a1 "uid-2" 102%Z 103%Z with_a1 = (Err e, r') /\
    status_Code e ∈ [Unimplemented; AlreadyExists; Unknown].
Proof.
  eexists _, _. split; [vm_compute; reflexivity|].
  destruct (status_codes_of_the_operations linked) as (_ & _ & _ & Hcreate & _).
  eapply (Hcreate create_a1 "uid-2" 102%Z 103%Z with_a1). vm_compute. reflexivity.
Defined.

(** ** What a creation needs, and what a read then returns *)

Lemma Set_has_kind (m m' : Message) (name : string) (v : Value) :
  Set_ m (ByName (msg_desc m) name) v = Ok m' ->
  has_field (msg_desc m) name (kind_of v) = true.
Proof.
  intros (f & Hf & _ & Hkind & _)%Set_Ok. unfold has_field. rewrite Hf.
  by apply bool_decide_eq_true_2.
Qed.

Lemma Get_declared (m : Message) (fd : option FieldDescriptor) (v : Value) :
  Get m fd = Ok v -> exists f, fd = Some f.
Proof. unfold Get, checkField. destruct fd as [f|]; [by exists f|done]. Qed.

(** What a successful [CreateResource] went through. *)
Lemma CreateResource_Ok_schema (G : list MessageDescriptor)
    (req : CreateResourceRequest) (uid : string) (now_create now_update : Time)
    (r r' : resourceServer) (ret : Any) :
  CreateResource G req uid now_create now_update r = (Ok ret, r') ->
  exists d ann rows,
    is_Some (resources r !! type_url (create_Resource req)) /\
    FindMessageByURL G (type_url (create_Resource req)) = Some d /\
    md_resource d = Some ann /\
    has_field d "uid" StringKind = true /\
    has_field d "create_time" MessageKind = true /\
    has_field d "update_time" MessageKind = true /\
    is_Some (ByName d "name") /\
    tables (database r) !! (res_singular ann +:+ "_resource") = Some rows /\
    type_url ret = "type.googleapis.com/" +:+ md_full_name d.
Proof.
  unfold CreateResource. intros H. rewrite bind_self in H.
  lift_inv H u Hregistered. lift_inv H m0 Hm0.
  lift_inv H m1 Hm1. lift_inv H m2 Hm2. lift_inv H resource Hresource.
  lift_inv H reqJson HreqJson. rewrite bind_BeginTx in H.
  lift_inv H name Hname. tx_query_inv H found Hfound.
  destruct found as [existing|]; [done|].
  lift_inv H table Htable. tx_query_inv H u' Hprepare.
  lift_inv H vuid Hvuid. lift_inv H vname Hvname.
  lift_inv H create_time Hcreate. lift_inv H update_time Hupdate.
  tx_exec_inv H t Hinsert. rewrite bind_Commit in H.
  injection H as <- <-.
  unfold assertRegisteredAnyResource in Hregistered.
  destruct (resources r !! type_url (create_Resource req)) as [known|] eqn:Hknown; [|done].
  unfold UnmarshalNew in Hm0.
  destruct (FindMessageByURL G (type_url (create_Resource req))) as [d|] eqn:Hd; [|done].
  injection Hm0 as <-. cbn [msg_desc] in *.
  pose proof (Set_has_kind _ _ _ _ Hm1) as Huid. cbn [msg_desc kind_of] in Huid.
  pose proof (Set_desc _ _ _ _ Hm1) as Hdesc1. cbn [msg_desc] in Hdesc1.
  assert (Hct : has_field d "create_time" MessageKind = true).
  { unfold has_field. apply Set_Ok in Hm2 as (f & -> & _ & Hkind & _).
    by apply bool_decide_eq_true_2. }
  pose proof (Set_desc _ _ _ _ Hm2) as Hdesc2. rewrite Hdesc1 in Hdesc2.
  assert (Hdesc : msg_desc resource = d).
  { destruct (ByName d "update_time"); [|by injection Hresource as <-].
    by rewrite (Set_desc _ _ _ _ Hresource). }
  assert (Hut : has_field d "update_time" MessageKind = true).
  { bind_inv Hupdate v Hv. apply Get_declared in Hv as [f Hf]. rewrite Hf in Hresource.
    apply Set_Ok in Hresource as (f' & [= <-] & _ & Hkind & _).
    unfold has_field. rewrite Hf. by apply bool_decide_eq_true_2. }
  rewrite Hdesc in Htable. unfold getResourceTableName in Htable.
  destruct (md_resource d) as [ann|] eqn:Hann; [|done]. injection Htable as <-.
  rewrite tx_tables_begun in Hprepare. apply sql_prepare_Ok in Hprepare as [rows Hrows].
  exists d, ann, rows. split_and!; try done.
  - apply Get_declared in Hname as [f Hf]. by exists f.
  - cbn [anypb_New type_url]. by rewrite Hdesc.
Qed.

Lemma Get_checked (m : Message) (fd : option FieldDescriptor) (v : Value) :
  Get m fd = Ok v -> exists f, fd = Some f /\ f ∈ md_fields (msg_desc m).
Proof.
  unfold Get, checkField. destruct fd as [f|]; [|done].
  case_bool_decide; [by exists f|done].
Qed.

Lemma created_row_decodes_to (G : list MessageDescriptor) (d : MessageDescriptor)
    (req : CreateResourceRequest) (uid : string) (now_create now_update : Time) :
  linked_type G d -> is_resource_schema d = true ->
  row_decodes G (created_row d req uid now_create now_update)
    (stamped d
       (msg_fields (clearOutputOnlyFields (created_resource d req uid now_create now_update)))
       uid (requested_name req) now_create now_update None).
Proof.
  intros Hlinked Hschema.
  exists (anypb_New (clearOutputOnlyFields (created_resource d req uid now_create now_update))),
         d, (Format_RFC3339Nano now_create), (Format_RFC3339Nano now_update),
         now_create, now_update, None.
  cbn [created_row row_data row_create_time row_update_time row_delete_time
       row_uid row_name].
  repeat split; try done.
  - by apply (FindMessageByURL_anypb_New G
                (clearOutputOnlyFields (created_resource d req uid now_create now_update))).
  - apply Parse_Format.
  - apply Parse_Format.
Qed.

(** X12: reading back what was created.  After a successful
    [CreateResource] of a registered resource type, [GetResource] under
    the request's name and type succeeds and leaves the server as it is;
    it returns the [uid], [create_time] and [update_time] that the create
    returned and the name of the request; of the other fields it returns
    the request's, except those tagged [OUTPUT_ONLY], which it returns
    unpopulated although the create returned them. *)
Theorem GetResource_after_CreateResource (G : list MessageDescriptor) (r r' : resourceServer)
    (req : CreateResourceRequest) (uid : string) (now_create now_update : Time)
    (d : MessageDescriptor) (ret : Any) :
  registered_type G r (type_url (create_Resource req)) d ->
  is_resource_schema d = true ->
  CreateResource G req uid now_create now_update r = (Ok ret, r') ->
  exists ret',
    GetResource G {| get_Name := requested_name req;
                     get_ResourceType := type_url (create_Resource req) |} r'
      = (Ok ret', r') /\
    type_url ret' = type_url ret /\
    any_value ret' !! "name" = Some (VString (requested_name req)) /\
    any_value ret' !! "uid" = Some (VString uid) /\
    any_value ret' !! "create_time" = Some (VMessage (Some now_create)) /\
    any_value ret' !! "update_time" = Some (VMessage (Some now_update)) /\
    (forall name, name ∈ ["uid"; "create_time"; "update_time"] ->
                  any_value ret' !! name = any_value ret !! name) /\
    (forall name, name ∉ ["uid"; "name"; "create_time"; "update_time"] ->
                  any_value ret !! name = any_value (create_Resource req) !! name /\
                  any_value ret' !! name
                  = if decide (output_only_named d name) then None
                    else any_value (create_Resource req) !! name).
Proof.
  intros Hregistered Hschema Hrun.
  pose proof (registered_type_URL _ _ _ _ Hregistered) as Hurl.
  destruct (CreateResource_Ok_schema G req uid now_create now_update r r' ret Hrun)
    as (d' & ann & rows & _ & Hd' & Hann & _ & _ & _ & _ & Hrows & _).
  rewrite Hurl in Hd'. injection Hd' as <-.
  assert (Htable : getResourceTableName d = Ok (res_singular ann +:+ "_resource")).
  { unfold getResourceTableName. by rewrite Hann. }
  rewrite (CreateResource_run G r req uid now_create now_update d _ rows) in Hrun by done.
  destruct (filter (fun row => row_name row = requested_name req) rows)
    as [|existing others] eqn:Hfilter.
  2:{ by destruct (scanResource G (project all_columns existing)). }
  destruct (sql_insert _ _ _) as [t| |] eqn:Hinsert; [|done|done].
  injection Hrun as <- <-.
  apply sql_insert_Ok in Hinsert as (rows' & Hrows' & -> & _).
  rewrite Hrows in Hrows'. injection Hrows' as <-.
  destruct Hregistered as (Hd & Hfull & Hlinked).
  eexists. split.
  { rewrite GetResource_run. cbn [database tables resources].
    rewrite (getResource_select G _ _ _ d (res_singular ann +:+ "_resource")
               (rows ++ [created_row d req uid now_create now_update]));
      [|done|done|apply lookup_insert_eq].
    cbn [get_Name]. rewrite filter_app, Hfilter, filter_cons_True by done.
    cbn [app filter].
    by rewrite (scanResource_row G _ _
                  (created_row_decodes_to G d req uid now_create now_update Hlinked Hschema)). }
  cbn [anypb_New any_value type_url stamped msg_desc msg_fields created_resource].
  split_and!; try done; try by simplify_map_eq.
  - intros name Hname.
    repeat (apply elem_of_cons in Hname as [->|Hname]); [| | |by apply elem_of_nil in Hname];
      by simplify_map_eq.
  - intros name Hname.
    assert (name <> "uid" /\ name <> "name" /\ name <> "create_time" /\ name <> "update_time")
      as (? & ? & ? & ?).
    { split_and!; intros ->; apply Hname; repeat constructor. }
    rewrite !lookup_insert_ne by done. split; [done|].
    rewrite clearOutputOnlyFields_lookup. cbn [created_resource msg_desc msg_fields].
    case_decide; [done|]. by rewrite !lookup_insert_ne by done.
Qed.

Lemma created_account_reads_back :
  exists ret',
    GetResource linked get_a1 with_a1 = (Ok ret', with_a1) /\
    any_value ret' !! "name" = Some (VString "accounts/a1") /\
    any_value ret' !! "uid" = Some (VString "uid-1") /\
    any_value ret' !! "display_name" = Some (VString "Joe") /\
    any_value ret' !! "self_link" = None.
Proof.
  edestruct (GetResource_after_CreateResource linked registered with_a1 create_a1 "uid-1"
               100%Z 101%Z Account)
    as (ret' & Hget & _ & Hname & Huid & _ & _ & _ & Hother).
  - repeat split; reflexivity.
  - reflexivity.
  - vm_compute. reflexivity.
  - exists ret'. split_and!; try done.
    + destruct (Hother "display_name") as [_ ->].
      * intros Hin. repeat (apply elem_of_cons in Hin as [Hin|Hin]; [done|]).
        by apply elem_of_nil in Hin.
      * rewrite decide_False; [done|].
        intros Hout. apply Exists_exists in Hout as (fd & Hfd & Hname' & Hbehavior).
        repeat (apply elem_of_cons in Hfd as [->|Hfd]; [try done|]).
        -- cbn in Hbehavior. repeat (apply elem_of_cons in Hbehavior as [Hbehavior|Hbehavior];
                                      [done|]). by apply elem_of_nil in Hbehavior.
        -- by apply elem_of_nil in Hfd.
    + destruct (Hother "self_link") as [_ ->].
      * intros Hin. repeat (apply elem_of_cons in Hin as [Hin|Hin]; [done|]).
        by apply elem_of_nil in Hin.
      * rewrite decide_True; [done|].
        apply Exists_exists. exists (output_only "self_link" StringKind).
        split_and!; [|done|apply list_elem_of_here].
        apply list_elem_of_In. cbn. tauto.
Defined.

(** ** The registry of every reachable server *)

Lemma keeps_registry_bind {A B} (m : M A) (k : A -> M B) :
  keeps_registry m -> (forall a, keeps_registry (k a)) -> keeps_registry (m ≫= k).
Proof.
  intros Hm Hk r. specialize (Hm r). unfold mbind, M_bind.
  destruct (m r) as [[a| |] r1]; cbn [snd] in *; [|done..].
  by rewrite Hk.
Qed.

Lemma keeps_registry_lift {A} (x : result A) : keeps_registry (lift x).
Proof. by intros r. Qed.

Lemma keeps_registry_self : keeps_registry self.
Proof. by intros r. Qed.

Lemma keeps_registry_BeginTx : keeps_registry BeginTx.
Proof. by intros r. Qed.

Lemma keeps_registry_Commit : keeps_registry Commit.
Proof. by intros r. Qed.

Lemma keeps_registry_tx_query {A} (q : Tables -> result A) : keeps_registry (tx_query q).
Proof. by intros r. Qed.

Lemma keeps_registry_tx_exec (q : Tables -> result Tables) : keeps_registry (tx_exec q).
Proof. intros r. unfold tx_exec. by destruct (q _). Qed.

Lemma keeps_registry_ret {A} (a : A) : keeps_registry (mret a : M A).
Proof. by intros r. Qed.

Create HintDb registry.
#[local] Hint Resolve keeps_registry_lift keeps_registry_self keeps_registry_BeginTx
  keeps_registry_Commit keeps_registry_tx_query keeps_registry_tx_exec
  keeps_registry_ret : registry.

Ltac registry_kept :=
  repeat (apply keeps_registry_bind; [auto with registry|intros ?]; cbv zeta);
  auto with registry.

Lemma keeps_registry_atomicUpdateResource (G : list MessageDescriptor)
    (resourceName resourceType : string) (updater : updaterFunc) (now : Time) :
  keeps_registry (atomicUpdateResource G resourceName resourceType updater now).
Proof.
  unfold atomicUpdateResource.
  do 5 (apply keeps_registry_bind; [auto with registry|intros ?]; cbv zeta).
  apply keeps_registry_bind; [auto with registry|intros [unpacked updated]].
  apply keeps_registry_bind; [auto with registry|intros [|]]; [auto with registry|].
  unfold storeUpdatedResource. registry_kept.
Qed.

Lemma keeps_registry_CreateResource (G : list MessageDescriptor)
    (req : CreateResourceRequest) (uid : string) (now_create now_update : Time) :
  keeps_registry (CreateResource G req uid now_create now_update).
Proof.
  unfold CreateResource.
  do 9 (apply keeps_registry_bind; [auto with registry|intros ?]; cbv zeta).
  apply keeps_registry_bind; [auto with registry|intros [existing|]];
    [auto with registry|].
  registry_kept.
Qed.

Lemma keeps_registry_PurgeResource (req : PurgeResourceRequest) :
  keeps_registry (PurgeResource req).
Proof. unfold PurgeResource. registry_kept. Qed.

(** Only a registration writes to the registry. *)
Lemma after_registry (G : list MessageDescriptor) (c : Call) (r : resourceServer) :
  (forall message, c <> CallRegister message) ->
  resources (after G c r) = resources r.
Proof.
  intros Hcall. destruct c; cbn [after].
  - by destruct (Hcall message).
  - apply keeps_registry_CreateResource.
  - by rewrite GetResource_run.
  - by rewrite stateless_ListResources.
  - unfold UpdateResource.
    apply keeps_registry_bind; [auto with registry|intros name].
    apply keeps_registry_atomicUpdateResource.
  - unfold DeleteResource. apply keeps_registry_atomicUpdateResource.
  - unfold UndeleteResource. apply keeps_registry_atomicUpdateResource.
  - apply keeps_registry_PurgeResource.
Qed.

Lemma lookup_insert_is_Some_existing (t : Tables) (table other : string) (rows : list Row) :
  is_Some (t !! other) -> is_Some (<[table := rows]> t !! other).
Proof.
  intros Hother. destruct (decide (table = other)) as [->|Hne].
  - rewrite lookup_insert_eq. by eexists.
  - by rewrite lookup_insert_ne.
Qed.

(** No call drops a table. *)
Lemma after_tables (G : list MessageDescriptor) (c : Call) (r : resourceServer)
    (table : string) :
  is_Some (tables (database r) !! table) ->
  is_Some (tables (database (after G c r)) !! table).
Proof.
  intros Htable. destruct c; cbn [after].
  - destruct (md_resource (msg_desc message)) as [ann|] eqn:Hann.
    + rewrite (CreateResourceDescriptor_run message r ann Hann). cbn [snd database tables].
      unfold sql_create_table.
      destruct (tables (database r) !! (res_singular ann +:+ "_resource")); [done|].
      by apply lookup_insert_is_Some_existing.
    + unfold CreateResourceDescriptor. by rewrite Hann.
  - destruct (CreateResource_tables G req uid now_create now_update r)
      as [->|(table0 & rows & row & _ & -> & _)]; [done|].
    by apply lookup_insert_is_Some_existing.
  - by rewrite GetResource_run.
  - by rewrite stateless_ListResources.
  - destruct (UpdateResource_tables G req now r)
      as [->|(table0 & rows & ut & del & data & name & _ & ->)]; [done|].
    by apply lookup_insert_is_Some_existing.
  - unfold DeleteResource.
    destruct (atomicUpdateResource_tables G (delete_Name req) (delete_ResourceType req)
                (fun existing =>
                   existing ← Set_ existing (ByName (msg_desc existing) "delete_time")
                                (VMessage (Some now_delete));
                   Ok (existing, existing)) now r)
      as [->|(table0 & rows & ut & del & data & name & _ & ->)]; [done|].
    by apply lookup_insert_is_Some_existing.
  - unfold UndeleteResource.
    destruct (atomicUpdateResource_tables G (undelete_Name req) (undelete_ResourceType req)
                (fun existing =>
                   existing ← Clear existing (ByName (msg_desc existing) "delete_time");
                   Ok (existing, existing)) now r)
      as [->|(table0 & rows & ut & del & data & name & _ & ->)]; [done|].
    by apply lookup_insert_is_Some_existing.
  - destruct (PurgeResource_tables req r) as [->|(table0 & rows & _ & ->)]; [done|].
    by apply lookup_insert_is_Some_existing.
Qed.

Lemma registry_sound_after (G : list MessageDescriptor) (c : Call) (r : resourceServer) :
  registry_sound r -> registry_sound (after G c r).
Proof.
  intros Hsound resourceType d Hd.
  assert (Hold : resources r !! resourceType = Some d ->
                 md_full_name d = resourceType /\
                 exists ann rows,
                   md_resource d = Some ann /\
                   tables (database (after G c r)) !! (res_singular ann +:+ "_resource")
                   = Some rows).
  { intros Hr. destruct (Hsound _ _ Hr) as (Hfull & ann & rows & Hann & Hrows).
    split; [done|].
    destruct (after_tables G c r (res_singular ann +:+ "_resource")) as [rows' Hrows'];
      [by exists rows|].
    by exists ann, rows'. }
  assert (Hcases : (exists message, c = CallRegister message)
                    \/ forall message, c <> CallRegister message).
  { destruct c; try (by right); left; by eexists. }
  destruct Hcases as [[message ->]|Hcall].
  - cbn [after] in *.
    destruct (md_resource (msg_desc message)) as [ann|] eqn:Hann.
    + rewrite (CreateResourceDescriptor_run message r ann Hann) in Hd |- *.
      cbn [snd resources database tables] in Hd |- *.
      destruct (decide (md_full_name (msg_desc message) = resourceType)) as [<-|Hne].
      * rewrite lookup_insert_eq in Hd. injection Hd as <-. split; [done|].
        exists ann. eexists. split; [done|]. apply sql_create_table_lookup.
      * rewrite lookup_insert_ne in Hd by done.
        rewrite (CreateResourceDescriptor_run message r ann Hann) in Hold.
        by apply Hold.
    + apply Hold. unfold CreateResourceDescriptor in Hd. by rewrite Hann in Hd.
  - apply Hold. by rewrite <- (after_registry G c r).
Qed.

(** X13: in every server that [New] and a sequence of registrations and
    calls lead to, whatever the calls answered, a registered descriptor
    is filed under its full name, carries the [google.api.resource]
    annotation and has its table; so on a registered type
    [getResourceTableName] never panics, no statement meets a missing
    relation, and [PurgeResource] always succeeds. *)
Theorem reachable_registry_is_sound (G : list MessageDescriptor) (r : resourceServer) :
  reachable G r ->
  registry_sound r /\
  (forall resourceType d,
     resources r !! resourceType = Some d ->
     exists table rows,
       getResourceTableName d = Ok table /\
       tables (database r) !! table = Some rows /\
       sql_prepare table (tables (database r)) = Ok tt /\
       forall name,
         fst (PurgeResource {| purge_Name := name; purge_ResourceType := resourceType |} r)
         = Ok tt).
Proof.
  intros Hreachable.
  assert (Hsound : registry_sound r).
  { induction Hreachable as [db|c r Hreachable IH].
    - intros resourceType d Hd. cbn [resources] in Hd. by rewrite lookup_empty in Hd.
    - by apply registry_sound_after. }
  split; [done|].
  intros resourceType d Hd.
  destruct (Hsound _ _ Hd) as (Hfull & ann & rows & Hann & Hrows).
  assert (Htable : getResourceTableName d = Ok (res_singular ann +:+ "_resource")).
  { unfold getResourceTableName. by rewrite Hann. }
  exists (res_singular ann +:+ "_resource"), rows. split_and!; try done.
  - unfold sql_prepare. by rewrite Hrows.
  - intros name.
    by rewrite (PurgeResource_run r _ d (res_singular ann +:+ "_resource") rows).
Qed.

Lemma server_with_an_account_is_sound :
  registry_sound with_a1.
Proof.
  apply (reachable_registry_is_sound linked).
  unfold with_a1, registered, New.
  apply (reachable_after linked (CallCreate create_a1 "uid-1" 100%Z 101%Z)).
  apply (reachable_after linked (CallRegister {| msg_desc := Account; msg_fields := ∅ |})).
  apply reachable_New.
Defined.

(** ** A name is taken for as long as it can be read *)

Lemma sql_insert_Err (table : string) (row : Row) (t : Tables) (e : error) :
  sql_insert table row t = Err e -> status_Code e = Unknown.
Proof.
  unfold sql_insert. destruct (t !! table); [|by intros [= <-]].
  destruct (forallb _ _); [done|]. by intros [= <-].
Qed.

Lemma CreateResource_refused_iff_readable (G : list MessageDescriptor) (r : resourceServer)
    (req : CreateResourceRequest) (uid : string) (now_create now_update : Time)
    (d : MessageDescriptor) (table : string) (rows : list Row) :
  registered_type G r (type_url (create_Resource req)) d ->
  is_resource_schema d = true ->
  getResourceTableName d = Ok table ->
  tables (database r) !! table = Some rows ->
  CreateResource G req uid now_create now_update r
    = (Err (StatusError AlreadyExists "Resource already exists" []), begun r)
  <-> exists ret,
        GetResource G {| get_Name := requested_name req;
                         get_ResourceType := type_url (create_Resource req) |} r
        = (Ok ret, r).
Proof.
  intros Hregistered Hschema Htable Hrows.
  rewrite (CreateResource_run G r req uid now_create now_update d table rows) by done.
  rewrite GetResource_run.
  rewrite (getResource_select G r _ _ d table rows); [|by destruct Hregistered|done|done].
  cbn [get_Name].
  destruct (filter (fun row => row_name row = requested_name req) rows) as [|existing others].
  - split; [|by intros [ret [=]]].
    destruct (sql_insert _ _ _) as [t|e|] eqn:Hinsert; [done| |done].
    intros [= ->]. by apply sql_insert_Err in Hinsert.
  - destruct (scanResource G (project all_columns existing)) as [ret|e|] eqn:Hscan.
    + split; [by exists ret|done].
    + split; [|by intros [ret [=]]].
      intros [= ->]. by apply plain_scanResource in Hscan.
    + split; [done|by intros [ret [=]]].
Qed.

(** X14: on a registered resource type whose table exists,
    [CreateResource] answers [AlreadyExists] exactly when [GetResource]
    of the requested name and type succeeds.  So a soft-deleted
    resource keeps its name taken: after a successful [DeleteResource] a
    create of that name is refused; after a [PurgeResource] of the name a
    create of it, with a uid that no remaining row bears, succeeds. *)
Theorem name_is_taken_while_readable (G : list MessageDescriptor) (r : resourceServer)
    (resourceType : string) (d : MessageDescriptor) (table : string) (rows : list Row) :
  registered_type G r resourceType d ->
  is_resource_schema d = true ->
  getResourceTableName d = Ok table ->
  tables (database r) !! table = Some rows ->
  (forall create uid now_create now_update,
     type_url (create_Resource create) = resourceType ->
     CreateResource G create uid now_create now_update r
       = (Err (StatusError AlreadyExists "Resource already exists" []), begun r)
     <-> exists ret,
           GetResource G {| get_Name := requested_name create;
                            get_ResourceType := resourceType |} r = (Ok ret, r)) /\
  (forall name now_delete now r' ret create uid now_create now_update,
     DeleteResource G {| delete_Name := name; delete_ResourceType := resourceType |}
       now_delete now r = (Ok ret, r') ->
     FindMessageByURL G (type_url ret) = Some d ->
     type_url (create_Resource create) = resourceType ->
     requested_name create = name ->
     CreateResource G create uid now_create now_update r'
       = (Err (StatusError AlreadyExists "Resource already exists" []), begun r')) /\
  (forall name create uid now_create now_update,
     type_url (create_Resource create) = resourceType ->
     requested_name create = name ->
     (forall row, row ∈ rows -> row_name row <> name -> row_uid row <> uid) ->
     let purged :=
       snd (PurgeResource {| purge_Name := name; purge_ResourceType := resourceType |} r) in
     exists r',
       CreateResource G create uid now_create now_update purged
       = (Ok (anypb_New (created_resource d create uid now_create now_update)), r')).
Proof.
  intros Hregistered Hschema Htable Hrows. split_and!.
  - intros create uid now_create now_update Htype. subst resourceType.
    by apply (CreateResource_refused_iff_readable G r create uid now_create now_update
                d table rows).
  - intros name now_delete now r' ret create uid now_create now_update Hdelete Hret Htype Hname.
    destruct Hregistered as (Hd & Hfull & Hlinked).
    destruct (GetResource_after_DeleteResource G _ now_delete now r r' ret d Hdelete Hd Hret)
      as (ret' & Hget & _).
    cbn [delete_Name delete_ResourceType] in Hget.
    assert (Hresources : resources r' = resources r).
    { pose proof (keeps_registry_atomicUpdateResource G name resourceType
                    (fun existing =>
                       existing ← Set_ existing (ByName (msg_desc existing) "delete_time")
                                    (VMessage (Some now_delete));
                       Ok (existing, existing)) now r) as Hkept.
      unfold DeleteResource in Hdelete. cbn [delete_Name delete_ResourceType] in Hdelete.
      by rewrite Hdelete in Hkept. }
    destruct (after_tables G (CallDelete {| delete_Name := name;
                                            delete_ResourceType := resourceType |}
                                now_delete now) r table) as [rows' Hrows']; [by exists rows|].
    cbn [after] in Hrows'. rewrite Hdelete in Hrows'. cbn [snd] in Hrows'.
    apply (CreateResource_refused_iff_readable G r' create uid now_create now_update
             d table rows').
    + unfold registered_type. by rewrite Htype, Hresources.
    + done.
    + done.
    + done.
    + exists ret'. by rewrite Htype, Hname.
  - intros name create uid now_create now_update Htype Hname Huid purged. subst purged.
    destruct Hregistered as (Hd & Hfull & Hlinked).
    rewrite (PurgeResource_run r _ d table rows) by done. cbn [snd purge_Name].
    eexists.
    rewrite (CreateResource_run G _ create uid now_create now_update d table
               (filter (fun row => row_name row <> name) rows)).
    + rewrite filter_none.
      2:{ intros row [Hrow _]%list_elem_of_filter. congruence. }
      unfold sql_insert. cbn [database tables]. rewrite lookup_insert_eq.
      rewrite (proj2 (forallb_forall _ _)); [done|].
      intros old [Hold Hin]%list_elem_of_In%list_elem_of_filter.
      cbn [created_row row_uid row_name].
      apply andb_true_intro. split; apply negb_true_iff; apply String.eqb_neq.
      * by apply Huid.
      * by rewrite Hname.
    + unfold registered_type. by rewrite Htype.
    + done.
    + done.
    + cbn [database tables]. apply lookup_insert_eq.
Qed.

Lemma deleted_account_keeps_its_name_taken :
  CreateResource linked create_a1 "uid-2" 400%Z 401%Z with_a1_deleted
  = (Err (StatusError AlreadyExists "Resource already exists" []), begun with_a1_deleted).
Proof.
  edestruct (name_is_taken_while_readable linked with_a1 "features.Account" Account
               "account_resource") as (_ & Hdeleted & _).
  - repeat split; reflexivity.
  - reflexivity.
  - reflexivity.
  - vm_compute. reflexivity.
  - unfold with_a1_deleted.
    eapply (Hdeleted "accounts/a1" 300%Z 301%Z _ _ create_a1 "uid-2" 400%Z 401%Z).
    + vm_compute. reflexivity.
    + vm_compute. reflexivity.
    + reflexivity.
    + reflexivity.
Defined.

(** ** What a stored row decodes to *)

(** X15: what [scanResource] makes of the seven columns of a row.  When
    it succeeds the payload of the row is the protojson of an [Any] of
    a linked type, and [create_time] and [update_time] are not null and
    parse.  In the resource it returns, [uid], [name], [create_time]
    and [update_time] are those of the columns, whatever the payload
    holds under these names; [delete_time] is that of the column unless
    the column is null, when it is the payload's; every other field is
    the payload's. *)
Theorem scanResource_prefers_the_columns (G : list MessageDescriptor) (row : Row) (ret : Any) :
  scanResource G (project all_columns row) = Ok ret ->
  exists payload d sc su ctime utime,
    row_data row = JsonAny payload /\
    FindMessageByURL G (type_url payload) = Some d /\
    type_url ret = "type.googleapis.com/" +:+ md_full_name d /\
    row_create_time row = Some sc /\ Parse_RFC3339Nano sc = Ok ctime /\
    row_update_time row = Some su /\ Parse_RFC3339Nano su = Ok utime /\
    any_value ret !! "uid" = Some (VString (row_uid row)) /\
    any_value ret !! "name" = Some (VString (row_name row)) /\
    any_value ret !! "create_time" = Some (VMessage (Some ctime)) /\
    any_value ret !! "update_time" = Some (VMessage (Some utime)) /\
    match row_delete_time row with
    | Some sd => exists t, Parse_RFC3339Nano sd = Ok t /\
                           has_field d "delete_time" MessageKind = true /\
                           any_value ret !! "delete_time" = Some (VMessage (Some t))
    | None => any_value ret !! "delete_time" = any_value payload !! "delete_time"
    end /\
    (forall name, ~ system_field name -> any_value ret !! name = any_value payload !! name).
Proof.
  intros (resource & Hdecodes & ->)%scanResource_row_Ok.
  destruct Hdecodes as (a & d & sc & su & ctime & utime & dtime &
                        Hdata & Hd & Hschema & Hsc & Hctime & Hsu & Hutime & Hdtime & ->).
  exists a, d, sc, su, ctime, utime.
  cbn [anypb_New any_value type_url stamped msg_desc msg_fields].
  split_and!; try done.
  - destruct dtime; by simplify_map_eq.
  - destruct dtime; by simplify_map_eq.
  - by simplify_map_eq.
  - by simplify_map_eq.
  - destruct (row_delete_time row) as [sd|].
    + destruct Hdtime as (t & -> & Ht & Hfield). exists t. by simplify_map_eq.
    + subst dtime. by simplify_map_eq.
  - intros name Hname.
    assert (name <> "uid" /\ name <> "name" /\ name <> "create_time" /\
            name <> "update_time" /\ name <> "delete_time") as (? & ? & ? & ? & ?).
    { split_and!; intros ->; apply Hname; unfold system_field; repeat constructor. }
    destruct dtime; by rewrite !lookup_insert_ne by done.
Qed.

Lemma stored_account_decodes_from_its_columns :
  exists ret,
    scanResource linked (project all_columns (created_row Account create_a1 "uid-1" 100%Z 101%Z))
    = Ok ret /\
    any_value ret !! "uid" = Some (VString "uid-1") /\
    any_value ret !! "name" = Some (VString "accounts/a1").
Proof.
  eexists. split; [vm_compute; reflexivity|].
  edestruct (scanResource_prefers_the_columns linked
               (created_row Account create_a1 "uid-1" 100%Z 101%Z))
    as (payload & d & sc & su & ctime & utime & _ & _ & _ & _ & _ & _ & _ & Huid & Hname & _).
  - vm_compute. reflexivity.
  - split; [exact Huid|exact Hname].
Defined.

(** ** Clearing the output-only fields *)

(** X16: [clearOutputOnlyFields] keeps the type of its message, only
    unsets fields, is idempotent, and returns an equal message when the
    type tags no field [OUTPUT_ONLY]. *)
Theorem clearOutputOnlyFields_only_clears (m : Message) :
  msg_desc (clearOutputOnlyFields m) = msg_desc m /\
  (forall name v,
     msg_fields (clearOutputOnlyFields m) !! name = Some v ->
     msg_fields m !! name = Some v /\ ~ output_only_named (msg_desc m) name) /\
  clearOutputOnlyFields (clearOutputOnlyFields m) = clearOutputOnlyFields m /\
  ((forall fd, fd ∈ md_fields (msg_desc m) -> OUTPUT_ONLY ∉ fd_behavior fd) ->
   clearOutputOnlyFields m = m).
Proof.
  assert (Hequal : forall m1 m2 : Message,
            msg_desc m1 = msg_desc m2 ->
            (forall name, msg_fields m1 !! name = msg_fields m2 !! name) ->
            m1 = m2).
  { intros [d1 f1] [d2 f2]. cbn. intros -> Hfields. f_equal. by apply map_eq. }
  split_and!.
  - done.
  - intros name v. rewrite clearOutputOnlyFields_lookup. by case_decide.
  - apply Hequal; [done|]. intros name.
    rewrite (clearOutputOnlyFields_lookup (clearOutputOnlyFields m)).
    cbn [clearOutputOnlyFields msg_desc].
    case_decide as Hout; [|done].
    rewrite clearOutputOnlyFields_lookup. by rewrite decide_True.
  - intros Hnone. apply Hequal; [done|]. intros name.
    rewrite clearOutputOnlyFields_lookup. rewrite decide_False; [done|].
    intros (fd & Hfd & _ & Hbehavior)%Exists_exists.
    by apply (Hnone fd).
Qed.

(** ** Reading a filter off a request *)

(** X17: [getFilterValue] never panics and never fails.  It returns the
    empty string for a message whose type has no [filter] field and for
    one whose string field [filter] is unset, and the text of the field
    otherwise. *)
Theorem getFilterValue_total (req : Message) :
  exists s,
    getFilterValue req = Ok s /\
    (ByName (msg_desc req) "filter" = None -> s = "") /\
    (has_field (msg_desc req) "filter" StringKind = true ->
     s = match msg_fields req !! "filter" with
         | Some v => Value_String v
         | None => ""
         end).
Proof.
  unfold getFilterValue, has_field.
  destruct (ByName (msg_desc req) "filter") as [filter|] eqn:Hfilter.
  - destruct (ByName_name _ _ _ Hfilter) as [Hname Hin].
    unfold Get, checkField. rewrite bool_decide_eq_true_2 by done. cbn.
    eexists. split; [done|]. split; [done|].
    intros Hkind%bool_decide_eq_true_1. rewrite Hname, Hkind.
    by destruct (msg_fields req !! "filter").
  - exists "". by split_and!.
Qed.

(** ** When the transaction is left open *)

Lemma left_open_begun (r : resourceServer) : left_open r (begun r).
Proof. repeat split. by eexists. Qed.

Lemma in_transaction_begun {B} (k : M B) (r : resourceServer) :
  in_transaction r k ->
  match k (begun r) with
  | (Ok _, _) => True
  | (_, r') => left_open r r'
  end.
Proof. intros Hk. apply Hk, left_open_begun. Qed.

Lemma atomicUpdateResource_leaks (G : list MessageDescriptor) (resourceName resourceType : string)
    (updater : updaterFunc) (now : Time) (r : resourceServer) (d : MessageDescriptor) :
  resources r !! resourceType = Some d ->
  match atomicUpdateResource G resourceName resourceType updater now r with
  | (Ok _, r') => open_txs (database r') = open_txs (database r)
  | (_, r') => left_open r r'
  end.
Proof.
  intros Hd.
  destruct (atomicUpdateResource G resourceName resourceType updater now r)
    as [[ret| |] r'] eqn:Hrun.
  { by apply atomicUpdateResource_Ok in Hrun as (? & ? & ? & ? & ? & ? & _ & _ & _ & _ & ? & _). }
  all: unfold atomicUpdateResource in Hrun;
    rewrite bind_self, bind_lift in Hrun; unfold GetResourceDescriptor in Hrun;
    rewrite Hd in Hrun; cbv zeta in Hrun; rewrite bind_BeginTx in Hrun;
    match type of Hrun with
    | ?k (begun ?s) = _ => assert (Hk : in_transaction s k)
    end;
    [ do 3 (apply in_transaction_bind; [auto with tx|intros ?]);
      match goal with both : (Message * Message)%type |- _ => destruct both end;
      apply in_transaction_bind; [auto with tx|intros [|]];
      [ apply tx_step_in_transaction; auto with tx
      | apply storeUpdatedResource_in_transaction ]
    | apply in_transaction_begun in Hk; by rewrite Hrun in Hk ].
Qed.

Lemma PurgeResource_leaks (req : PurgeResourceRequest) (r : resourceServer)
    (d : MessageDescriptor) :
  resources r !! purge_ResourceType req = Some d ->
  match PurgeResource req r with
  | (Ok _, r') => open_txs (database r') = open_txs (database r)
  | (_, r') => left_open r r'
  end.
Proof.
  intros Hd. unfold PurgeResource.
  rewrite bind_self, bind_lift. unfold GetResourceDescriptor. rewrite Hd.
  rewrite bind_BeginTx, bind_lift.
  destruct (getResourceTableName d) as [table| |]; [|apply left_open_begun..].
  rewrite bind_tx_query, tx_tables_begun. unfold sql_prepare.
  destruct (tables (database r) !! table) as [rows|] eqn:Hrows; [|apply left_open_begun].
  rewrite bind_tx_exec, tx_tables_begun. unfold sql_delete. by rewrite Hrows.
Qed.

(** ** What a successful mutation has stored *)

(** What a successful [CreateResource] went through, with the message
    that it stamped and the row that it inserted. *)
Lemma CreateResource_Ok_stored (G : list MessageDescriptor) (req : CreateResourceRequest)
    (uid : string) (now_create now_update : Time) (r r' : resourceServer) (ret : Any) :
  CreateResource G req uid now_create now_update r = (Ok ret, r') ->
  exists d ann rows row,
    FindMessageByURL G (type_url (create_Resource req)) = Some d /\
    md_resource d = Some ann /\
    tables (database r) !! (res_singular ann +:+ "_resource") = Some rows /\
    ret = anypb_New (created_resource d req uid now_create now_update) /\
    row_data row
      = JsonAny (anypb_New (clearOutputOnlyFields
                              (created_resource d req uid now_create now_update))) /\
    row_delete_time row = None /\
    tables (database r')
      = <[res_singular ann +:+ "_resource" := rows ++ [row]]> (tables (database r)).
Proof.
  unfold CreateResource. intros H. rewrite bind_self in H.
  lift_inv H u Hregistered. lift_inv H m0 Hm0.
  lift_inv H m1 Hm1. lift_inv H m2 Hm2. lift_inv H resource Hresource.
  lift_inv H reqJson HreqJson. rewrite bind_BeginTx in H.
  lift_inv H name Hname. tx_query_inv H found Hfound.
  destruct found as [existing|]; [done|].
  lift_inv H table Htable. tx_query_inv H u' Hprepare.
  lift_inv H vuid Hvuid. lift_inv H vname Hvname.
  lift_inv H create_time Hcreate. lift_inv H update_time Hupdate.
  tx_exec_inv H t Hinsert. rewrite bind_Commit in H.
  injection H as <- <-.
  unfold UnmarshalNew in Hm0.
  destruct (FindMessageByURL G (type_url (create_Resource req))) as [d|] eqn:Hd; [|done].
  injection Hm0 as <-. cbn [msg_desc] in *.
  apply Set_ByName_Ok in Hm1 as (fu & _ & _ & ->). cbn [msg_desc msg_fields] in *.
  apply Set_ByName_Ok in Hm2 as (fc & _ & _ & ->). cbn [msg_desc msg_fields] in *.
  assert (Hstamped : resource = created_resource d req uid now_create now_update).
  { bind_inv Hupdate v Hv. apply Get_declared in Hv as [f Hf]. rewrite Hf in Hresource.
    rewrite <- Hf in Hresource.
    by apply (Set_ByName_Ok _ _ d "update_time") in Hresource as (fu' & _ & _ & ->). }
  subst resource. cbn [created_resource msg_desc] in Htable.
  unfold getResourceTableName in Htable.
  destruct (md_resource d) as [ann|] eqn:Hann; [|done]. injection Htable as <-.
  rewrite tx_tables_begun in Hinsert.
  apply sql_insert_Ok in Hinsert as (rows & Hrows & -> & _).
  apply protojson_Marshal_Ok in HreqJson as ->.
  exists d, ann, rows. eexists. split_and!; try done; reflexivity.
Qed.

(** What a successful [atomicUpdateResource] went through: the stored
    resource that it fetched, the message that the updater handed back,
    and the rows that it rewrote with the stamped message. *)
Lemma atomicUpdateResource_Ok_stored (G : list MessageDescriptor)
    (resourceName resourceType : string) (updater : updaterFunc) (now : Time)
    (r r' : resourceServer) (ret : Any) :
  atomicUpdateResource G resourceName resourceType updater now r = (Ok ret, r') ->
  exists d existing unpacked mutated handed ann rows deletion name,
    resources r !! resourceType = Some d /\
    getResource G r (tables (database r))
      {| get_Name := resourceName; get_ResourceType := resourceType |} = Ok existing /\
    UnmarshalNew G existing = Ok unpacked /\
    updater unpacked = Ok (mutated, handed) /\
    updatesConflict mutated handed = Ok false /\
    has_field d "update_time" MessageKind = true /\
    is_Some (ByName d "name") /\
    is_Some (ByName (msg_desc handed) "delete_time") /\
    md_resource (msg_desc handed) = Some ann /\
    tables (database r) !! (res_singular ann +:+ "_resource") = Some rows /\
    getResourceDeletion (with_update_time handed now) = Ok deletion /\
    ret = anypb_New (with_update_time handed now) /\
    tables (database r')
      = <[res_singular ann +:+ "_resource" :=
            map (set_columns (Format_RFC3339Nano now) deletion
                   (JsonAny (anypb_New (clearOutputOnlyFields (with_update_time handed now))))
                   name) rows]> (tables (database r)).
Proof.
  unfold atomicUpdateResource. intros H. rewrite bind_self in H.
  lift_inv H d Hd. rewrite bind_BeginTx in H.
  tx_query_inv H existing Hexisting. lift_inv H unpacked Hunpacked.
  lift_inv H both Hupdater. destruct both as [mutated handed].
  lift_inv H conflict Hconflict. destruct conflict; [done|].
  unfold storeUpdatedResource in H.
  lift_inv H updated Hupdated. lift_inv H reqJson HreqJson.
  lift_inv H table Htable. lift_inv H deletion Hdeletion.
  tx_query_inv H u Hprepare. lift_inv H update_time Hupdate_time.
  lift_inv H name Hname. tx_exec_inv H t Hexec. rewrite bind_Commit in H.
  injection H as <- <-.
  unfold GetResourceDescriptor in Hd.
  destruct (resources r !! resourceType) as [d'|] eqn:Hknown; [|done]. injection Hd as ->.
  rewrite tx_tables_begun in Hexisting, Hprepare, Hexec.
  pose proof Hupdate_time as Hut. bind_inv Hut v Hv.
  apply Get_checked in Hv as (f & Hf & _).
  rewrite Hf in Hupdated. rewrite <- Hf in Hupdated.
  apply (Set_ByName_Ok _ _ d "update_time") in Hupdated as (f' & Hf' & Hkind & ->).
  fold (with_update_time handed now) in *.
  assert (Hstamp : update_time = now).
  { unfold Get, checkField in Hupdate_time. rewrite Hf in Hupdate_time.
    destruct (bool_decide (f ∈ _)); [|done]. cbn in Hupdate_time.
    destruct (ByName_name _ _ _ Hf) as [Hname_f _]. rewrite Hname_f in Hupdate_time.
    rewrite lookup_insert_eq in Hupdate_time. cbn in Hupdate_time. congruence. }
  subst update_time.
  unfold getResourceTableName in Htable. cbn [with_update_time msg_desc] in Htable.
  destruct (md_resource (msg_desc handed)) as [ann|] eqn:Hann; [|done].
  injection Htable as <-.
  apply sql_prepare_Ok in Hprepare as [rows Hrows].
  unfold sql_update in Hexec. rewrite Hrows in Hexec. injection Hexec as <-.
  apply protojson_Marshal_Ok in HreqJson as ->.
  exists d, existing, unpacked, mutated, handed, ann, rows, deletion, (Value_String name).
  split_and!; try done.
  - unfold has_field. rewrite Hf'. rewrite Hf in Hf'. injection Hf' as <-.
    apply bool_decide_eq_true_2. by rewrite <- Hkind.
  - apply Get_checked in Hname as (g & Hg & _). by exists g.
  - unfold getResourceDeletion in Hdeletion. bind_inv Hdeletion w Hw.
    apply Get_checked in Hw as (g & Hg & _). by exists g.
Qed.

(** What the updaters of Update, Delete and Undelete hand back. *)
Lemma UpdateResource_updater_Ok (G : list MessageDescriptor) (req : UpdateResourceRequest)
    (existing mutated handed : Message) :
  UpdateResource_updater G req existing = Ok (mutated, handed) ->
  exists d,
    FindMessageByURL G (type_url (update_Resource req)) = Some d /\
    handed = {| msg_desc := d; msg_fields := any_value (update_Resource req) |} /\
    mutated = existing.
Proof.
  unfold UpdateResource_updater. intros H.
  bind_inv H selected Hmask. bind_inv H updatedResource Hupdated.
  bind_inv H existingResource Hexisting. bind_inv H merged Hmerged.
  injection H as <- <-.
  unfold UnmarshalNew in Hupdated.
  destruct (FindMessageByURL G (type_url (update_Resource req))) as [d|]; [|done].
  injection Hupdated as <-. by exists d.
Qed.

Lemma DeleteResource_updater_Ok (now_delete : Time) (existing mutated handed : Message) :
  (stamped_message ← Set_ existing (ByName (msg_desc existing) "delete_time")
                       (VMessage (Some now_delete));
   Ok (stamped_message, stamped_message)) = Ok (mutated, handed) ->
  handed = {| msg_desc := msg_desc existing;
              msg_fields := <["delete_time" := VMessage (Some now_delete)]>
                              (msg_fields existing) |} /\
  mutated = handed.
Proof.
  intros H. bind_inv H stamped_message Hset. injection H as <- <-.
  by apply Set_ByName_Ok in Hset as (f & _ & _ & ->).
Qed.

Lemma UndeleteResource_updater_Ok (existing mutated handed : Message) :
  (cleared ← Clear existing (ByName (msg_desc existing) "delete_time");
   Ok (cleared, cleared)) = Ok (mutated, handed) ->
  handed = {| msg_desc := msg_desc existing;
              msg_fields := delete "delete_time" (msg_fields existing) |} /\
  mutated = handed.
Proof.
  intros H. bind_inv H cleared Hclear. injection H as <- <-.
  unfold Clear, checkField in Hclear.
  destruct (ByName (msg_desc existing) "delete_time") as [f|] eqn:Hf; [|done].
  destruct (ByName_name _ _ _ Hf) as [Hname _].
  destruct (bool_decide (f ∈ _)); [|done]. cbn in Hclear.
  injection Hclear as <-. by rewrite Hname.
Qed.

(** C6: the payload that [CreateResource] and [atomicUpdateResource]
    (hence Update, Delete and Undelete) store is the protojson of the
    clone that [clearOutputOnlyFields] makes of the message they return.
    That message is the request's, stamped, for Create and Update, and
    the stored one with [delete_time] set or unset, stamped, for Delete
    and Undelete; its type is the linked type of its type URL; and in the
    clone every field that this type tags [OUTPUT_ONLY] is unpopulated
    and every other field is as in the message. *)
Theorem stored_payload_has_no_output_only_value (G : list MessageDescriptor) :
  (forall m fd,
     fd ∈ md_fields (msg_desc m) -> OUTPUT_ONLY ∈ fd_behavior fd ->
     any_value (anypb_New (clearOutputOnlyFields m)) !! fd_name fd = None) /\
  (forall m name,
     ~ output_only_named (msg_desc m) name ->
     any_value (anypb_New (clearOutputOnlyFields m)) !! name = msg_fields m !! name) /\
  (forall req uid now_create now_update r r' ret,
     CreateResource G req uid now_create now_update r = (Ok ret, r') ->
     exists d table rows row,
       let resource := created_resource d req uid now_create now_update in
       FindMessageByURL G (type_url (create_Resource req)) = Some d /\
       ret = anypb_New resource /\
       tables (database r) !! table = Some rows /\
       tables (database r') = <[table := rows ++ [row]]> (tables (database r)) /\
       row_data row = JsonAny (anypb_New (clearOutputOnlyFields resource)) /\
       payload_clean d (row_data row)) /\
  (forall resourceName resourceType updater now r r' ret,
     atomicUpdateResource G resourceName resourceType updater now r = (Ok ret, r') ->
     exists existing unpacked mutated handed table rows update_time deletion name,
       let updated := with_update_time handed now in
       let data := JsonAny (anypb_New (clearOutputOnlyFields updated)) in
       getResource G r (tables (database r))
         {| get_Name := resourceName; get_ResourceType := resourceType |} = Ok existing /\
       UnmarshalNew G existing = Ok unpacked /\
       updater unpacked = Ok (mutated, handed) /\
       ret = anypb_New updated /\
       tables (database r) !! table = Some rows /\
       tables (database r')
         = <[table := map (set_columns update_time deletion data name) rows]>
             (tables (database r)) /\
       payload_clean (msg_desc handed) data) /\
  (forall req now r r' ret,
     UpdateResource G req now r = (Ok ret, r') ->
     exists d table rows update_time deletion name,
       let updated :=
         with_update_time {| msg_desc := d; msg_fields := any_value (update_Resource req) |}
           now in
       let data := JsonAny (anypb_New (clearOutputOnlyFields updated)) in
       FindMessageByURL G (type_url (update_Resource req)) = Some d /\
       ret = anypb_New updated /\
       tables (database r) !! table = Some rows /\
       tables (database r')
         = <[table := map (set_columns update_time deletion data name) rows]>
             (tables (database r)) /\
       payload_clean d data) /\
  (forall req now_delete now r r' ret,
     DeleteResource G req now_delete now r = (Ok ret, r') ->
     exists existing d table rows update_time deletion name,
       let updated :=
         with_update_time
           {| msg_desc := d;
              msg_fields := <["delete_time" := VMessage (Some now_delete)]>
                              (any_value existing) |} now in
       let data := JsonAny (anypb_New (clearOutputOnlyFields updated)) in
       getResource G r (tables (database r))
         {| get_Name := delete_Name req; get_ResourceType := delete_ResourceType req |}
         = Ok existing /\
       FindMessageByURL G (type_url existing) = Some d /\
       ret = anypb_New updated /\
       tables (database r) !! table = Some rows /\
       tables (database r')
         = <[table := map (set_columns update_time deletion data name) rows]>
             (tables (database r)) /\
       payload_clean d data) /\
  (forall req now r r' ret,
     UndeleteResource G req now r = (Ok ret, r') ->
     exists existing d table rows update_time deletion name,
       let updated :=
         with_update_time
           {| msg_desc := d; msg_fields := delete "delete_time" (any_value existing) |} now in
       let data := JsonAny (anypb_New (clearOutputOnlyFields updated)) in
       getResource G r (tables (database r))
         {| get_Name := undelete_Name req; get_ResourceType := undelete_ResourceType req |}
         = Ok existing /\
       FindMessageByURL G (type_url existing) = Some d /\
       ret = anypb_New updated /\
       tables (database r) !! table = Some rows /\
       tables (database r')
         = <[table := map (set_columns update_time deletion data name) rows]>
             (tables (database r)) /\
       payload_clean d data).
Proof.
  split_and!.
  - apply clearOutputOnlyFields_cleared.
  - intros m name Hnot. cbn [anypb_New any_value].
    by rewrite clearOutputOnlyFields_lookup, decide_False.
  - intros * H.
    apply CreateResource_Ok_stored in H
      as (d & ann & rows & row & Hd & _ & Hrows & -> & Hdata & _ & Htables).
    exists d, (res_singular ann +:+ "_resource"), rows, row. cbv zeta.
    split_and!; try done.
    rewrite Hdata.
    apply (clearOutputOnlyFields_clean (created_resource d req uid now_create now_update)).
  - intros * H.
    apply atomicUpdateResource_Ok_stored in H
      as (d & existing & unpacked & mutated & handed & ann & rows & deletion & name &
          _ & Hget & Hunpacked & Hupdater & _ & _ & _ & _ & _ & Hrows & _ & -> & Htables).
    exists existing, unpacked, mutated, handed, (res_singular ann +:+ "_resource"), rows,
           (Format_RFC3339Nano now), deletion, name. cbv zeta.
    split_and!; try done.
    apply (clearOutputOnlyFields_clean (with_update_time handed now)).
  - intros * H. unfold UpdateResource in H. lift_inv H rname Hname.
    apply atomicUpdateResource_Ok_stored in H
      as (d0 & existing & unpacked & mutated & handed & ann & rows & deletion & name &
          _ & _ & _ & Hupdater & _ & _ & _ & _ & _ & Hrows & _ & -> & Htables).
    apply UpdateResource_updater_Ok in Hupdater as (d & Hd & -> & _).
    exists d, (res_singular ann +:+ "_resource"), rows, (Format_RFC3339Nano now),
           deletion, name. cbv zeta.
    split_and!; try done.
    apply (clearOutputOnlyFields_clean
             (with_update_time
                {| msg_desc := d; msg_fields := any_value (update_Resource req) |} now)).
  - intros * H. unfold DeleteResource in H.
    apply atomicUpdateResource_Ok_stored in H
      as (d0 & existing & unpacked & mutated & handed & ann & rows & deletion & name &
          _ & Hget & Hunpacked & Hupdater & _ & _ & _ & _ & _ & Hrows & _ & -> & Htables).
    apply DeleteResource_updater_Ok in Hupdater as (-> & _).
    apply UnmarshalNew_Ok in Hunpacked as (Hd & Hfields).
    exists existing, (msg_desc unpacked), (res_singular ann +:+ "_resource"), rows,
           (Format_RFC3339Nano now), deletion, name. cbv zeta.
    rewrite <- Hfields. split_and!; try done.
    apply (clearOutputOnlyFields_clean
             (with_update_time
                {| msg_desc := msg_desc unpacked;
                   msg_fields := <["delete_time" := VMessage (Some now_delete)]>
                                   (msg_fields unpacked) |} now)).
  - intros * H. unfold UndeleteResource in H.
    apply atomicUpdateResource_Ok_stored in H
      as (d0 & existing & unpacked & mutated & handed & ann & rows & deletion & name &
          _ & Hget & Hunpacked & Hupdater & _ & _ & _ & _ & _ & Hrows & _ & -> & Htables).
    apply UndeleteResource_updater_Ok in Hupdater as (-> & _).
    apply UnmarshalNew_Ok in Hunpacked as (Hd & Hfields).
    exists existing, (msg_desc unpacked), (res_singular ann +:+ "_resource"), rows,
           (Format_RFC3339Nano now), deletion, name. cbv zeta.
    rewrite <- Hfields. split_and!; try done.
    apply (clearOutputOnlyFields_clean
             (with_update_time
                {| msg_desc := msg_desc unpacked;
                   msg_fields := delete "delete_time" (msg_fields unpacked) |} now)).
Qed.

(** The row that stores [accounts/a1] holds none of the fields that
    [Account] tags [OUTPUT_ONLY], [uid] and [create_time] among them,
    although the value that the create returned carries them. *)
Lemma stored_account_payload_is_clean :
  exists rows row payload,
    fst (CreateResource linked create_a1 "uid-1" 100%Z 101%Z registered)
      = Ok (anypb_New (created_resource Account create_a1 "uid-1" 100%Z 101%Z)) /\
    tables (database with_a1)
      = <["account_resource" := rows ++ [row]]> (tables (database registered)) /\
    row_data row = JsonAny payload /\
    payload_clean Account (row_data row) /\
    any_value payload !! "uid" = None /\
    any_value payload !! "create_time" = None /\
    any_value payload !! "display_name" = Some (VString "Joe").
Proof.
  destruct (stored_payload_has_no_output_only_value linked) as (_ & _ & Hcreate & _).
  edestruct (Hcreate create_a1 "uid-1" 100%Z 101%Z registered)
    as (d & table & rows & row & Hd & Hret & Hrows & Htables & Hdata & Hclean).
  - vm_compute. reflexivity.
  - vm_compute in Hd. injection Hd as <-.
    assert (table = "account_resource") as ->.
    { destruct (decide (table = "account_resource")) as [|Hne]; [done|].
      apply (f_equal (fun t : Tables => t !! "account_resource")) in Htables.
      rewrite lookup_insert_ne in Htables by done. vm_compute in Htables. done. }
    exists rows, row. eexists. split_and!.
    + reflexivity.
    + exact Htables.
    + exact Hdata.
    + exact Hclean.
    + vm_compute. reflexivity.
    + vm_compute. reflexivity.
    + vm_compute. reflexivity.
Defined.

(** ** What a success shows about the type *)

(** X11: what a success shows about the type of the resource.  A
    [CreateResource] succeeds only on a type that is registered under
    the request's type URL and linked under it, whose descriptor
    carries the [google.api.resource] annotation and declares [uid] as a
    string, [create_time] and [update_time] as messages and some field
    [name], and whose table exists.  An [atomicUpdateResource] succeeds
    only if the registered descriptor declares [update_time] as a
    message and some field [name], and the type of the message that the
    updater handed back is annotated, has its table and declares
    [delete_time].  So [UpdateResource] never succeeds when the linked
    type of the request has no [delete_time], and [DeleteResource] and
    [UndeleteResource] succeed only on a stored resource whose linked
    type declares it. *)
Theorem mutations_succeed_only_on_resource_types (G : list MessageDescriptor)
    (r r' : resourceServer) (ret : Any) :
  (forall req uid now_create now_update,
     CreateResource G req uid now_create now_update r = (Ok ret, r') ->
     exists d ann rows,
       is_Some (resources r !! type_url (create_Resource req)) /\
       FindMessageByURL G (type_url (create_Resource req)) = Some d /\
       md_resource d = Some ann /\
       has_field d "uid" StringKind = true /\
       has_field d "create_time" MessageKind = true /\
       has_field d "update_time" MessageKind = true /\
       is_Some (ByName d "name") /\
       tables (database r) !! (res_singular ann +:+ "_resource") = Some rows /\
       type_url ret = "type.googleapis.com/" +:+ md_full_name d) /\
  (forall resourceName resourceType updater now,
     atomicUpdateResource G resourceName resourceType updater now r = (Ok ret, r') ->
     exists d existing unpacked mutated handed ann rows,
       resources r !! resourceType = Some d /\
       getResource G r (tables (database r))
         {| get_Name := resourceName; get_ResourceType := resourceType |} = Ok existing /\
       UnmarshalNew G existing = Ok unpacked /\
       updater unpacked = Ok (mutated, handed) /\
       ret = anypb_New (with_update_time handed now) /\
       md_resource (msg_desc handed) = Some ann /\
       tables (database r) !! (res_singular ann +:+ "_resource") = Some rows /\
       has_field d "update_time" MessageKind = true /\
       is_Some (ByName d "name") /\
       is_Some (ByName (msg_desc handed) "delete_time")) /\
  (forall req now d,
     FindMessageByURL G (type_url (update_Resource req)) = Some d ->
     ByName d "delete_time" = None ->
     UpdateResource G req now r <> (Ok ret, r')) /\
  (forall req now_delete now,
     DeleteResource G req now_delete now r = (Ok ret, r') ->
     exists existing d,
       getResource G r (tables (database r))
         {| get_Name := delete_Name req; get_ResourceType := delete_ResourceType req |}
         = Ok existing /\
       FindMessageByURL G (type_url existing) = Some d /\
       is_Some (ByName d "delete_time")) /\
  (forall req now,
     UndeleteResource G req now r = (Ok ret, r') ->
     exists existing d,
       getResource G r (tables (database r))
         {| get_Name := undelete_Name req; get_ResourceType := undelete_ResourceType req |}
         = Ok existing /\
       FindMessageByURL G (type_url existing) = Some d /\
       is_Some (ByName d "delete_time")).
Proof.
  split_and!.
  - intros req uid now_create now_update. apply CreateResource_Ok_schema.
  - intros resourceName resourceType updater now H.
    apply atomicUpdateResource_Ok_stored in H
      as (d & existing & unpacked & mutated & handed & ann & rows & deletion & name &
          Hd & Hget & Hunpacked & Hupdater & _ & Hut & Hname & Hdt & Hann & Hrows & _ & -> & _).
    by exists d, existing, unpacked, mutated, handed, ann, rows.
  - intros req now d Hd Hnone H. unfold UpdateResource in H. lift_inv H rname Hname.
    apply atomicUpdateResource_Ok_stored in H
      as (d0 & existing & unpacked & mutated & handed & ann & rows & deletion & name &
          _ & _ & _ & Hupdater & _ & _ & _ & [f Hf] & _).
    apply UpdateResource_updater_Ok in Hupdater as (d' & Hd' & -> & _).
    cbn [msg_desc] in Hf. congruence.
  - intros req now_delete now H. unfold DeleteResource in H.
    apply atomicUpdateResource_Ok_stored in H
      as (d0 & existing & unpacked & mutated & handed & ann & rows & deletion & name &
          _ & Hget & Hunpacked & Hupdater & _ & _ & _ & Hdt & _).
    apply DeleteResource_updater_Ok in Hupdater as (-> & _).
    apply UnmarshalNew_Ok in Hunpacked as (Hd & _).
    by exists existing, (msg_desc unpacked).
  - intros req now H. unfold UndeleteResource in H.
    apply atomicUpdateResource_Ok_stored in H
      as (d0 & existing & unpacked & mutated & handed & ann & rows & deletion & name &
          _ & Hget & Hunpacked & Hupdater & _ & _ & _ & Hdt & _).
    apply UndeleteResource_updater_Ok in Hupdater as (-> & _).
    apply UnmarshalNew_Ok in Hunpacked as (Hd & _).
    by exists existing, (msg_desc unpacked).
Qed.

Lemma created_account_is_of_a_resource_type :
  exists d ann rows,
    is_Some (resources registered !! "features.Account") /\
    FindMessageByURL linked "features.Account" = Some d /\
    md_resource d = Some ann /\
    has_field d "uid" StringKind = true /\
    has_field d "create_time" MessageKind = true /\
    has_field d "update_time" MessageKind = true /\
    is_Some (ByName d "name") /\
    tables (database registered) !! (res_singular ann +:+ "_resource") = Some rows.
Proof.
  edestruct (mutations_succeed_only_on_resource_types linked registered) as [Hcreate _].
  edestruct (Hcreate create_a1 "uid-1" 100%Z 101%Z)
    as (d & ann & rows & H1 & H2 & H3 & H4 & H5 & H6 & H7 & H8 & _).
  { vm_compute. reflexivity. }
  exists d, ann, rows. split_and!; assumption.
Defined.

(** ** Failures never roll back *)

Ltac before_step :=
  match goal with
  | |- context [ (lift ?x ≫= _) _ ] =>
      rewrite bind_lift; destruct x; cbn [mbind result_bind];
      [ cbv zeta | by intros ?; simplify_eq .. ]
  end.

Lemma CreateResource_fails_before_BeginTx (G : list MessageDescriptor) (r : resourceServer)
    (req : CreateResourceRequest) (uid : string) (now_create now_update : Time) :
  match CreateResource_before_BeginTx G r req uid now_create now_update with
  | Ok _ => True
  | Err e => CreateResource G req uid now_create now_update r = (Err e, r)
  | Panic => CreateResource G req uid now_create now_update r = (Panic, r)
  end.
Proof.
  destruct (CreateResource_before_BeginTx G r req uid now_create now_update)
    as [both|e|] eqn:Hbefore; [done| |];
    revert Hbefore; unfold CreateResource_before_BeginTx, CreateResource;
    rewrite bind_self; do 6 before_step; by intros ?.
Qed.

Lemma CreateResource_begins (G : list MessageDescriptor) (r : resourceServer)
    (req : CreateResourceRequest) (uid : string) (now_create now_update : Time) :
  begins_after (CreateResource_before_BeginTx G r req uid now_create now_update)
    (CreateResource G req uid now_create now_update) r.
Proof.
  pose proof (CreateResource_fails_before_BeginTx G r req uid now_create now_update) as Hfails.
  unfold begins_after.
  destruct (CreateResource_before_BeginTx G r req uid now_create now_update)
    as [[resource reqJson]|e|] eqn:Hbefore; [|done..].
  unfold commits_or_leaves_open.
  destruct (CreateResource G req uid now_create now_update r) as [[ret| |] r'] eqn:Hrun.
  { by apply CreateResource_Ok in Hrun as (? & ? & ? & ? & _ & _ & _ & _ & _ & _ & ? & _). }
  all: unfold CreateResource_before_BeginTx in Hbefore;
    bind_inv Hbefore u H1; bind_inv Hbefore m0 H2; bind_inv Hbefore m1 H3;
    bind_inv Hbefore m2 H4; bind_inv Hbefore m3 H5; bind_inv Hbefore data H6;
    unfold CreateResource in Hrun;
    rewrite bind_self, bind_lift, H1, bind_lift, H2 in Hrun; cbv zeta in Hrun;
    rewrite bind_lift, H3, bind_lift, H4, bind_lift, H5 in Hrun; cbv zeta in Hrun;
    rewrite bind_lift, H6, bind_BeginTx in Hrun;
    match type of Hrun with
    | ?k (begun ?s) = _ => assert (Hk : in_transaction s k)
    end;
    [ do 2 (apply in_transaction_bind; [auto with tx|intros ?]);
      match goal with found : option Any |- _ => destruct found end; in_tx
    | apply in_transaction_begun in Hk; by rewrite Hrun in Hk ].
Qed.

Lemma atomicUpdateResource_begins (G : list MessageDescriptor)
    (resourceName resourceType : string) (updater : updaterFunc) (now : Time)
    (r : resourceServer) :
  begins_after (GetResourceDescriptor r resourceType)
    (atomicUpdateResource G resourceName resourceType updater now) r.
Proof.
  unfold begins_after, GetResourceDescriptor.
  destruct (resources r !! resourceType) as [d|] eqn:Hd.
  - by apply (atomicUpdateResource_leaks G resourceName resourceType updater now r d).
  - by apply atomicUpdateResource_unknown.
Qed.

Lemma UpdateResource_begins (G : list MessageDescriptor) (req : UpdateResourceRequest)
    (now : Time) (r : resourceServer) :
  begins_after (UpdateResource_before_BeginTx G r req) (UpdateResource G req now) r.
Proof.
  pose proof (fun name => atomicUpdateResource_begins G name (type_url (update_Resource req))
                            (UpdateResource_updater G req) now r) as Hatomic.
  unfold begins_after, commits_or_leaves_open in *.
  unfold UpdateResource_before_BeginTx, UpdateResource. rewrite bind_lift.
  destruct (resourceName G (update_Resource req)) as [name| |]; cbn [mbind result_bind];
    [apply Hatomic|done..].
Qed.

Lemma PurgeResource_begins (req : PurgeResourceRequest) (r : resourceServer) :
  begins_after (GetResourceDescriptor r (purge_ResourceType req)) (PurgeResource req) r.
Proof.
  unfold begins_after, GetResourceDescriptor.
  destruct (resources r !! purge_ResourceType req) as [d|] eqn:Hd.
  - by apply (PurgeResource_leaks req r d).
  - unfold PurgeResource. rewrite bind_self, bind_lift.
    unfold GetResourceDescriptor. by rewrite Hd.
Qed.

(** C4 (as the code has it): a mutating call that fails commits
    nothing and never rolls back.  Each call begins its transaction
    once its first steps have succeeded: the registry lookup for
    Delete, Undelete and Purge, reading the name and the registry
    lookup for Update, the registry check, unmarshalling, stamping and
    encoding for Create.  When one of these steps fails the call fails
    the same way and the server is as it was.  When they succeed, every
    failure leaves the registry and the committed tables as they were
    and the transaction that the call began open, and a success leaves
    no transaction behind. *)
Theorem failed_mutations_commit_nothing (G : list MessageDescriptor) :
  ((forall req uid now_create now_update,
      fails_uncommitted (CreateResource G req uid now_create now_update)) /\
   (forall req now, fails_uncommitted (UpdateResource G req now)) /\
   (forall req now_delete now, fails_uncommitted (DeleteResource G req now_delete now)) /\
   (forall req now, fails_uncommitted (UndeleteResource G req now)) /\
   (forall req, fails_uncommitted (PurgeResource req))) /\
  (forall r,
     (forall req uid now_create now_update,
        begins_after (CreateResource_before_BeginTx G r req uid now_create now_update)
          (CreateResource G req uid now_create now_update) r) /\
     (forall req now,
        begins_after (UpdateResource_before_BeginTx G r req) (UpdateResource G req now) r) /\
     (forall req now_delete now,
        begins_after (GetResourceDescriptor r (delete_ResourceType req))
          (DeleteResource G req now_delete now) r) /\
     (forall req now,
        begins_after (GetResourceDescriptor r (undelete_ResourceType req))
          (UndeleteResource G req now) r) /\
     (forall req,
        begins_after (GetResourceDescriptor r (purge_ResourceType req))
          (PurgeResource req) r) /\
     (forall resourceName resourceType updater now,
        begins_after (GetResourceDescriptor r resourceType)
          (atomicUpdateResource G resourceName resourceType updater now) r)).
Proof.
  split.
  - split_and!; intros.
    + apply CreateResource_fails_uncommitted.
    + unfold UpdateResource.
      apply fails_uncommitted_bind; [auto with tx|intros name].
      apply atomicUpdateResource_fails_uncommitted.
    + unfold DeleteResource. apply atomicUpdateResource_fails_uncommitted.
    + unfold UndeleteResource. apply atomicUpdateResource_fails_uncommitted.
    + apply PurgeResource_fails_uncommitted.
  - intros r. split_and!; intros.
    + apply CreateResource_begins.
    + apply UpdateResource_begins.
    + unfold DeleteResource. apply atomicUpdateResource_begins.
    + unfold UndeleteResource. apply atomicUpdateResource_begins.
    + apply PurgeResource_begins.
    + apply atomicUpdateResource_begins.
Qed.

(** X18: on a registered type, a call of Delete, Undelete or Purge, of
    any [atomicUpdateResource], and of Update once [resourceName] has
    read the name off the resource of the request, that does not return
    a value leaves its transaction open over the unchanged registry and
    committed tables, whatever made it fail; one that returns a value
    leaves no transaction behind. *)
Theorem registered_failures_leave_the_transaction_open (G : list MessageDescriptor)
    (r : resourceServer) (resourceType : string) (d : MessageDescriptor) :
  resources r !! resourceType = Some d ->
  (forall name updater now,
     commits_or_leaves_open (atomicUpdateResource G name resourceType updater now) r) /\
  (forall fields mask now name,
     resourceName G {| type_url := resourceType; any_value := fields |} = Ok name ->
     commits_or_leaves_open
       (UpdateResource G
          {| update_Resource := {| type_url := resourceType; any_value := fields |};
             update_UpdateMask := mask |} now) r) /\
  (forall name now_delete now,
     commits_or_leaves_open
       (DeleteResource G {| delete_Name := name; delete_ResourceType := resourceType |}
          now_delete now) r) /\
  (forall name now,
     commits_or_leaves_open
       (UndeleteResource G
          {| undelete_Name := name; undelete_ResourceType := resourceType |} now) r) /\
  (forall name,
     commits_or_leaves_open
       (PurgeResource {| purge_Name := name; purge_ResourceType := resourceType |}) r).
Proof.
  intros Hd. unfold commits_or_leaves_open. split_and!.
  - intros name updater now. by apply (atomicUpdateResource_leaks G name resourceType _ now r d).
  - intros fields mask now name Hname. unfold UpdateResource.
    rewrite bind_lift. cbn [update_Resource type_url]. rewrite Hname.
    by apply (atomicUpdateResource_leaks G name resourceType _ now r d).
  - intros name now_delete now. unfold DeleteResource.
    by apply (atomicUpdateResource_leaks G name resourceType _ now r d).
  - intros name now. unfold UndeleteResource.
    by apply (atomicUpdateResource_leaks G name resourceType _ now r d).
  - intros name. by apply (PurgeResource_leaks _ r d).
Qed.

(** Deleting an account that does not exist leaves a transaction open. *)
Lemma missing_account_leaves_a_transaction_open :
  commits_or_leaves_open (DeleteResource linked delete_a1 300%Z 301%Z) registered /\
  open_txs (database (snd (DeleteResource linked delete_a1 300%Z 301%Z registered)))
  = [tables (database registered)].
Proof.
  split; [|vm_compute; reflexivity].
  edestruct (registered_failures_leave_the_transaction_open linked registered
               "features.Account" Account) as (_ & _ & Hdelete & _).
  - vm_compute. reflexivity.
  - apply (Hdelete "accounts/a1" 300%Z 301%Z).
Defined.

(** ** Creating a resource of a type without [update_time] *)

(** C5 fails on the code: [CreateResource] stamps [update_time] only
    when the type declares it, and later reads the field off the
    message without that guard.  On a registered type that declares
    [uid], [name] and [create_time] but no [update_time], whose table
    exists, a create whose name no row bears gets through the guarded
    stamping, begins its transaction, finds the name free and then
    panics on the nil descriptor of [update_time]: nothing is inserted
    and the transaction stays open. *)
Theorem CreateResource_panics_without_update_time (G : list MessageDescriptor)
    (r : resourceServer) (req : CreateResourceRequest) (uid : string)
    (now_create now_update : Time) (d : MessageDescriptor) (table : string)
    (rows : list Row) :
  registered_type G r (type_url (create_Resource req)) d ->
  has_field d "uid" StringKind = true ->
  has_field d "name" StringKind = true ->
  has_field d "create_time" MessageKind = true ->
  ByName d "update_time" = None ->
  getResourceTableName d = Ok table ->
  tables (database r) !! table = Some rows ->
  (forall row, row ∈ rows -> row_name row <> requested_name req) ->
  let resource :=
    {| msg_desc := d;
       msg_fields := <["create_time" := VMessage (Some now_create)]>
                       (<["uid" := VString uid]> (any_value (create_Resource req))) |} in
  CreateResource_before_BeginTx G r req uid now_create now_update
    = Ok (resource, JsonAny (anypb_New (clearOutputOnlyFields resource))) /\
  CreateResource G req uid now_create now_update r = (Panic, begun r) /\
  tables (database (begun r)) = tables (database r) /\
  open_txs (database (begun r)) = tables (database r) :: open_txs (database r).
Proof.
  intros Hregistered Huid Hname Hct Hnone Htable Hrows Hfree resource.
  pose proof (registered_type_URL _ _ _ _ Hregistered) as Hurl.
  destruct Hregistered as (Hd & Hfull & Hlinked).
  split_and!; [| |done..].
  - unfold CreateResource_before_BeginTx, assertRegisteredAnyResource. rewrite Hd.
    cbn [mbind result_bind]. unfold UnmarshalNew. rewrite Hurl.
    cbn [mbind result_bind msg_desc].
    rewrite (has_field_Set d _ "uid" (VString uid)) by done. cbn [mbind result_bind].
    rewrite (has_field_Set d _ "create_time" (VMessage (Some now_create))) by done.
    cbn [mbind result_bind msg_fields]. rewrite Hnone. cbn [mbind result_bind].
    fold resource. by rewrite protojson_Marshal_anypb_New.
  - unfold CreateResource. rewrite bind_self, bind_lift.
    unfold assertRegisteredAnyResource. rewrite Hd.
    rewrite bind_lift. unfold UnmarshalNew. rewrite Hurl. cbv zeta. cbn [msg_desc].
    rewrite bind_lift, (has_field_Set d _ "uid" (VString uid)) by done.
    rewrite bind_lift, (has_field_Set d _ "create_time" (VMessage (Some now_create))) by done.
    rewrite bind_lift, Hnone. cbn [msg_fields]. fold resource.
    rewrite bind_lift, protojson_Marshal_anypb_New by done.
    rewrite bind_BeginTx, bind_lift.
    rewrite (has_field_Get d resource "name" StringKind) by done.
    assert (Hrequested : Value_String (default (zero_value StringKind)
                                         (msg_fields resource !! "name")) = requested_name req).
    { subst resource. unfold requested_name. cbn [msg_fields].
      by rewrite !lookup_insert_ne by done. }
    rewrite Hrequested, bind_tx_query, tx_tables_begun.
    change (msg_desc resource) with d. rewrite Hfull.
    rewrite (getResource_select G r _ _ d table rows) by done.
    cbn [get_Name]. rewrite filter_none by done.
    rewrite bool_decide_eq_true_2 by done.
    rewrite bind_lift, Htable, bind_tx_query, tx_tables_begun.
    unfold sql_prepare. rewrite Hrows.
    rewrite bind_lift, (has_field_Get d resource "uid" StringKind) by done.
    rewrite !bind_lift, (Get_Timestamp d resource "create_time" now_create); [|done|done|].
    2:{ subst resource. cbn [msg_fields]. apply lookup_insert_eq. }
    by rewrite bind_lift.
Qed.

Lemma first_Badge_cannot_be_created :
  CreateResource (Badge :: linked) create_b1 "uid-9" 100%Z 101%Z with_Badge
    = (Panic, begun with_Badge) /\
  tables (database (begun with_Badge)) = tables (database with_Badge) /\
  tables (database with_Badge) !! "badge_resource" = Some [] /\
  open_txs (database (begun with_Badge)) = [tables (database with_Badge)].
Proof.
  edestruct (CreateResource_panics_without_update_time (Badge :: linked) with_Badge create_b1
               "uid-9" 100%Z 101%Z Badge "badge_resource" [])
    as (_ & Hpanic & Htables & Hopen).
  - repeat split; reflexivity.
  - reflexivity.
  - reflexivity.
  - reflexivity.
  - reflexivity.
  - reflexivity.
  - reflexivity.
  - intros row Hin. by apply elem_of_nil in Hin.
  - split_and!; [exact Hpanic|exact Htables|reflexivity|exact Hopen].
Defined.
